(** * Insomniapp: score normalisation, performance bands and latency calibration

    A shallow embedding of the scoring core of [insomniapp.py]
    (class [InsomniappSuite]) together with the properties of its band
    table, adaptive axis range, calibration store and trend report.

    Conventions of the embedding.
    - Python numbers (ints and floats alike) are exact rationals [Q];
      comparisons are the exact ones, and two rationals are compared with
      [==] ([Qeq]) in statements.
    - Python [dict]s whose iteration order matters (the band table, the
      dict built by the band clipper) are association lists in insertion
      order; the two stores keyed by a string ([self.results],
      [self.terminal_calibration]) are [gmap string _].
    - [print] is a list of emitted lines, and writing a JSON file is the
      replacement of the file's content by the dumped store.
    - What the program reads from its surroundings (the clock, the
      environment variables, the outcome of a trial) is a parameter of the
      function that reads it. *)

From Stdlib Require Import QArith Qminmax Qabs Qround Lqa Lia.
From Stdlib Require Import Sorting.Sorted Sorting.Permutation.
From stdpp Require Import gmap strings list pretty.

Open Scope Q_scope.

(** ** Numbers *)

(** Python's [a < b] on numbers. *)
Definition Qltb (x y : Q) : bool :=
  match x ?= y with Lt => true | _ => false end.

(** Python's [a >= b] on numbers. *)
Definition Qgeb (x y : Q) : bool := negb (Qltb x y).

(** Python's [a != b] on numbers. *)
Definition Qneb (x y : Q) : bool := negb (Qeq_bool x y).

(** [min(xs)] and [max(xs)] of a non-empty list given as head and tail:
    the first smallest (largest) element, found by a left-to-right scan. *)
Definition py_min (x : Q) (xs : list Q) : Q := fold_left Qmin xs x.
Definition py_max (x : Q) (xs : list Q) : Q := fold_left Qmax xs x.

(** [sum(xs)]. *)
Definition py_sum (xs : list Q) : Q := fold_left Qplus xs 0.

(** [round(x)]: the nearest integer, a tie going to the even neighbour. *)
Definition py_round (x : Q) : Z :=
  let f := Qfloor x in
  let r := x - inject_Z f in
  match Qcompare r (1 # 2) with
  | Lt => f
  | Gt => (f + 1)%Z
  | Eq => if Z.even f then f else (f + 1)%Z
  end.

(** [round(x, digits)]: [x] rounded to a multiple of [10^-digits]. *)
Definition py_round_to (x : Q) (digits : nat) : Q :=
  let scale := inject_Z (10 ^ Z.of_nat digits) in
  inject_Z (py_round (x * scale)) / scale.

(** ** Test kinds and their scoring information *)

Inductive TestKind : Type :=
  | ReactionTime | DigitSpan | MentalMath | WordRecall | StroopTest
  | SustainedAttention.

(** The key under which each kind is stored and looked up. *)
Definition test_name (k : TestKind) : string :=
  match k with
  | ReactionTime => "Reaction Time"
  | DigitSpan => "Digit Span"
  | MentalMath => "Mental Math"
  | WordRecall => "Word Recall"
  | StroopTest => "Stroop Test"
  | SustainedAttention => "Sustained Attention"
  end.

Record TestInfo : Type := mkTestInfo {
  description : string;
  score_type : string;
  good_range : string;
  lower_better : bool
}.

(** [get_test_info(test_name)]: the entry of the table, or the default
    entry for a name that is not in it. *)
Definition get_test_info (name : string) : TestInfo :=
  if String.eqb name "Reaction Time" then
    mkTestInfo "Response Speed Test (Inverted Display)"
      "Reaction speed score (higher is better on graph)"
      "Excellent: <0.200s | Good: 0.200-0.300s | Fair: 0.300-0.400s | Poor: >0.400s"
      false
  else if String.eqb name "Digit Span" then
    mkTestInfo "Working Memory Capacity"
      "Maximum digits recalled correctly"
      "Excellent: 8+ digits | Good: 6-7 digits | Average: 5-6 digits | Below Avg: <5 digits"
      false
  else if String.eqb name "Mental Math" then
    mkTestInfo "Processing Speed & Arithmetic (Time-Based) - Inverted Display"
      "Average time per problem with penalties (higher is better on graph)"
      "Excellent: <6.5s | Good: 6.5-11s | Average: 11-15.5s | Poor: >15.5s"
      false
  else if String.eqb name "Word Recall" then
    mkTestInfo "Memory Encoding & Retrieval"
      "Percentage of words correctly recalled"
      "Excellent: 80%+ | Good: 65-79% | Average: 50-64% | Below Avg: <50%"
      false
  else if String.eqb name "Stroop Test" then
    mkTestInfo
      "Attention & Cognitive Inhibition (Triple Interference + Time Pressure) - Inverted Display"
      "Response speed score (higher is better on graph)"
      "Excellent: <1.5s | Good: 1.5-2.0s | Average: 2.0-2.5s | Poor: >2.5s"
      false
  else if String.eqb name "Sustained Attention" then
    mkTestInfo "Focus & Mental Endurance (Speed-Based) - Inverted Display"
      "Attention speed score (higher is better on graph)"
      "Excellent: <3s | Good: 3-5s | Average: 5-8s | Poor: >8s"
      false
  else
    mkTestInfo "Cognitive Assessment" "Test score" "Ranges vary by test type"
      false.

(** ** The band table *)

(** A band is a pair [(band_min, band_max)]; a table lists its bands under
    their names, in the order the dict literal gives them. *)
Definition Band : Type := (Q * Q)%type.
Definition BandTable : Type := list (string * Band).

(** [get_performance_bands(test_name)]. *)
Definition get_performance_bands (name : string) : BandTable :=
  if String.eqb name "Reaction Time" then
    [("poor", (0.2, 0.4)); ("average", (0.4, 0.6)); ("good", (0.6, 0.8));
     ("excellent", (0.8, 1.0))]
  else if String.eqb name "Digit Span" then
    [("poor", (0, 4)); ("average", (4, 8)); ("good", (8, 12));
     ("excellent", (12, 16))]
  else if String.eqb name "Mental Math" then
    [("poor", (2.0, 6.5)); ("average", (6.5, 11.0)); ("good", (11.0, 15.5));
     ("excellent", (15.5, 20.0))]
  else if String.eqb name "Stroop Test" then
    [("poor", (1.0, 2.0)); ("average", (2.0, 3.0)); ("good", (3.0, 4.0));
     ("excellent", (4.0, 5.0))]
  else if String.eqb name "Sustained Attention" then
    [("poor", (1.0, 4.0)); ("average", (4.0, 7.0)); ("good", (7.0, 10.0));
     ("excellent", (10.0, 13.0))]
  else if String.eqb name "Word Recall" then
    [("poor", (0, 25)); ("average", (25, 50)); ("good", (50, 75));
     ("excellent", (75, 100))]
  else [].

(** The fixed range of a kind: what [_get_adaptive_y_range] returns when it
    has no data to look at. *)
Definition fixed_range (name : string) : Q * Q :=
  if String.eqb name "Reaction Time" then (0.2, 1.0)
  else if String.eqb name "Digit Span" then (0, 16)
  else if String.eqb name "Mental Math" then (2.0, 20.0)
  else if String.eqb name "Stroop Test" then (1.0, 5.0)
  else if String.eqb name "Sustained Attention" then (1.0, 13.0)
  else (0, 100).

(** The domain and band width of each kind as the specification's table of
    per-kind constants lists them. *)
Definition table_domain (k : TestKind) : Q * Q :=
  match k with
  | ReactionTime => (0.2, 1.0)
  | DigitSpan => (0, 16)
  | MentalMath => (2.0, 20.0)
  | WordRecall => (0, 100)
  | StroopTest => (1.0, 5.0)
  | SustainedAttention => (1.0, 13.0)
  end.

Definition table_band_width (k : TestKind) : Q :=
  match k with
  | ReactionTime => 0.2
  | DigitSpan => 4
  | MentalMath => 4.5
  | WordRecall => 25
  | StroopTest => 1.0
  | SustainedAttention => 3.0
  end.

(** The intervals of a table chain from [lo] to [hi]: each one starts where
    the one before it ends, and none is empty. *)
Fixpoint chained (lo : Q) (bs : list Band) (hi : Q) : Prop :=
  match bs with
  | [] => lo == hi
  | (a, b) :: rest => a == lo /\ a < b /\ chained b rest hi
  end.

(** No interval reaches into a later one. *)
Fixpoint disjoint_bands (bs : list Band) : Prop :=
  match bs with
  | [] => True
  | (_, b) :: rest => Forall (fun c => b <= fst c) rest /\ disjoint_bands rest
  end.

Definition equal_width (w : Q) (bs : list Band) : Prop :=
  Forall (fun c => snd c - fst c == w) bs.

(** ** The adaptive range *)

(** The test of the loop of [_get_adaptive_y_range]:
    [min_val < band_max and max_val >= band_min]. *)
Definition in_data_range (min_val max_val : Q) (item : string * Band) : bool :=
  Qltb min_val (snd (snd item)) && Qgeb max_val (fst (snd item)).

(** [_get_adaptive_y_range(test_name, data_values)]. *)
Definition _get_adaptive_y_range (name : string) (data_values : list Q)
  : Q * Q :=
  let performance_bands := get_performance_bands name in
  match data_values, performance_bands with
  | [], _ | _, [] => fixed_range name
  | v :: vs, _ :: _ =>
      let min_val := py_min v vs in
      let max_val := py_max v vs in
      let bands_in_range :=
        List.filter (in_data_range min_val max_val) performance_bands in
      match bands_in_range with
      | [] =>
          let padding :=
            if Qneb max_val min_val then (max_val - min_val) * 0.1 else 1 in
          (min_val - padding, max_val + padding)
      | (_, (band_min, band_max)) :: rest =>
          (py_min band_min (map (fun it => fst (snd it)) rest),
           py_max band_max (map (fun it => snd (snd it)) rest))
      end
  end.

(** A number is a boundary of a table when some band starts or ends there. *)
Definition band_boundary (table : BandTable) (y : Q) : Prop :=
  exists item, In item table /\ (y == fst (snd item) \/ y == snd (snd item)).

(** ** The active bands *)

(** [d[key] = value] on a dict kept in insertion order: an existing key
    keeps its place, a new key goes to the end. *)
Fixpoint dict_set {V : Type} (d : list (string * V)) (key : string) (value : V)
  : list (string * V) :=
  match d with
  | [] => [(key, value)]
  | (k, v) :: rest =>
      if String.eqb k key then (k, value) :: rest
      else (k, v) :: dict_set rest key value
  end.

(** The test of the loop of [_get_active_performance_bands]:
    [band_min < y_max and band_max > y_min]. *)
Definition overlaps (y_min y_max : Q) (item : string * Band) : bool :=
  Qltb (fst (snd item)) y_max && Qltb y_min (snd (snd item)).

(** The band cut down to the window:
    [(max(band_min, y_min), min(band_max, y_max))]. *)
Definition clip (y_min y_max : Q) (item : string * Band) : string * Band :=
  (fst item, (Qmax (fst (snd item)) y_min, Qmin (snd (snd item)) y_max)).

(** The loop over [all_bands.items()], with the dict built so far. *)
Fixpoint active_bands_loop (items : BandTable) (y_min y_max : Q)
    (active_bands : BandTable) : BandTable :=
  match items with
  | [] => active_bands
  | (band_name, (band_min, band_max)) :: rest =>
      if Qltb band_min y_max && Qltb y_min band_max then
        let visible_min := Qmax band_min y_min in
        let visible_max := Qmin band_max y_max in
        active_bands_loop rest y_min y_max
          (dict_set active_bands band_name (visible_min, visible_max))
      else active_bands_loop rest y_min y_max active_bands
  end.

(** [_get_active_performance_bands(test_name, y_min, y_max)]. *)
Definition _get_active_performance_bands (name : string) (y_min y_max : Q)
  : BandTable :=
  active_bands_loop (get_performance_bands name) y_min y_max [].

(** ** The environment and its fingerprint *)

(** What the program can see of the machine it runs on. *)
Record Environment : Type := mkEnvironment {
  platform_system : string;
  platform_release : string;
  platform_python_version : string;
  environ : gmap string string
}.

(** [os.environ.get(name, '')]. *)
Definition environ_get (e : Environment) (name : string) : string :=
  default "" (environ e !! name).

Record Signature : Type := mkSignature {
  sig_os : string;
  sig_os_version : string;
  sig_python : string;
  sig_terminal_program : string;
  sig_terminal_version : string;
  sig_shell : string
}.

(** [_terminal_signature()]. *)
Definition _terminal_signature (e : Environment) : Signature :=
  let term_prog := environ_get e "TERM_PROGRAM" in
  let term_prog_ver := environ_get e "TERM_PROGRAM_VERSION" in
  let shell := environ_get e "SHELL" in
  {| sig_os := platform_system e;
     sig_os_version := platform_release e;
     sig_python := platform_python_version e;
     sig_terminal_program := term_prog;
     sig_terminal_version := term_prog_ver;
     sig_shell := shell |}.

(** [_terminal_signature_key()]: the f-string
    [{os}|{terminal_program}|{terminal_version}|{shell}]. *)
Definition _terminal_signature_key (e : Environment) : string :=
  let sig := _terminal_signature e in
  sig_os sig +:+ "|" +:+ sig_terminal_program sig +:+ "|" +:+
  sig_terminal_version sig +:+ "|" +:+ sig_shell sig.

(** ** Stored data and the state of the suite *)

(** A value of a result's [details] dict: a number or a list of numbers. *)
Inductive DetailValue : Type :=
  | DNum (q : Q)
  | DNums (qs : list Q).

Record Result : Type := mkResult {
  timestamp : string;
  score : Q;
  details : gmap string DetailValue
}.

Record CalibrationEntry : Type := mkCalibrationEntry {
  median_ms : Q;
  p10_ms : Q;
  p90_ms : Q;
  samples : nat;
  method : string;
  cal_timestamp : string;
  env : Signature
}.

(** What [print] emits: a literal line, or one of the formatted lines of
    the calibration report with the values it formats. *)
Inductive Printed : Type :=
  | Text (line : string)
  | CalibrationComplete (method_name : string)
  | CalibrationStats (median p10 p90 : Q)
  | CalibrationSamples (n : nat)
  | CalibrationSavedFor (terminal_program os os_version : string).

(** The fields of [InsomniappSuite] the scoring core reads and writes, the
    content of its two JSON files ([None]: no file yet), and what it has
    printed so far. *)
Record InsomniappSuite : Type := mkSuite {
  results : gmap string (list Result);
  terminal_calibration : gmap string CalibrationEntry;
  results_file : option (gmap string (list Result));
  calibration_file : option (gmap string CalibrationEntry);
  printed : list Printed
}.

Definition print (self : InsomniappSuite) (lines : list Printed)
  : InsomniappSuite :=
  {| results := results self;
     terminal_calibration := terminal_calibration self;
     results_file := results_file self;
     calibration_file := calibration_file self;
     printed := printed self ++ lines |}.

(** ** Calibration *)

(** [get_active_baseline_seconds()]. *)
Definition get_active_baseline_seconds (self : InsomniappSuite)
    (e : Environment) : Q :=
  let key := _terminal_signature_key e in
  match terminal_calibration self !! key with
  | Some entry => median_ms entry / 1000.0
  | None => 0.0
  end.

(** [list.sort()] and [sorted]: a stable ascending sort, here by
    insertion. *)
Fixpoint insert_sorted (x : Q) (l : list Q) : list Q :=
  match l with
  | [] => [x]
  | y :: rest =>
      if Qle_bool x y then x :: l else y :: insert_sorted x rest
  end.

Definition py_sorted (l : list Q) : list Q := fold_right insert_sorted [] l.

(** [l[i]] for an integer [i]: counted from the end when negative, and an
    [IndexError] ([None]) out of range. *)
Definition py_index (l : list Q) (i : Z) : option Q :=
  if (i <? 0)%Z then
    if (Z.of_nat (length l) + i <? 0)%Z then None
    else l !! Z.to_nat (Z.of_nat (length l) + i)
  else l !! Z.to_nat i.

(** [statistics.median(data)]: the middle element of the sorted data, or
    the mean of the two middle ones; [StatisticsError] ([None]) on no
    data. *)
Definition median (data : list Q) : option Q :=
  let data := py_sorted data in
  let n := length data in
  if (n =? 0)%nat then None
  else if Nat.odd n then data !! (n / 2)%nat
  else
    a ← data !! (n / 2 - 1)%nat;
    b ← data !! (n / 2)%nat;
    Some ((a + b) / 2).

(** The index read for percentile [p] of [n] sorted samples:
    [int(max(0, round(p * (n - 1))))]. *)
Definition percentile_index (p : Q) (n : nat) : Z :=
  Z.max 0 (py_round (p * inject_Z (Z.of_nat n - 1))).

(** The entry written for a run: it is made of the run's samples, the
    method, the clock and the signature, and of nothing else. *)
Definition calibration_entry (median p10 p90 : Q) (n : nat)
    (method_name now : string) (sig : Signature) : CalibrationEntry :=
  {| median_ms := py_round_to median 1;
     p10_ms := py_round_to p10 1;
     p90_ms := py_round_to p90 1;
     samples := n;
     method := method_name;
     cal_timestamp := now;
     env := sig |}.

(** [_save_calibration_results(samples, method_name)], up to the final
    prompt; [None] stands for an exception. *)
Definition _save_calibration_results (self : InsomniappSuite)
    (e : Environment) (now : string) (samples : list Q)
    (method_name : string) : option InsomniappSuite :=
  match samples with
  | [] => Some (print self [Text "No samples recorded."])
  | _ :: _ =>
      let samples_ms := py_sorted (map (fun s => s * 1000.0) samples) in
      median ← median samples_ms;
      p10 ← py_index samples_ms (percentile_index 0.10 (length samples_ms));
      p90 ← py_index samples_ms (percentile_index 0.90 (length samples_ms));
      let sig := _terminal_signature e in
      let key := _terminal_signature_key e in
      let calibration :=
        <[key := calibration_entry median p10 p90 (length samples_ms)
                   method_name now sig]> (terminal_calibration self) in
      let report :=
        [CalibrationComplete method_name;
         CalibrationStats median p10 p90;
         CalibrationSamples (length samples_ms);
         CalibrationSavedFor (sig_terminal_program sig) (sig_os sig)
           (sig_os_version sig)] ++
        (if String.eqb method_name "Manual timing" then
           [Text "  Note: Manual calibration includes human reaction time (~150-300ms)";
            Text "        This baseline will be subtracted from reaction time tests."]
         else []) in
      Some {| results := results self;
              terminal_calibration := calibration;
              results_file := results_file self;
              calibration_file := Some calibration;
              printed := printed self ++ report |}
  end.

(** ** The sampling loops *)

(** How one trial ends: the keypress is read after [dt] seconds, the
    keystroke automation fails, or the user interrupts. *)
Inductive TrialOutcome : Type :=
  | Responded (dt : Q)
  | CalledProcessError
  | KeyboardInterrupt.

(** How a loop ends: its range is used up, or one of its [break]s runs. *)
Inductive LoopExit : Type :=
  | RangeExhausted
  | BreakOnError
  | BreakOnInterrupt.

Record SamplingRun : Type := mkRun {
  run_samples : list Q;
  run_errors : nat;
  run_trials : nat;
  run_exit : LoopExit
}.

(** The loop of [_calibrate_macos_terminal] over the outcomes of its
    [trial_count] trials, from the [samples], [errors] and number of
    trials started so far. *)
Fixpoint macos_trials (outcomes : list TrialOutcome) (samples : list Q)
    (errors started : nat) : SamplingRun :=
  match outcomes with
  | [] => mkRun samples errors started RangeExhausted
  | Responded dt :: rest =>
      macos_trials rest (samples ++ [dt]) errors (S started)
  | CalledProcessError :: _ =>
      mkRun samples (errors + 1) (S started) BreakOnError
  | KeyboardInterrupt :: _ =>
      mkRun samples errors (S started) BreakOnInterrupt
  end.

(** The loop of [_calibrate_windows_sendkeys]. *)
Fixpoint sendkeys_trials (outcomes : list TrialOutcome) (samples : list Q)
    (errors started : nat) : SamplingRun :=
  match outcomes with
  | [] => mkRun samples errors started RangeExhausted
  | Responded dt :: rest =>
      sendkeys_trials rest (samples ++ [dt]) errors (S started)
  | CalledProcessError :: rest =>
      let errors := (errors + 1)%nat in
      if (3 <=? errors)%nat then mkRun samples errors (S started) BreakOnError
      else sendkeys_trials rest samples errors (S started)
  | KeyboardInterrupt :: _ =>
      mkRun samples errors (S started) BreakOnInterrupt
  end.

(** The times of the trials that were answered, the number of trials whose
    automation failed, whether the user interrupted one, and the longest
    run of failures in a row (from the run in progress and the longest one
    seen so far). *)
Fixpoint responses (outcomes : list TrialOutcome) : list Q :=
  match outcomes with
  | [] => []
  | Responded dt :: rest => dt :: responses rest
  | _ :: rest => responses rest
  end.

Fixpoint failures (outcomes : list TrialOutcome) : nat :=
  match outcomes with
  | [] => 0
  | CalledProcessError :: rest => S (failures rest)
  | _ :: rest => failures rest
  end.

Fixpoint interrupted (outcomes : list TrialOutcome) : bool :=
  match outcomes with
  | [] => false
  | KeyboardInterrupt :: _ => true
  | _ :: rest => interrupted rest
  end.

Fixpoint failure_streak (outcomes : list TrialOutcome) (current longest : nat)
  : nat :=
  match outcomes with
  | [] => Nat.max current longest
  | CalledProcessError :: rest => failure_streak rest (S current) longest
  | _ :: rest => failure_streak rest 0 (Nat.max current longest)
  end.

(** The two loops as the functions start them. *)
Definition macos_sampling (outcomes : list TrialOutcome) : SamplingRun :=
  macos_trials outcomes [] 0 0.

Definition sendkeys_sampling (outcomes : list TrialOutcome) : SamplingRun :=
  sendkeys_trials outcomes [] 0 0.

(** [_calibrate_macos_terminal] and [_calibrate_windows_sendkeys] after
    their sampling loops: whatever was sampled is handed to
    [_save_calibration_results]. *)
Definition _calibrate_macos_terminal (self : InsomniappSuite)
    (e : Environment) (now : string) (outcomes : list TrialOutcome)
  : option InsomniappSuite :=
  _save_calibration_results self e now
    (run_samples (macos_sampling outcomes)) "AppleScript automation".

Definition _calibrate_windows_sendkeys (self : InsomniappSuite)
    (e : Environment) (now : string) (outcomes : list TrialOutcome)
  : option InsomniappSuite :=
  _save_calibration_results self e now
    (run_samples (sendkeys_sampling outcomes)) "PowerShell SendKeys".

(** ** Recording and reading results *)

(** [record_result(test_name, score, details)] at clock reading [now]. *)
Definition record_result (self : InsomniappSuite) (now : string)
    (name : string) (score : Q) (details : option (gmap string DetailValue))
  : InsomniappSuite :=
  let results1 :=
    match results self !! name with
    | None => <[name := []]> (results self)
    | Some _ => results self
    end in
  let result :=
    {| timestamp := now; score := score; details := default ∅ details |} in
  let results2 := alter (fun history => history ++ [result]) name results1 in
  {| results := results2;
     terminal_calibration := terminal_calibration self;
     results_file := Some results2;
     calibration_file := calibration_file self;
     printed := printed self |}.

(** The adjusted score of a stored reaction-time result, as every report
    reads it: the stored [adjusted_average_s] when there is one, else the
    raw score less the current baseline, held at zero. [None] when the
    stored value is not a number. *)
Definition adjusted_score (self : InsomniappSuite) (e : Environment)
    (r : Result) : option Q :=
  match details r !! "adjusted_average_s" with
  | Some (DNum adjusted) => Some adjusted
  | Some (DNums _) => None
  | None => Some (Qmax 0.0 (score r - get_active_baseline_seconds self e))
  end.

(** The scores a report works on: adjusted ones for reaction time, the
    stored ones for every other kind. *)
Definition report_scores (self : InsomniappSuite) (e : Environment)
    (name : string) (test_results : list Result) : option (list Q) :=
  if String.eqb name "Reaction Time" then
    mapM (adjusted_score self e) test_results
  else Some (map score test_results).

(** The five trials of [reaction_time_test]: [reaction trial] is the time
    measured in that trial, or [None] when the user interrupts it. *)
Fixpoint reaction_trials (remaining trial : nat) (reaction : nat -> option Q)
    (times : list Q) : option (list Q) :=
  match remaining with
  | O => Some times
  | S remaining' =>
      match reaction trial with
      | Some reaction_time =>
          reaction_trials remaining' (S trial) reaction
            (times ++ [reaction_time])
      | None => None
      end
  end.

(** [reaction_time_test()], its result lines left out. *)
Definition reaction_time_test (self : InsomniappSuite) (e : Environment)
    (now : string) (reaction : nat -> option Q) : InsomniappSuite :=
  let trials := 5%nat in
  match reaction_trials trials 1 reaction [] with
  | None =>
      print self
        [Text "=== TEST INTERRUPTED ===";
         Text "Reaction time test was cancelled. No data saved."]
  | Some times =>
      let average_time := py_sum times / inject_Z (Z.of_nat (length times)) in
      let baseline := get_active_baseline_seconds self e in
      let avg_adjusted := Qmax 0.0 (average_time - baseline) in
      record_result self now "Reaction Time" average_time
        (Some (list_to_map
           [("trials", DNum (inject_Z (Z.of_nat trials)));
            ("times", DNums (map (fun t => py_round_to t 3) times));
            ("adjusted_average_s", DNum (py_round_to avg_adjusted 3));
            ("baseline_ms", DNum (py_round_to (baseline * 1000.0) 1))]))
  end.

(** ** The trend of the overall statistics *)

(** The trend line of [display_all_results]: the verdict and the change,
    or nothing for fewer than six scores. *)
Definition trend_report (name : string) (scores : list Q)
  : option (string * Q) :=
  let test_info := get_test_info name in
  if (6 <=? length scores)%nat then
    let first_three := py_sum (firstn 3 scores) / 3 in
    let last_three := py_sum (skipn (length scores - 3) scores) / 3 in
    if lower_better test_info then
      let trend :=
        if Qltb last_three first_three then "improving" else "declining" in
      let change := Qabs (last_three - first_three) in
      Some (trend, change)
    else
      let trend :=
        if Qltb first_three last_three then "improving" else "declining" in
      let change := Qabs (last_three - first_three) in
      Some (trend, change)
  else None.

(** The trend [display_all_results] shows for the stored results of one
    kind. *)
Definition overall_trend (self : InsomniappSuite) (e : Environment)
    (name : string) : option (string * Q) :=
  test_results ← results self !! name;
  scores ← report_scores self e name test_results;
  trend_report name scores.

(** The trend as the specification words it, for a kind whose direction is
    given: better, strictly worse, or exactly equal. *)
Definition spec_trend (lower_is_better : bool) (scores : list Q)
  : string * Q :=
  let first3 := py_sum (firstn 3 scores) / 3 in
  let last3 := py_sum (skipn (length scores - 3) scores) / 3 in
  let better :=
    if lower_is_better then Qltb last3 first3 else Qltb first3 last3 in
  let worse :=
    if lower_is_better then Qltb first3 last3 else Qltb last3 first3 in
  (if better then "improving" else if worse then "declining" else "stable",
   Qabs (last3 - first3)).

(** ** The manual calibration run *)

(** The loop of [_calibrate_manual_terminal] over the outcomes of its
    [trial_count] trials: a trial is answered after some time, or the user
    interrupts it ([None]) and the loop is left. *)
Fixpoint manual_trials (outcomes : list (option Q)) (samples : list Q)
  : list Q :=
  match outcomes with
  | [] => samples
  | Some dt :: rest => manual_trials rest (samples ++ [dt])
  | None :: _ => samples
  end.

(** [_calibrate_manual_terminal] after its prompts: whatever was sampled
    is handed to [_save_calibration_results]. *)
Definition _calibrate_manual_terminal (self : InsomniappSuite)
    (e : Environment) (now : string) (outcomes : list (option Q))
  : option InsomniappSuite :=
  _save_calibration_results self e now (manual_trials outcomes [])
    "Manual timing".

(** ** The tests *)

(** How the loop of a test ends: it runs to its end with a result, the
    user interrupts it, an exception other than the interrupt escapes
    from it, or the bound put on its iterations here is used up. *)
Inductive LoopEnd (A : Type) : Type :=
  | Finished (a : A)
  | Cancelled
  | Raised
  | OutOfFuel.

Arguments Finished {A} a.
Arguments Cancelled {A}.
Arguments Raised {A}.
Arguments OutOfFuel {A}.

(** One round of the digit span test: the digits shown, joined into
    [correct_answer], and the line typed back, stripped; or the interrupt
    of the user. *)
Inductive SpanRound : Type :=
  | SpanAnswered (correct_answer user_input : string)
  | SpanInterrupted.

(** The loop [while span_length <= 10] of [digit_span_test]; [round s] is
    what happens in the round that shows [s] digits. *)
Fixpoint digit_span_loop (fuel : nat) (round : nat -> SpanRound)
    (span_length max_span : nat) : LoopEnd nat :=
  if (span_length <=? 10)%nat then
    match fuel with
    | O => OutOfFuel
    | S fuel' =>
        match round span_length with
        | SpanInterrupted => Cancelled
        | SpanAnswered correct_answer user_input =>
            if String.eqb user_input correct_answer then
              digit_span_loop fuel' round (S span_length) span_length
            else Finished max_span
        end
    end
  else Finished max_span.

(** [digit_span_test()], its result lines left out; [None] when the
    bound on the rounds is used up. *)
Definition digit_span_test (self : InsomniappSuite) (now : string)
    (round : nat -> SpanRound) : option InsomniappSuite :=
  let span_length := 3%nat in
  let max_span := 0%nat in
  match digit_span_loop 8 round span_length max_span with
  | Finished max_span =>
      Some (record_result self now "Digit Span"
              (inject_Z (Z.of_nat max_span))
              (Some {[ "max_digits_recalled" :=
                         DNum (inject_Z (Z.of_nat max_span)) ]}))
  | Cancelled =>
      Some (print self
              [Text "=== TEST INTERRUPTED ===";
               Text "Digit span test was cancelled. No data saved."])
  | Raised | OutOfFuel => None
  end.

(** [word in words] for strings. *)
Definition word_in (word : string) (words : list string) : bool :=
  existsb (String.eqb word) words.

(** The scoring of [word_recall_test] once the words are typed in:
    [test_words] are the words shown, [recalled_words] the lines typed
    (each stripped and put in lower case), and [lower] is [str.lower]. *)
Definition correct_recalls (lower : string -> string)
    (test_words recalled_words : list string) : nat :=
  length (List.filter (fun word => word_in word (map lower test_words))
            recalled_words).

Definition missed_words (lower : string -> string)
    (test_words recalled_words : list string) : list string :=
  List.filter (fun word => negb (word_in (lower word) recalled_words))
    test_words.

(** The part of [word_recall_test] after the input loop, its result lines
    left out; [None] is the [ZeroDivisionError] of an empty word list. *)
Definition word_recall_scoring (self : InsomniappSuite) (now : string)
    (lower : string -> string) (test_words recalled_words : list string)
  : option InsomniappSuite :=
  let correct_recalls := correct_recalls lower test_words recalled_words in
  let total_words := length test_words in
  if (total_words =? 0)%nat then None
  else
    let score :=
      inject_Z (Z.of_nat correct_recalls) / inject_Z (Z.of_nat total_words)
      * 100 in
    Some (record_result self now "Word Recall" score
            (Some (list_to_map
               [("total_words", DNum (inject_Z (Z.of_nat total_words)));
                ("words_recalled",
                 DNum (inject_Z (Z.of_nat (length recalled_words))));
                ("correct_recalls",
                 DNum (inject_Z (Z.of_nat correct_recalls)))]))).

(** One problem of the mental math test: an answer that parses as an
    integer, given after [problem_time] seconds to a problem whose sum is
    [correct_answer]; a line that does not parse; or the interrupt of the
    user. *)
Inductive MathAttempt : Type :=
  | MathAnswered (problem_time : Q) (user_answer correct_answer : Z)
  | MathInvalid (problem_time : Q)
  | MathInterrupted.

Record MathTally : Type := mkMathTally {
  math_correct : nat;
  math_total : nat;
  math_problem_times : list Q;
  math_penalty_time : Q
}.

(** The loop of [mental_math_test] over the problems posed before the
    sixty seconds were over; [None] when the user interrupts one. *)
Fixpoint mental_math_loop (attempts : list MathAttempt) (correct total : nat)
    (problem_times : list Q) (penalty_time : Q) : option MathTally :=
  match attempts with
  | [] => Some (mkMathTally correct total problem_times penalty_time)
  | MathAnswered problem_time user_answer correct_answer :: rest =>
      let total := (total + 1)%nat in
      if (user_answer =? correct_answer)%Z then
        mental_math_loop rest (correct + 1) total
          (problem_times ++ [problem_time]) penalty_time
      else
        mental_math_loop rest correct total
          (problem_times ++ [problem_time + 10.0]) (penalty_time + 10.0)
  | MathInvalid problem_time :: rest =>
      mental_math_loop rest correct (total + 1)
        (problem_times ++ [problem_time + 10.0]) (penalty_time + 10.0)
  | MathInterrupted :: _ => None
  end.

(** The seconds a problem took, and whether it was answered right. *)
Definition attempt_time (attempt : MathAttempt) : Q :=
  match attempt with
  | MathAnswered problem_time _ _ => problem_time
  | MathInvalid problem_time => problem_time
  | MathInterrupted => 0
  end.

Definition attempt_right (attempt : MathAttempt) : bool :=
  match attempt with
  | MathAnswered _ user_answer correct_answer =>
      (user_answer =? correct_answer)%Z
  | _ => false
  end.

(** [mental_math_test()], its result lines left out. *)
Definition mental_math_test (self : InsomniappSuite) (now : string)
    (attempts : list MathAttempt) : InsomniappSuite :=
  match mental_math_loop attempts 0 0 [] 0 with
  | Some tally =>
      let problem_times := math_problem_times tally in
      let correct := math_correct tally in
      let total := math_total tally in
      let penalty_time := math_penalty_time tally in
      let avg_time_per_problem :=
        match problem_times with
        | [] => 60.0
        | _ :: _ =>
            py_sum problem_times /
            inject_Z (Z.of_nat (length problem_times))
        end in
      let accuracy :=
        if (0 <? total)%nat then
          inject_Z (Z.of_nat correct) / inject_Z (Z.of_nat total) * 100
        else 0 in
      let score := avg_time_per_problem in
      record_result self now "Mental Math" score
        (Some (list_to_map
           [("problems_attempted", DNum (inject_Z (Z.of_nat total)));
            ("correct_answers", DNum (inject_Z (Z.of_nat correct)));
            ("accuracy_percent", DNum (py_round_to accuracy 1));
            ("avg_time_per_problem",
             DNum (py_round_to avg_time_per_problem 2));
            ("penalty_time", DNum (py_round_to penalty_time 1));
            ("time_limit", DNum 60)]))
  | None =>
      print self
        [Text "=== TEST INTERRUPTED ===";
         Text "Mental math test was cancelled. No data saved."]
  end.

(** The sequence [sustained_attention_test] counts down: [num] and the
    numbers below it in steps of [count_by], as long as they are not
    negative. *)
Fixpoint count_down (fuel : nat) (num count_by : Z) (correct_sequence : list Z)
  : option (list Z) :=
  if (0 <=? num)%Z then
    match fuel with
    | O => None
    | S fuel' =>
        count_down fuel' (num - count_by) count_by (correct_sequence ++ [num])
    end
  else Some correct_sequence.

(** A line typed during the count: [done], a number, something that is
    neither, or the interrupt of the user. *)
Inductive CountInput : Type :=
  | TypedDone
  | TypedNumber (user_number : Z)
  | TypedInvalid
  | CountInterrupted.

Definition is_typed_number (input : CountInput) : bool :=
  match input with
  | TypedNumber _ => true
  | _ => false
  end.

(** The input loop of [sustained_attention_test] over the lines typed;
    running out of lines is the end of the input, an [EOFError]. *)
Fixpoint attention_loop (inputs : list CountInput) (correct_sequence : list Z)
    (position correct total : nat) : LoopEnd (nat * nat) :=
  if (position <? length correct_sequence)%nat then
    match inputs with
    | [] => Raised
    | CountInterrupted :: _ => Cancelled
    | TypedDone :: _ => Finished (correct, total)
    | TypedInvalid :: rest =>
        attention_loop rest correct_sequence position correct total
    | TypedNumber user_number :: rest =>
        match correct_sequence !! position with
        | None => Raised
        | Some expected =>
            let total := (total + 1)%nat in
            let correct :=
              if (user_number =? expected)%Z then (correct + 1)%nat
              else correct in
            attention_loop rest correct_sequence (position + 1) correct total
        end
    end
  else Finished (correct, total).

(** The primary score of the sustained attention test from the time the
    count took and the number of right answers. *)
Definition avg_time_per_correct (elapsed_time : Q) (correct : nat) : Q :=
  if (0 <? correct)%nat then elapsed_time / inject_Z (Z.of_nat correct)
  else elapsed_time.

(** [sustained_attention_test()] for the step drawn, the lines typed and
    the time the count took, its result lines left out; [None] when an
    exception escapes or the bound on the countdown is used up. *)
Definition sustained_attention_test (self : InsomniappSuite) (now : string)
    (count_by : Z) (inputs : list CountInput) (elapsed_time : Q)
  : option InsomniappSuite :=
  let start_number := 100%Z in
  correct_sequence ← count_down 101 start_number count_by [];
  match attention_loop inputs correct_sequence 1 0 0 with
  | Finished (correct, total) =>
      let accuracy :=
        if (0 <? total)%nat then
          inject_Z (Z.of_nat correct) / inject_Z (Z.of_nat total) * 100
        else 0 in
      let avg_time_per_correct := avg_time_per_correct elapsed_time correct in
      end_value ← last correct_sequence;
      Some (record_result self now "Sustained Attention" avg_time_per_correct
              (Some (list_to_map
                 [("accuracy_percent", DNum (py_round_to accuracy 1));
                  ("numbers_attempted", DNum (inject_Z (Z.of_nat total)));
                  ("correct_answers", DNum (inject_Z (Z.of_nat correct)));
                  ("time_taken", DNum (py_round_to elapsed_time 1));
                  ("avg_time_per_attempt",
                   DNum (if (0 <? total)%nat then
                           py_round_to
                             (elapsed_time / inject_Z (Z.of_nat total)) 2
                         else 0));
                  ("avg_time_per_correct",
                   DNum (py_round_to avg_time_per_correct 2));
                  ("start_value", DNum (inject_Z start_number));
                  ("count_by", DNum (inject_Z count_by));
                  ("end_value", DNum (inject_Z end_value));
                  ("sequence_length",
                   DNum (inject_Z (Z.of_nat (length correct_sequence))))])))
  | Cancelled =>
      Some (print self
              [Text "=== TEST INTERRUPTED ===";
               Text "Sustained attention test was cancelled. No data saved."])
  | Raised | OutOfFuel => None
  end.

(** ** The sleep log *)

Record SleepEntry : Type := mkSleepEntry {
  hours : Z;
  minutes : Z;
  total_minutes : Z
}.

(** [self.sleep_log] and the content of the sleep file ([None]: no file
    yet). *)
Record SleepLog : Type := mkSleepLog {
  sleep_log : gmap string SleepEntry;
  sleep_file : option (gmap string SleepEntry)
}.

(** [log_sleep(date_str, hours, minutes)]. *)
Definition log_sleep (self : SleepLog) (date_str : string)
    (hours minutes : Z) : SleepLog :=
  let sleep_log :=
    <[date_str := {| hours := hours; minutes := minutes;
                     total_minutes := (hours * 60 + minutes)%Z |}]>
      (sleep_log self) in
  {| sleep_log := sleep_log; sleep_file := Some sleep_log |}.

(** An integer formatted with [:02d]: at least two characters, a zero
    put before a single digit. *)
Definition format_02d (n : Z) : string :=
  if (0 <=? n)%Z && (n <? 10)%Z then "0" +:+ pretty n else pretty n.

(** Every character of a string passes a test. *)
Fixpoint all_chars (p : Ascii.ascii -> bool) (s : string) : bool :=
  match s with
  | EmptyString => true
  | String c rest => p c && all_chars p rest
  end.

(** The characters of a printed integer: the ten digits and the minus
    sign. *)
Definition is_number_char (c : Ascii.ascii) : bool :=
  existsb (Ascii.eqb c)
    (String.list_ascii_of_string "0123456789-").

(** The line break of a Python string. *)
Definition newline : string := String (Ascii.ascii_of_nat 10) "".

Section SleepDates.

(** The dates of the standard library, with the two conversions used on
    them: [strftime('%Y-%m-%d')] and [strptime(_, '%Y-%m-%d')], which
    fails on a text that is no date. *)
Variable Date : Type.
Variable strftime : Date -> string.
Variable strptime : string -> option Date.

(** [str.strip], [str.lower] and [int] on a line of input; [int] fails on
    a text that is no integer. *)
Variable strip : string -> string.
Variable lower : string -> string.
Variable parse_int : string -> option Z.

(** [get_sleep_for_date(date_obj)]. *)
Definition get_sleep_for_date (self : SleepLog) (date_obj : Date) : string :=
  let date_str := strftime date_obj in
  match sleep_log self !! date_str with
  | Some sleep_data =>
      pretty (hours sleep_data) +:+ "h " +:+
      pretty (minutes sleep_data) +:+ "m"
  | None => "No sleep data"
  end.

(** [get_sleep_for_graph_label(date_obj)]; the label has a line break
    after its first word. *)
Definition get_sleep_for_graph_label (self : SleepLog) (date_obj : Date)
  : string :=
  let date_str := strftime date_obj in
  match sleep_log self !! date_str with
  | Some sleep_data =>
      "Sleep" +:+ newline +:+ pretty (hours sleep_data) +:+ "h" +:+
      format_02d (minutes sleep_data) +:+ "m"
  | None => "Sleep" +:+ newline +:+ "N/A"
  end.

(** The lines typed at the prompts of the menu, in order; [None] is an
    interrupt, and the end of the list the end of the input. Both leave
    the menu with an exception. *)

(** The loop that asks for a date until one parses. *)
Fixpoint read_date (lines : list (option string))
  : option (Date * list (option string)) :=
  match lines with
  | [] | None :: _ => None
  | Some line :: rest =>
      match strptime (strip line) with
      | Some target_date => Some (target_date, rest)
      | None => read_date rest
      end
  end.

(** The loops that ask for the hours and for the minutes until an integer
    from 0 to [upper] is typed: [upper] is 24 for the hours and 59 for the
    minutes. *)
Fixpoint read_bounded (upper : Z) (lines : list (option string))
  : option (Z * list (option string)) :=
  match lines with
  | [] | None :: _ => None
  | Some line :: rest =>
      match parse_int (strip line) with
      | Some n =>
          if (0 <=? n)%Z && (n <=? upper)%Z then Some (n, rest)
          else read_bounded upper rest
      | None => read_bounded upper rest
      end
  end.

(** [sleep_logging_menu()] up to the call of [log_sleep], its prints left
    out, with the date of today; [None] when an exception leaves the menu.
    The second option asks the class [datetime] for [timedelta], which it
    does not have: that is an [AttributeError]. *)
Definition sleep_logging_menu (self : SleepLog) (today : Date)
    (lines : list (option string)) : option SleepLog :=
  match lines with
  | [] | None :: _ => None
  | Some line :: rest =>
      let choice := strip line in
      chosen ←
        (if String.eqb choice "1" then Some (Some today, rest)
         else if String.eqb choice "2" then None
         else if String.eqb choice "3" then
           '(target_date, rest') ← read_date rest;
           Some (Some target_date, rest')
         else if String.eqb choice "4" then Some (None, rest)
         else Some (None, rest));
      match chosen with
      | (None, _) => Some self
      | (Some target_date, rest) =>
          let date_str := strftime target_date in
          let ask_duration (rest : list (option string)) :=
            '(hours, rest) ← read_bounded 24 rest;
            '(minutes, _) ← read_bounded 59 rest;
            Some (log_sleep self date_str hours minutes) in
          match sleep_log self !! date_str with
          | Some existing =>
              match rest with
              | [] | None :: _ => None
              | Some answer :: rest =>
                  if String.eqb (lower answer) "y" then ask_duration rest
                  else Some self
              end
          | None => ask_duration rest
          end
      end
  end.

End SleepDates.

(** ** The weekly graphs *)

(** The value plotted for a daily score in [_display_matplotlib_graphs]:
    a time is turned round about the constant of its kind, any other
    score is plotted as it is. *)
Definition plot_score (name : string) (score : Q) : Q :=
  if String.eqb name "Reaction Time" then 1.0 - score
  else if String.eqb name "Stroop Test" then 5.0 - score
  else if String.eqb name "Sustained Attention" then 13.0 - score
  else if String.eqb name "Mental Math" then 22.0 - score
  else score.

(** The loop over [enumerate(scores)] that fills [plot_days] and
    [plot_scores], from position [j]; a day without a score is [None]. *)
Fixpoint plot_data (name : string) (scores : list (option Q)) (j : nat)
    (plot_days : list nat) (plot_scores : list Q) : list nat * list Q :=
  match scores with
  | [] => (plot_days, plot_scores)
  | None :: rest => plot_data name rest (S j) plot_days plot_scores
  | Some score :: rest =>
      plot_data name rest (S j) (plot_days ++ [j])
        (plot_scores ++ [plot_score name score])
  end.

(** The y-axis limits and the bands drawn behind one subplot: nothing for
    a name without a band table, else the adaptive range of the plotted
    scores and the bands active on it. The subplot of a test without any
    score this week passes no data. *)
Definition subplot_bands (name : string) (plot_scores : list Q)
  : option ((Q * Q) * BandTable) :=
  match get_performance_bands name with
  | [] => None
  | _ :: _ =>
      let '(y_min, y_max) := _get_adaptive_y_range name plot_scores in
      let active_bands := _get_active_performance_bands name y_min y_max in
      Some ((y_min, y_max), active_bands)
  end.

(** The trend box of a subplot: verdict, colour of the box and change
    between the first and the last plotted score; no box for fewer than
    two plotted scores. *)
Definition graph_trend (name : string) (plot_scores : list Q)
  : option (string * string * Q) :=
  if (2 <=? length plot_scores)%nat then
    let test_info := get_test_info name in
    match plot_scores, last plot_scores with
    | first_val :: _, Some last_val =>
        let '(trend, trend_color) :=
          if lower_better test_info then
            if Qltb last_val first_val then ("↗️ Improving", "lightgreen")
            else if Qltb first_val last_val then ("↘️ Declining", "lightcoral")
            else ("→ Stable", "lightyellow")
          else
            if Qltb first_val last_val then ("↗️ Improving", "lightgreen")
            else if Qltb last_val first_val then ("↘️ Declining", "lightcoral")
            else ("→ Stable", "lightyellow") in
        let change := Qabs (last_val - first_val) in
        Some (trend, trend_color, change)
    | _, _ => None
    end
  else None.

(** The kinds whose stored score is a time, for which less is better. *)
Definition time_based (k : TestKind) : bool :=
  match k with
  | ReactionTime | MentalMath | StroopTest | SustainedAttention => true
  | DigitSpan | WordRecall => false
  end.

(** ** The text summary of the week *)

(** [next(s for s in scores if s is not None)]: the first score that is
    there; [None] is [StopIteration]. *)
Fixpoint first_valid (scores : list (option Q)) : option Q :=
  match scores with
  | [] => None
  | Some s :: _ => Some s
  | None :: rest => first_valid rest
  end.

(** The line [_display_text_summary] prints under the scores of one test,
    when the graphs cannot be drawn: the average, the verdict and the
    change between the first and the last score of the week; no line for
    fewer than two scores. *)
Definition text_summary_trend (name : string) (scores : list (option Q))
  : option (Q * string * Q) :=
  let valid_scores := omap id scores in
  if (2 <=? length valid_scores)%nat then
    first_val ← first_valid scores;
    last_val ← first_valid (rev scores);
    let test_info := get_test_info name in
    let trend :=
      if lower_better test_info then
        if Qltb last_val first_val then "↗️ Improving"
        else if Qltb first_val last_val then "↘️ Declining"
        else "→ Stable"
      else
        if Qltb first_val last_val then "↗️ Improving"
        else if Qltb last_val first_val then "↘️ Declining"
        else "→ Stable" in
    let change := Qabs (last_val - first_val) in
    let avg :=
      py_sum valid_scores / inject_Z (Z.of_nat (length valid_scores)) in
    Some (avg, trend, change)
  else None.

(** ** The statistics of one test *)

(** The statistics under the history of [display_results], from the
    scores the report works on: average, best score with its label, and
    latest score; nothing for fewer than two results. *)
Definition statistics_lines (name : string) (scores : list Q)
  : option (Q * (string * Q) * Q) :=
  let test_info := get_test_info name in
  match scores, last scores with
  | first_score :: others, Some latest =>
      if (1 <? length scores)%nat then
        let average := py_sum scores / inject_Z (Z.of_nat (length scores)) in
        let best :=
          if lower_better test_info
          then ("Best (lowest)", py_min first_score others)
          else ("Best (highest)", py_max first_score others) in
        Some (average, best, latest)
      else None
  | _, _ => None
  end.

(** [display_results(test_name)], its statistics: nothing without stored
    results of the kind. There is one score for each result, so that the
    count of the results is the count of the scores. *)
Definition display_results (self : InsomniappSuite) (e : Environment)
    (name : string) : option (Q * (string * Q) * Q) :=
  test_results ← results self !! name;
  scores ← report_scores self e name test_results;
  statistics_lines name scores.

(** ** The week of the weekly graphs *)

(** A [date] is held by its ordinal, the count of days that starts with 1
    on the first of January of the year 1, a Monday; adding a [timedelta]
    of days adds to the ordinal. [date.weekday()] is 0 on a Monday and 6
    on a Sunday. *)
Definition weekday (d : Z) : Z := ((d + 6) mod 7)%Z.

(** The Monday [weekly_trend_graphs] works out for the date of today or
    for the date typed. *)
Definition week_monday (target_date : Z) : Z :=
  let days_since_monday := weekday target_date in
  (target_date - days_since_monday)%Z.

(** [[monday + timedelta(days=i) for i in range(5)]]. *)
Definition weekdays (monday : Z) : list Z :=
  map (fun i => (monday + Z.of_nat i)%Z) (seq 0 5).

Section WeeklyScores.

(** [datetime.fromisoformat(timestamp).date()]. *)
Variable date_of : string -> Z.

(** The results of one day. *)
Definition day_results (test_results : list Result) (day : Z)
  : list Result :=
  List.filter (fun r => (date_of (timestamp r) =? day)%Z) test_results.

(** The score of one day in the weekly graphs: the average of that day's
    scores, or [None] for a day without results. The outer [None] is a
    stored adjusted value that is no number. *)
Definition daily_score (self : InsomniappSuite) (e : Environment)
    (name : string) (test_results : list Result) (day : Z)
  : option (option Q) :=
  match day_results test_results day with
  | [] => Some None
  | _ :: _ as day_results =>
      scores ← report_scores self e name day_results;
      let avg_score :=
        py_sum scores / inject_Z (Z.of_nat (length scores)) in
      Some (Some avg_score)
  end.

(** The [daily_scores] that [weekly_trend_graphs] collects for one test
    over the days of the week; the labels are left out. *)
Definition daily_scores (self : InsomniappSuite) (e : Environment)
    (name : string) (weekdays : list Z) : option (list (option Q)) :=
  match results self !! name with
  | None | Some [] => Some (replicate 5 None)
  | Some test_results =>
      mapM (daily_score self e name test_results) weekdays
  end.

End WeeklyScores.

(** ** Sample data *)

(** A macOS machine running iTerm2 and zsh. *)
Definition sample_env : Environment :=
  {| platform_system := "Darwin";
     platform_release := "22.6.0";
     platform_python_version := "3.11.4";
     environ := list_to_map
       [("TERM_PROGRAM", "iTerm.app"); ("TERM_PROGRAM_VERSION", "3.4.19");
        ("SHELL", "/bin/zsh")]%string |}.

(** The same machine after an upgrade of the operating system. *)
Definition upgraded_env : Environment :=
  {| platform_system := "Darwin";
     platform_release := "23.1.0";
     platform_python_version := "3.11.4";
     environ := environ sample_env |}.

(** The same machine with another login shell. *)
Definition bash_env : Environment :=
  {| platform_system := "Darwin";
     platform_release := "22.6.0";
     platform_python_version := "3.11.4";
     environ := <["SHELL" := "/bin/bash"]> (environ sample_env) |}.

(** A suite that has stored nothing yet. *)
Definition empty_suite : InsomniappSuite :=
  {| results := ∅;
     terminal_calibration := ∅;
     results_file := None;
     calibration_file := None;
     printed := [] |}.

(** Five reaction times in seconds, in the order they were measured. *)
Definition sample_times : list Q := [0.03; 0.01; 0.05; 0.02; 0.04].

(** A suite calibrated once, on the machine with the other shell. *)
Definition calibrated_suite : InsomniappSuite :=
  {| results := ∅;
     terminal_calibration :=
       {[ _terminal_signature_key bash_env :=
            calibration_entry 212.4 180.0 260.9 25 "Manual timing"
              "2024-02-20T18:05:00" (_terminal_signature bash_env) ]};
     results_file := None;
     calibration_file := None;
     printed := [] |}.

(** A suite in which six mental-math tests were recorded, with average
    times per problem of 15, 14, 13, 9, 8 and 7 seconds. *)
Definition mental_math_suite : InsomniappSuite :=
  fold_left
    (fun self entry =>
       record_result self (fst entry) "Mental Math" (snd entry) None)
    [("2024-03-01T09:30:00", 15); ("2024-03-02T09:30:00", 14);
     ("2024-03-03T09:30:00", 13); ("2024-03-04T09:30:00", 9);
     ("2024-03-05T09:30:00", 8); ("2024-03-06T09:30:00", 7)]%string
    empty_suite.

(** * Properties *)

(** ** Comparisons and folds on rationals *)

Lemma Qltb_lt (x y : Q) : Qltb x y = true <-> x < y.
Proof.
  unfold Qltb. rewrite Qlt_alt.
  destruct (x ?= y); split; intros H; try reflexivity; discriminate H.
Qed.

Lemma Qltb_ge (x y : Q) : Qltb x y = false <-> y <= x.
Proof.
  rewrite <- not_true_iff_false, Qltb_lt. split.
  - apply Qnot_lt_le.
  - apply Qle_not_lt.
Qed.

Lemma Qgeb_ge (x y : Q) : Qgeb x y = true <-> y <= x.
Proof. unfold Qgeb. rewrite negb_true_iff. apply Qltb_ge. Qed.

Lemma py_min_le_init (xs : list Q) (x : Q) : py_min x xs <= x.
Proof.
  unfold py_min. revert x.
  induction xs as [|y ys IH]; intros x; simpl.
  - apply Qle_refl.
  - eapply Qle_trans; [apply IH | apply Q.le_min_l].
Qed.

Lemma py_min_le_elem (xs : list Q) (x v : Q) : In v xs -> py_min x xs <= v.
Proof.
  unfold py_min. revert x.
  induction xs as [|y ys IH]; intros x Hin; simpl in *.
  - destruct Hin.
  - destruct Hin as [-> | Hin].
    + eapply Qle_trans; [apply (py_min_le_init ys) | apply Q.le_min_r].
    + apply IH, Hin.
Qed.

Lemma py_max_ge_init (xs : list Q) (x : Q) : x <= py_max x xs.
Proof.
  unfold py_max. revert x.
  induction xs as [|y ys IH]; intros x; simpl.
  - apply Qle_refl.
  - eapply Qle_trans; [apply Q.le_max_l | apply IH].
Qed.

Lemma py_max_ge_elem (xs : list Q) (x v : Q) : In v xs -> v <= py_max x xs.
Proof.
  unfold py_max. revert x.
  induction xs as [|y ys IH]; intros x Hin; simpl in *.
  - destruct Hin.
  - destruct Hin as [-> | Hin].
    + eapply Qle_trans; [apply Q.le_max_r | apply (py_max_ge_init ys)].
    + apply IH, Hin.
Qed.

(** The scan returns one of the numbers it went through. *)
Lemma py_min_is_elem (xs : list Q) (x : Q) :
  py_min x xs = x \/ In (py_min x xs) xs.
Proof.
  unfold py_min. revert x.
  induction xs as [|y ys IH]; intros x; simpl.
  - left. reflexivity.
  - destruct (IH (Qmin x y)) as [Heq | Hin].
    + rewrite Heq. unfold Qmin, GenericMinMax.gmin.
      destruct (x ?= y); auto.
    + right. right. exact Hin.
Qed.

Lemma py_max_is_elem (xs : list Q) (x : Q) :
  py_max x xs = x \/ In (py_max x xs) xs.
Proof.
  unfold py_max. revert x.
  induction xs as [|y ys IH]; intros x; simpl.
  - left. reflexivity.
  - destruct (IH (Qmax x y)) as [Heq | Hin].
    + rewrite Heq. unfold Qmax, GenericMinMax.gmax.
      destruct (x ?= y); auto.
    + right. right. exact Hin.
Qed.

(** ** The band table *)

(** The names of the tiers of a kind, and the chain its intervals form
    over the kind's fixed range. *)
Lemma band_table_names (k : TestKind) :
  map fst (get_performance_bands (test_name k)) =
  ["poor"; "average"; "good"; "excellent"]%string.
Proof. destruct k; reflexivity. Qed.

Lemma band_table_chained (k : TestKind) :
  chained (fst (fixed_range (test_name k)))
    (map snd (get_performance_bands (test_name k)))
    (snd (fixed_range (test_name k))).
Proof.
  destruct k; cbn -[Qeq Qlt]; repeat split; try reflexivity.
Qed.

(** C4. For each of the six kinds the band table lists exactly the four
    tiers poor, average, good, excellent, in ascending order; their
    intervals chain from the kind's domain minimum to its domain maximum
    without gap, do not overlap, and all have the width
    (domain_max - domain_min) / 4; domain and width are the ones of the
    table of per-kind constants. *)
Theorem band_table_partitions_domain (k : TestKind) :
  let table := get_performance_bands (test_name k) in
  let domain := fixed_range (test_name k) in
  map fst table = ["poor"; "average"; "good"; "excellent"]%string /\
  domain = table_domain k /\
  chained (fst domain) (map snd table) (snd domain) /\
  disjoint_bands (map snd table) /\
  equal_width ((snd domain - fst domain) / 4) (map snd table) /\
  (snd domain - fst domain) / 4 == table_band_width k.
Proof.
  destruct k; cbn -[Qeq Qlt Qle Qdiv Qminus];
    repeat (first [ split | apply Forall_cons | apply Forall_nil ]);
    try reflexivity; cbn; lra.
Qed.

(** ** The active bands *)

Section ActiveBands.

Variables y_min y_max : Q.

(** Setting a key the dict does not hold yet appends it. *)
Lemma dict_set_fresh (d : BandTable) (key : string) (value : Band) :
  ~ In key (map fst d) -> dict_set d key value = d ++ [(key, value)].
Proof.
  induction d as [|[k v] d IH]; intros Hfresh; simpl in *.
  - reflexivity.
  - destruct (String.eqb_spec k key) as [-> | Hne].
    + exfalso. apply Hfresh. left. reflexivity.
    + rewrite IH; [reflexivity | tauto].
Qed.

(** On items with distinct names, none of them in the dict yet, the loop
    appends the clipped overlapping bands in the order it meets them. *)
Lemma active_bands_loop_spec (items acc : BandTable) :
  List.NoDup (map fst items) ->
  (forall name, In name (map fst items) -> ~ In name (map fst acc)) ->
  active_bands_loop items y_min y_max acc =
  acc ++ map (clip y_min y_max) (List.filter (overlaps y_min y_max) items).
Proof.
  revert acc.
  induction items as [|[name [band_min band_max]] rest IH];
    intros acc Hnodup Hfresh; simpl.
  - symmetry. apply app_nil_r.
  - apply NoDup_cons_iff in Hnodup as [Hname Hnodup].
    unfold overlaps at 1. simpl.
    destruct (Qltb band_min y_max && Qltb y_min band_max); simpl.
    + rewrite IH; [ | exact Hnodup | ].
      * rewrite dict_set_fresh by (apply Hfresh; left; reflexivity).
        rewrite <- app_assoc. reflexivity.
      * intros n Hn.
        rewrite dict_set_fresh by (apply Hfresh; left; reflexivity).
        rewrite map_app, in_app_iff. simpl.
        intros [Hacc | [<- | []]].
        -- apply (Hfresh n); [right; exact Hn | exact Hacc].
        -- apply Hname, Hn.
    + apply IH; [exact Hnodup | ].
      intros n Hn. apply Hfresh. right. exact Hn.
Qed.

Lemma clip_within (item : string * Band) :
  y_min <= fst (snd (clip y_min y_max item)) /\
  snd (snd (clip y_min y_max item)) <= y_max.
Proof.
  simpl. split; [apply Q.le_max_r | apply Q.le_min_r].
Qed.

End ActiveBands.

Lemma band_names_distinct (k : TestKind) :
  List.NoDup (map fst (get_performance_bands (test_name k))).
Proof.
  destruct k; simpl;
    repeat (constructor;
            [ simpl; intros H; repeat destruct H as [H | H];
              solve [ discriminate H | destruct H ] | ]);
    constructor.
Qed.

(** C5. For every kind and window, the active bands are exactly the bands
    of the table with [band_min < y_max] and [band_max > y_min], each cut
    to [(max(band_min, y_min), min(band_max, y_max))] and so lying within
    the window, in the order of the table; when no band overlaps the
    window the result is the empty dict. *)
Theorem active_bands_exact (k : TestKind) (y_min y_max : Q) :
  let table := get_performance_bands (test_name k) in
  let active := _get_active_performance_bands (test_name k) y_min y_max in
  active = map (clip y_min y_max) (List.filter (overlaps y_min y_max) table) /\
  Forall (fun item => y_min <= fst (snd item) /\ snd (snd item) <= y_max)
    active /\
  sublist (map fst active) ["poor"; "average"; "good"; "excellent"]%string /\
  (forallb (fun item => negb (overlaps y_min y_max item)) table = true ->
   active = []).
Proof.
  intros table active.
  assert (Hactive : active =
    map (clip y_min y_max) (List.filter (overlaps y_min y_max) table)).
  { unfold active, _get_active_performance_bands.
    rewrite active_bands_loop_spec.
    - reflexivity.
    - apply band_names_distinct.
    - intros name _ []. }
  split; [exact Hactive | ].
  split; [ | split].
  - rewrite Hactive. apply List.Forall_forall. intros item Hin.
    apply in_map_iff in Hin as [orig [<- _]]. apply clip_within.
  - rewrite Hactive.
    pose proof (band_table_names k) as Hnames.
    fold table in Hnames. rewrite <- Hnames.
    rewrite map_map. simpl.
    clear. induction table as [|item rest IH]; simpl.
    + constructor.
    + destruct (overlaps y_min y_max item); simpl;
        [apply sublist_skip | apply sublist_cons]; exact IH.
  - intros Hnone. rewrite Hactive.
    replace (List.filter (overlaps y_min y_max) table) with (@nil (string * Band));
      [reflexivity | ].
    clear Hactive. induction table as [|item rest IH]; simpl in *.
    + reflexivity.
    + apply andb_true_iff in Hnone as [Hitem Hrest].
      apply negb_true_iff in Hitem. rewrite Hitem. apply IH, Hrest.
Qed.

Lemma active_bands_exact_witness :
  forallb (fun item => negb (overlaps 20 30 item))
    (get_performance_bands (test_name DigitSpan)) = true /\
  _get_active_performance_bands (test_name DigitSpan) 20 30 = [].
Proof.
  split; [reflexivity | ].
  apply (proj2 (proj2 (proj2 (active_bands_exact DigitSpan 20 30)))).
  reflexivity.
Defined.

(** ** The adaptive range *)

Section Chained.

(** Facts about a chain of intervals from [lo] to [hi]. *)

Lemma chained_le (bs : list Band) (lo hi : Q) :
  chained lo bs hi -> lo <= hi.
Proof.
  revert lo. induction bs as [|[a b] rest IH]; intros lo Hch; simpl in Hch.
  - rewrite Hch. apply Qle_refl.
  - destruct Hch as [Ha [Hab Hrest]]. apply IH in Hrest. lra.
Qed.

Lemma chained_bounds (bs : list Band) (lo hi : Q) (c : Band) :
  chained lo bs hi -> In c bs -> lo <= fst c /\ snd c <= hi.
Proof.
  revert lo. induction bs as [|[a b] rest IH]; intros lo Hch Hin;
    simpl in *.
  - destruct Hin.
  - destruct Hch as [Ha [Hab Hrest]].
    destruct Hin as [<- | Hin]; simpl.
    + apply chained_le in Hrest. lra.
    + destruct (IH _ Hrest Hin). lra.
Qed.

Lemma chained_band_lt (bs : list Band) (lo hi : Q) (c : Band) :
  chained lo bs hi -> In c bs -> fst c < snd c.
Proof.
  revert lo. induction bs as [|[a b] rest IH]; intros lo Hch Hin;
    simpl in *.
  - destruct Hin.
  - destruct Hch as [Ha [Hab Hrest]].
    destruct Hin as [<- | Hin]; [exact Hab | exact (IH _ Hrest Hin)].
Qed.

(** Every point of [lo, hi) lies in one interval of the chain. *)
Lemma chained_find (bs : list Band) (lo hi x : Q) :
  chained lo bs hi -> lo <= x -> x < hi ->
  exists c, In c bs /\ fst c <= x /\ x < snd c.
Proof.
  revert lo. induction bs as [|[a b] rest IH]; intros lo Hch Hlo Hhi;
    simpl in Hch.
  - lra.
  - destruct Hch as [Ha [Hab Hrest]].
    destruct (Qlt_le_dec x b) as [Hxb | Hbx].
    + exists (a, b). simpl. split; [left; reflexivity | lra].
    + destruct (IH _ Hrest Hbx Hhi) as [c [Hin Hc]].
      exists c. split; [right; exact Hin | exact Hc].
Qed.

(** A chain that is not empty has an interval ending at [hi]. *)
Lemma chained_last (bs : list Band) (lo hi : Q) :
  chained lo bs hi -> bs <> [] ->
  exists c, In c bs /\ snd c == hi.
Proof.
  revert lo. induction bs as [|[a b] rest IH]; intros lo Hch Hne;
    simpl in Hch.
  - contradiction.
  - destruct Hch as [Ha [Hab Hrest]].
    destruct rest as [|c rest'].
    + exists (a, b). simpl in *. split; [left; reflexivity | exact Hrest].
    + destruct (IH _ Hrest) as [d [Hin Hd]]; [discriminate | ].
      exists d. split; [right; exact Hin | exact Hd].
Qed.

End Chained.

Lemma py_min_le_max (v : Q) (vs : list Q) : py_min v vs <= py_max v vs.
Proof.
  eapply Qle_trans; [apply py_min_le_init | apply py_max_ge_init].
Qed.

Lemma py_min_in (v : Q) (vs : list Q) : In (py_min v vs) (v :: vs).
Proof. destruct (py_min_is_elem vs v) as [-> | H]; [left | right]; auto. Qed.

Lemma py_max_in (v : Q) (vs : list Q) : In (py_max v vs) (v :: vs).
Proof. destruct (py_max_is_elem vs v) as [-> | H]; [left | right]; auto. Qed.

(** With data and a table, the range is the padded data range when no band
    is in the data range, and the hull of the bands in it otherwise. *)
Lemma adaptive_range_with_data (name : string) (v : Q) (vs : list Q) :
  get_performance_bands name <> [] ->
  _get_adaptive_y_range name (v :: vs) =
  let min_val := py_min v vs in
  let max_val := py_max v vs in
  match List.filter (in_data_range min_val max_val)
          (get_performance_bands name) with
  | [] =>
      let padding :=
        if Qneb max_val min_val then (max_val - min_val) * 0.1 else 1 in
      (min_val - padding, max_val + padding)
  | (_, (band_min, band_max)) :: rest =>
      (py_min band_min (map (fun it => fst (snd it)) rest),
       py_max band_max (map (fun it => snd (snd it)) rest))
  end.
Proof.
  intros Hne. unfold _get_adaptive_y_range.
  destruct (get_performance_bands name); [contradiction | reflexivity].
Qed.

Lemma band_table_nonempty (k : TestKind) :
  get_performance_bands (test_name k) <> [].
Proof. destruct k; discriminate. Qed.

(** The hull of a non-empty selection of bands reaches below and above
    each of them, and its ends are ends of selected bands. *)
Lemma hull_spec (first : string * Band) (rest : BandTable) :
  let y_min := py_min (fst (snd first)) (map (fun it => fst (snd it)) rest) in
  let y_max := py_max (snd (snd first)) (map (fun it => snd (snd it)) rest) in
  (forall item, In item (first :: rest) ->
     y_min <= fst (snd item) /\ snd (snd item) <= y_max) /\
  (exists item, In item (first :: rest) /\ y_min = fst (snd item)) /\
  (exists item, In item (first :: rest) /\ y_max = snd (snd item)).
Proof.
  intros y_min y_max. split; [ | split].
  - intros item [<- | Hin].
    + split; [apply py_min_le_init | apply py_max_ge_init].
    + split; [apply py_min_le_elem | apply py_max_ge_elem];
        apply in_map_iff; exists item; auto.
  - destruct (py_min_is_elem (map (fun it => fst (snd it)) rest)
                (fst (snd first))) as [Heq | Hin].
    + exists first. split; [left; reflexivity | exact Heq].
    + apply in_map_iff in Hin as [item [Heq Hin]].
      exists item. split; [right; exact Hin | symmetry; exact Heq].
  - destruct (py_max_is_elem (map (fun it => snd (snd it)) rest)
                (snd (snd first))) as [Heq | Hin].
    + exists first. split; [left; reflexivity | exact Heq].
    + apply in_map_iff in Hin as [item [Heq Hin]].
      exists item. split; [right; exact Hin | symmetry; exact Heq].
Qed.

(** C2, amended. For every kind and every non-empty sequence of values:
    either no band is in the data range and the range is the data range
    padded on both sides, or both ends of the range are band boundaries of
    the kind; and when every value lies in the kind's fixed domain, the
    range reaches from at or below the least value to at or above the
    greatest one. *)
Theorem adaptive_range_covers_domain_data (k : TestKind) (v : Q)
    (vs : list Q) :
  let name := test_name k in
  let table := get_performance_bands name in
  let min_val := py_min v vs in
  let max_val := py_max v vs in
  let touched := List.filter (in_data_range min_val max_val) table in
  let padding :=
    if Qneb max_val min_val then (max_val - min_val) * 0.1 else 1 in
  let range := _get_adaptive_y_range name (v :: vs) in
  ((touched = [] /\ range = (min_val - padding, max_val + padding)) \/
   (touched <> [] /\
    band_boundary table (fst range) /\ band_boundary table (snd range))) /\
  ((forall x, In x (v :: vs) ->
      fst (fixed_range name) <= x /\ x <= snd (fixed_range name)) ->
   fst range <= min_val /\ max_val <= snd range).
Proof.
  intros name table min_val max_val touched padding range.
  assert (Hrange : range =
    match touched with
    | [] => (min_val - padding, max_val + padding)
    | (_, (band_min, band_max)) :: rest =>
        (py_min band_min (map (fun it => fst (snd it)) rest),
         py_max band_max (map (fun it => snd (snd it)) rest))
    end).
  { unfold range. rewrite adaptive_range_with_data
      by apply band_table_nonempty. reflexivity. }
  assert (Hsub : forall item, In item touched ->
            In item table /\ min_val < snd (snd item) /\
            fst (snd item) <= max_val).
  { intros item Hin. apply filter_In in Hin as [Hin Htest].
    apply andb_true_iff in Htest as [H1 H2].
    apply Qltb_lt in H1. apply Qgeb_ge in H2. auto. }
  split.
  - destruct touched as [|[n [band_min band_max]] rest] eqn:Htouched.
    + left. split; [reflexivity | exact Hrange].
    + right. split; [discriminate | ].
      destruct (hull_spec (n, (band_min, band_max)) rest)
        as [_ [[lo [Hlo Hloeq]] [hi [Hhi Hhieq]]]].
      simpl in Hloeq, Hhieq. rewrite Hrange. simpl. split.
      * exists lo. split; [apply Hsub, Hlo | left; rewrite Hloeq; reflexivity].
      * exists hi. split; [apply Hsub, Hhi | right; rewrite Hhieq; reflexivity].
  - intros Hdom.
    pose proof (py_min_le_max v vs) as Hmm. fold min_val max_val in Hmm.
    destruct (Hdom _ (py_min_in v vs)) as [Hmin_lo Hmin_hi].
    destruct (Hdom _ (py_max_in v vs)) as [Hmax_lo Hmax_hi].
    fold min_val in Hmin_lo, Hmin_hi. fold max_val in Hmax_lo, Hmax_hi.
    pose proof (band_table_chained k) as Hchain.
    fold name table in Hchain.
    set (lo := fst (fixed_range name)) in *.
    set (hi := snd (fixed_range name)) in *.
    assert (Htouch : forall item, In item table ->
              min_val < snd (snd item) -> fst (snd item) <= max_val ->
              In item touched).
    { intros item Hin H1 H2. apply filter_In. split; [exact Hin | ].
      apply andb_true_iff. split; [apply Qltb_lt | apply Qgeb_ge]; assumption. }
    destruct touched as [|[n [band_min band_max]] rest] eqn:Htouched.
    + rewrite Hrange. simpl. unfold padding.
      destruct (Qneb max_val min_val); lra.
    + destruct (hull_spec (n, (band_min, band_max)) rest) as [Hhull _].
      rewrite Hrange. simpl. simpl in Hhull.
      destruct (Hsub _ (or_introl eq_refl)) as [Hin0 [Hlt0 _]].
      simpl in Hlt0.
      assert (Hmin_lt : min_val < hi).
      { apply (in_map snd) in Hin0.
        destruct (chained_bounds _ _ _ _ Hchain Hin0) as [_ Hb].
        simpl in Hb. lra. }
      split.
      * destruct (chained_find _ _ _ min_val Hchain Hmin_lo Hmin_lt)
          as [c [Hc [Hc1 Hc2]]].
        apply in_map_iff in Hc as [item [<- Hitem]].
        assert (Hit : In item ((n, (band_min, band_max)) :: rest)).
        { apply Htouch; [exact Hitem | exact Hc2 | lra]. }
        destruct (Hhull _ Hit) as [Hle _]. lra.
      * destruct (Qlt_le_dec max_val hi) as [Hlt | Hge].
        -- destruct (chained_find _ _ _ max_val Hchain Hmax_lo Hlt)
             as [c [Hc [Hc1 Hc2]]].
           apply in_map_iff in Hc as [item [<- Hitem]].
           assert (Hit : In item ((n, (band_min, band_max)) :: rest)).
           { apply Htouch; [exact Hitem | lra | exact Hc1]. }
           destruct (Hhull _ Hit) as [_ Hle]. lra.
        -- destruct (chained_last _ _ _ Hchain) as [c [Hc Hlast]].
           { intros Hnil. apply (in_map snd) in Hin0.
             rewrite Hnil in Hin0. destruct Hin0. }
           apply in_map_iff in Hc as [item [<- Hitem]].
           assert (Hit : In item ((n, (band_min, band_max)) :: rest)).
           { apply Htouch; [exact Hitem | lra | ].
             apply (in_map snd) in Hitem.
             pose proof (chained_band_lt _ _ _ _ Hchain Hitem). lra. }
           destruct (Hhull _ Hit) as [_ Hle]. lra.
Qed.

Lemma adaptive_range_covers_domain_data_witness :
  let range := _get_adaptive_y_range (test_name MentalMath) [7; 12] in
  fst range <= py_min 7 [12] /\ py_max 7 [12] <= snd range.
Proof.
  apply (proj2 (adaptive_range_covers_domain_data MentalMath 7 [12])).
  intros x [<- | [<- | []]]; vm_compute; split; discriminate.
Defined.

(** C2 as stated fails: for mental math, an average of 25 s per problem
    plots at 22 - 25 = -3 and one of 15 s at 7; the range returned for
    these two values starts at 2, above the least of them. *)
Lemma adaptive_range_crops_data :
  let values := [-3; 7] in
  let range := _get_adaptive_y_range (test_name MentalMath) values in
  range = (2.0, 11.0) /\ ~ (fst range <= py_min (-3) [7]).
Proof.
  split; [reflexivity | ].
  vm_compute. intros H. apply H. reflexivity.
Qed.

(** ** The environment fingerprint *)

Lemma append_cons (a : Ascii.ascii) (s t : string) :
  String a s +:+ t = String a (s +:+ t).
Proof. reflexivity. Qed.

Lemma append_length (s t : string) :
  String.length (s +:+ t) = (String.length s + String.length t)%nat.
Proof.
  induction s as [|a s IH]; [reflexivity | ].
  rewrite append_cons. simpl. rewrite IH. reflexivity.
Qed.

(** Two strings that agree once the same text is appended are equal. *)
Lemma append_inv_tail (s1 s2 t : string) : s1 +:+ t = s2 +:+ t -> s1 = s2.
Proof.
  revert s2. induction s1 as [|a s1 IH]; intros [|b s2] Heq.
  - reflexivity.
  - apply (f_equal String.length) in Heq.
    rewrite !append_length in Heq. simpl in Heq. lia.
  - apply (f_equal String.length) in Heq.
    rewrite !append_length in Heq. simpl in Heq. lia.
  - rewrite !append_cons in Heq. injection Heq as -> Heq.
    f_equal. apply IH, Heq.
Qed.

Lemma append_inv_head (s t1 t2 : string) : s +:+ t1 = s +:+ t2 -> t1 = t2.
Proof.
  induction s as [|a s IH]; intros Heq; [exact Heq | ].
  rewrite !append_cons in Heq. injection Heq as Heq. apply IH, Heq.
Qed.

(** C3, amended. The key is a function of four attributes of the
    signature: the OS name, the terminal program, its version and the
    shell. Equal signatures give equal keys; signatures that agree on
    these four give equal keys whatever their OS version and runtime
    version; and when exactly one of the four differs, the keys differ. *)
Theorem fingerprint_key_attributes (e1 e2 : Environment) :
  let s1 := _terminal_signature e1 in
  let s2 := _terminal_signature e2 in
  let key1 := _terminal_signature_key e1 in
  let key2 := _terminal_signature_key e2 in
  (s1 = s2 -> key1 = key2) /\
  (sig_os s1 = sig_os s2 /\
   sig_terminal_program s1 = sig_terminal_program s2 /\
   sig_terminal_version s1 = sig_terminal_version s2 /\
   sig_shell s1 = sig_shell s2 -> key1 = key2) /\
  ((sig_os s1 <> sig_os s2 /\
    sig_terminal_program s1 = sig_terminal_program s2 /\
    sig_terminal_version s1 = sig_terminal_version s2 /\
    sig_shell s1 = sig_shell s2) \/
   (sig_os s1 = sig_os s2 /\
    sig_terminal_program s1 <> sig_terminal_program s2 /\
    sig_terminal_version s1 = sig_terminal_version s2 /\
    sig_shell s1 = sig_shell s2) \/
   (sig_os s1 = sig_os s2 /\
    sig_terminal_program s1 = sig_terminal_program s2 /\
    sig_terminal_version s1 <> sig_terminal_version s2 /\
    sig_shell s1 = sig_shell s2) \/
   (sig_os s1 = sig_os s2 /\
    sig_terminal_program s1 = sig_terminal_program s2 /\
    sig_terminal_version s1 = sig_terminal_version s2 /\
    sig_shell s1 <> sig_shell s2) -> key1 <> key2).
Proof.
  intros s1 s2 key1 key2.
  assert (Hsame : sig_os s1 = sig_os s2 /\
            sig_terminal_program s1 = sig_terminal_program s2 /\
            sig_terminal_version s1 = sig_terminal_version s2 /\
            sig_shell s1 = sig_shell s2 -> key1 = key2).
  { intros [Hos [Hprog [Hver Hshell]]].
    unfold key1, key2, _terminal_signature_key. fold s1 s2.
    rewrite Hos, Hprog, Hver, Hshell. reflexivity. }
  split; [ | split; [exact Hsame | ]].
  - intros Heq. apply Hsame. rewrite Heq. auto.
  - unfold key1, key2, _terminal_signature_key. fold s1 s2.
    intros [[Hne [Hprog [Hver Hshell]]] | [[Hos [Hne [Hver Hshell]]] |
            [[Hos [Hprog [Hne Hshell]]] | [Hos [Hprog [Hver Hne]]]]]] Hkey;
      apply Hne.
    + rewrite Hprog, Hver, Hshell in Hkey.
      exact (append_inv_tail _ _ _ Hkey).
    + rewrite Hos, Hver, Hshell in Hkey.
      apply append_inv_head, append_inv_head in Hkey.
      exact (append_inv_tail _ _ _ Hkey).
    + rewrite Hos, Hprog, Hshell in Hkey.
      do 4 apply append_inv_head in Hkey.
      exact (append_inv_tail _ _ _ Hkey).
    + rewrite Hos, Hprog, Hver in Hkey.
      do 6 apply append_inv_head in Hkey. exact Hkey.
Qed.

Lemma fingerprint_key_attributes_witness :
  _terminal_signature_key sample_env = _terminal_signature_key sample_env /\
  _terminal_signature_key sample_env = _terminal_signature_key upgraded_env /\
  _terminal_signature_key sample_env <> _terminal_signature_key bash_env.
Proof.
  split; [ | split].
  - apply (proj1 (fingerprint_key_attributes sample_env sample_env)).
    reflexivity.
  - apply (proj1 (proj2 (fingerprint_key_attributes sample_env upgraded_env))).
    repeat split; reflexivity.
  - apply (proj2 (proj2 (fingerprint_key_attributes sample_env bash_env))).
    right. right. right. repeat split; try reflexivity.
    vm_compute. discriminate.
Defined.

(** C3 as stated fails: an upgrade of the operating system changes one of
    the six attributes, the OS version, and no other; the key stays as it
    was. *)
Lemma fingerprint_ignores_os_version :
  let s1 := _terminal_signature sample_env in
  let s2 := _terminal_signature upgraded_env in
  sig_os_version s1 <> sig_os_version s2 /\
  sig_os s1 = sig_os s2 /\ sig_python s1 = sig_python s2 /\
  sig_terminal_program s1 = sig_terminal_program s2 /\
  sig_terminal_version s1 = sig_terminal_version s2 /\
  sig_shell s1 = sig_shell s2 /\
  _terminal_signature_key sample_env = _terminal_signature_key upgraded_env /\
  _terminal_signature_key sample_env = "Darwin|iTerm.app|3.4.19|/bin/zsh"%string.
Proof.
  repeat split; try discriminate; reflexivity.
Qed.

(** ** Recording a result *)

Section RecordResult.

Variables (self : InsomniappSuite) (now name : string) (raw_score : Q)
          (detail : option (gmap string DetailValue)).

(** The history of the recorded kind grows by the new entry at its
    end; a kind without a history gets one made of that entry. *)
Lemma record_result_history :
  results (record_result self now name raw_score detail) !! name =
  Some (default [] (results self !! name) ++
        [{| timestamp := now; score := raw_score;
            details := default ∅ detail |}]).
Proof.
  unfold record_result. simpl. rewrite lookup_alter_eq.
  destruct (results self !! name) as [history|] eqn:Hold.
  - rewrite Hold. reflexivity.
  - rewrite lookup_insert_eq. reflexivity.
Qed.

Lemma record_result_frame (other : string) :
  other <> name ->
  results (record_result self now name raw_score detail) !! other =
  results self !! other.
Proof.
  intros Hne. unfold record_result. simpl.
  rewrite lookup_alter_ne by congruence.
  destruct (results self !! name); [reflexivity | ].
  apply lookup_insert_ne. congruence.
Qed.

End RecordResult.

(** C10. Recording a result for a kind appends exactly one entry, the new
    one, to the end of the history of that kind, and leaves the history of
    every other kind as it was, entries and order alike. *)
Theorem record_result_appends_one (self : InsomniappSuite)
    (now name : string) (raw_score : Q)
    (detail : option (gmap string DetailValue)) :
  let self' := record_result self now name raw_score detail in
  let before := default [] (results self !! name) in
  let recorded :=
    {| timestamp := now; score := raw_score; details := default ∅ detail |} in
  results self' !! name = Some (before ++ [recorded]) /\
  (exists after, results self' !! name = Some after /\
     length after = S (length before) /\ last after = Some recorded /\
     firstn (length before) after = before) /\
  (forall other, other <> name ->
     results self' !! other = results self !! other).
Proof.
  intros self' before recorded.
  pose proof (record_result_history self now name raw_score detail) as Hhist.
  split; [exact Hhist | split].
  - exists (before ++ [recorded]). split; [exact Hhist | ].
    split; [ | split].
    + rewrite length_app. simpl. lia.
    + apply last_snoc.
    + rewrite firstn_app, Nat.sub_diag, firstn_all. simpl. apply app_nil_r.
  - intros other Hne. apply record_result_frame, Hne.
Qed.

Lemma record_result_appends_one_witness :
  results (record_result empty_suite "2024-03-01T09:30:00" "Digit Span" 7 None)
    !! "Word Recall" = results empty_suite !! "Word Recall".
Proof.
  apply (proj2 (proj2 (record_result_appends_one empty_suite
                         "2024-03-01T09:30:00" "Digit Span" 7 None))).
  discriminate.
Defined.

(** ** Rounding *)

Lemma Qcompare_Gt (x y : Q) : (x ?= y) = Gt <-> y < x.
Proof. symmetry. apply Qgt_alt. Qed.

Lemma Qcompare_Eq (x y : Q) : (x ?= y) = Eq <-> x == y.
Proof. symmetry. apply Qeq_alt. Qed.

Lemma Qcompare_Lt (x y : Q) : (x ?= y) = Lt <-> x < y.
Proof. symmetry. apply Qlt_alt. Qed.

(** [round] gives the floor or the number after it. *)
Lemma py_round_cases (x : Q) :
  (py_round x = Qfloor x /\ x - inject_Z (Qfloor x) <= 1 # 2) \/
  (py_round x = (Qfloor x + 1)%Z /\ 1 # 2 <= x - inject_Z (Qfloor x)).
Proof.
  unfold py_round.
  destruct (Qcompare (x - inject_Z (Qfloor x)) (1 # 2)) eqn:Hcmp.
  - apply Qcompare_Eq in Hcmp.
    destruct (Z.even (Qfloor x)); [left | right]; split; try reflexivity;
      rewrite Hcmp; apply Qle_refl.
  - apply Qcompare_Lt in Hcmp. left. split; [reflexivity | ].
    apply Qlt_le_weak, Hcmp.
  - apply Qcompare_Gt in Hcmp. right. split; [reflexivity | ].
    apply Qlt_le_weak, Hcmp.
Qed.

Lemma py_round_nonneg (x : Q) : 0 <= x -> (0 <= py_round x)%Z.
Proof.
  intros Hx. apply Qfloor_resp_le in Hx. change (Qfloor 0) with 0%Z in Hx.
  destruct (py_round_cases x) as [[-> _] | [-> _]]; lia.
Qed.

(** [round] does not go past an integer its argument does not pass. *)
Lemma py_round_le (x : Q) (m : Z) : x <= inject_Z m -> (py_round x <= m)%Z.
Proof.
  intros Hx. pose proof (Qfloor_le x) as Hfloor.
  destruct (py_round_cases x) as [[-> _] | [-> Hhalf]].
  - rewrite Zle_Qle. eapply Qle_trans; [exact Hfloor | exact Hx].
  - assert (Hlt : inject_Z (Qfloor x) < inject_Z m) by lra.
    rewrite <- Zlt_Qlt in Hlt. lia.
Qed.

Lemma py_round_to_nonneg (x : Q) (digits : nat) :
  0 <= x -> 0 <= py_round_to x digits.
Proof.
  intros Hx. unfold py_round_to.
  assert (Hscale : 0 < inject_Z (10 ^ Z.of_nat digits)).
  { change 0 with (inject_Z 0). rewrite <- Zlt_Qlt.
    apply Z.pow_pos_nonneg; lia. }
  apply Qle_shift_div_l; [exact Hscale | ].
  rewrite Qmult_0_l. change 0 with (inject_Z 0). rewrite <- Zle_Qle.
  apply py_round_nonneg.
  apply Qmult_le_0_compat; [exact Hx | apply Qlt_le_weak, Hscale].
Qed.

(** ** The adjusted reaction score *)

Lemma clamp_nonneg (x : Q) : 0 <= Qmax 0.0 x.
Proof.
  eapply Qle_trans; [ | apply Q.le_max_l]. discriminate.
Qed.

(** C6. For reaction time the adjusted score is
    [max(0.0, raw_score - baseline)] and so is never negative, whatever
    the raw score and the baseline: the adjusted average of a completed
    test is that clamp of the average time, it is stored (rounded to three
    places) as [adjusted_average_s] of the recorded result and read back
    as such, and a result without a stored value is adjusted by the same
    clamp from its raw score and the current baseline. *)
Theorem reaction_adjusted_clamped (self : InsomniappSuite) (e : Environment)
    (now : string) (reaction : nat -> option Q) (times : list Q) :
  reaction_trials 5 1 reaction [] = Some times ->
  let baseline := get_active_baseline_seconds self e in
  let average_time := py_sum times / inject_Z (Z.of_nat (length times)) in
  let avg_adjusted := Qmax 0.0 (average_time - baseline) in
  let self' := reaction_time_test self e now reaction in
  0 <= avg_adjusted /\
  (exists r,
     results self' !! "Reaction Time" =
       Some (default [] (results self !! "Reaction Time") ++ [r]) /\
     score r = average_time /\
     details r !! "adjusted_average_s" =
       Some (DNum (py_round_to avg_adjusted 3)) /\
     adjusted_score self' e r = Some (py_round_to avg_adjusted 3) /\
     0 <= py_round_to avg_adjusted 3) /\
  (forall r : Result,
     details r !! "adjusted_average_s" = None ->
     adjusted_score self e r = Some (Qmax 0.0 (score r - baseline)) /\
     0 <= Qmax 0.0 (score r - baseline)).
Proof.
  intros Htrials baseline average_time avg_adjusted self'.
  split; [apply clamp_nonneg | split].
  - unfold self', reaction_time_test. rewrite Htrials.
    fold baseline average_time avg_adjusted.
    eexists. split; [apply record_result_history | ].
    assert (Hstored :
      details
        {| timestamp := now; score := average_time;
           details := default ∅ (Some (list_to_map
             [("trials", DNum (inject_Z (Z.of_nat 5)));
              ("times", DNums (map (fun t => py_round_to t 3) times));
              ("adjusted_average_s", DNum (py_round_to avg_adjusted 3));
              ("baseline_ms", DNum (py_round_to (baseline * 1000.0) 1))]))
        |} !! "adjusted_average_s" =
      Some (DNum (py_round_to avg_adjusted 3))).
    { simpl. rewrite !lookup_insert_ne by discriminate.
      apply lookup_insert_eq. }
    split; [reflexivity | split; [exact Hstored | split]].
    + unfold adjusted_score. rewrite Hstored. reflexivity.
    + apply py_round_to_nonneg, clamp_nonneg.
  - intros r Habsent. split; [ | apply clamp_nonneg].
    unfold adjusted_score. rewrite Habsent. reflexivity.
Qed.

Lemma reaction_adjusted_clamped_witness :
  let r := {| timestamp := "2024-03-01T09:30:00"; score := 0.31;
              details := ∅ |} in
  adjusted_score empty_suite sample_env r =
    Some (Qmax 0.0 (score r - get_active_baseline_seconds empty_suite sample_env))
  /\ 0 <= Qmax 0.0 (score r - get_active_baseline_seconds empty_suite sample_env).
Proof.
  intros r.
  apply (proj2 (proj2 (reaction_adjusted_clamped empty_suite sample_env
           "2024-03-01T09:35:00" (fun _ => Some 0.25)
           [0.25; 0.25; 0.25; 0.25; 0.25] eq_refl))).
  reflexivity.
Defined.

(** ** The trend of the overall statistics *)

Lemma lower_better_never (name : string) :
  lower_better (get_test_info name) = false.
Proof.
  unfold get_test_info.
  repeat match goal with |- context [String.eqb ?a ?b] =>
    destruct (String.eqb a b) end; reflexivity.
Qed.

(** What the trend line does with six scores or more, for every name:
    it says improving when the later average is the greater one and
    declining in every other case, equality included. *)
Lemma trend_report_behaviour (name : string) (scores : list Q) :
  (6 <= length scores)%nat ->
  let first_three := py_sum (firstn 3 scores) / 3 in
  let last_three := py_sum (skipn (length scores - 3) scores) / 3 in
  trend_report name scores =
  Some (if Qltb first_three last_three then "improving" else "declining",
        Qabs (last_three - first_three))%string.
Proof.
  intros Hlen first_three last_three. unfold trend_report.
  apply Nat.leb_le in Hlen. rewrite Hlen, lower_better_never. reflexivity.
Qed.

(** C1 on the code. Six mental-math scores 15, 14, 13, 9, 8, 7 (seconds
    per problem, falling) are reported as declining with a change of 6,
    where the specified verdict for this lower-is-better kind is
    improving; and six equal scores are reported as declining with a
    change of 0, where the specified verdict is stable. *)
Theorem trend_report_mental_math_example :
  let scores := [15; 14; 13; 9; 8; 7] in
  (exists change,
     trend_report (test_name MentalMath) scores = Some ("declining", change)%string
     /\ overall_trend mental_math_suite sample_env (test_name MentalMath) =
          Some ("declining", change)%string
     /\ change == 6 /\
     exists change', spec_trend true scores = ("improving", change')%string
     /\ change' == 6) /\
  (exists change,
     trend_report (test_name DigitSpan) [5; 5; 5; 5; 5; 5] =
       Some ("declining", change)%string /\ change == 0 /\
     exists change', spec_trend false [5; 5; 5; 5; 5; 5] =
       ("stable", change')%string /\ change' == 0).
Proof.
  split.
  - eexists. split; [vm_compute; reflexivity | ].
    split; [vm_compute; reflexivity | ].
    split; [reflexivity | ].
    eexists. split; [vm_compute; reflexivity | reflexivity].
  - eexists. split; [vm_compute; reflexivity | ].
    split; [reflexivity | ].
    eexists. split; [vm_compute; reflexivity | reflexivity].
Qed.

(** ** Sorting, the median and the percentile index *)

Lemma insert_sorted_perm (x : Q) (l : list Q) :
  Permutation (x :: l) (insert_sorted x l).
Proof.
  induction l as [|y l IH]; simpl.
  - reflexivity.
  - destruct (Qle_bool x y); [reflexivity | ].
    rewrite perm_swap. apply perm_skip, IH.
Qed.

Lemma py_sorted_perm (l : list Q) : Permutation l (py_sorted l).
Proof.
  induction l as [|x l IH]; simpl.
  - constructor.
  - rewrite <- insert_sorted_perm. apply perm_skip, IH.
Qed.

Lemma py_sorted_length (l : list Q) : length (py_sorted l) = length l.
Proof. symmetry. apply Permutation_length, py_sorted_perm. Qed.

Lemma Qle_bool_false (x y : Q) : Qle_bool x y = false -> y <= x.
Proof.
  intros Hfalse. apply Qlt_le_weak, Qnot_le_lt. intros Hle.
  apply Qle_bool_iff in Hle. congruence.
Qed.

Lemma insert_sorted_HdRel (a x : Q) (l : list Q) :
  HdRel Qle a l -> a <= x -> HdRel Qle a (insert_sorted x l).
Proof.
  intros Hhd Hax. destruct l as [|y l]; simpl.
  - constructor. exact Hax.
  - destruct (Qle_bool x y); constructor; [exact Hax | ].
    inversion Hhd. assumption.
Qed.

Lemma insert_sorted_sorted (x : Q) (l : list Q) :
  Sorted Qle l -> Sorted Qle (insert_sorted x l).
Proof.
  induction l as [|y l IH]; intros Hsorted; simpl.
  - repeat constructor.
  - destruct (Qle_bool x y) eqn:Hxy.
    + constructor; [exact Hsorted | ].
      constructor. apply Qle_bool_iff, Hxy.
    + inversion Hsorted as [|? ? Htail Hhd]; subst.
      constructor; [apply IH, Htail | ].
      apply insert_sorted_HdRel; [exact Hhd | apply Qle_bool_false, Hxy].
Qed.

Lemma py_sorted_sorted (l : list Q) : Sorted Qle (py_sorted l).
Proof.
  induction l as [|x l IH]; simpl.
  - constructor.
  - apply insert_sorted_sorted, IH.
Qed.

(** Sorting a sorted list changes nothing. *)
Lemma py_sorted_id (l : list Q) : Sorted Qle l -> py_sorted l = l.
Proof.
  induction l as [|x l IH]; intros Hsorted; simpl.
  - reflexivity.
  - inversion Hsorted as [|? ? Htail Hhd]; subst.
    rewrite (IH Htail).
    destruct Hhd as [|y l' Hxy]; simpl; [reflexivity | ].
    apply Qle_bool_iff in Hxy. rewrite Hxy. reflexivity.
Qed.

(** The median of sorted data is its middle element, or the mean of its
    two middle elements. *)
Lemma median_sorted (data : list Q) :
  Sorted Qle data -> data <> [] ->
  exists med, median data = Some med /\
    (Nat.odd (length data) = true ->
     data !! (length data / 2)%nat = Some med) /\
    (Nat.odd (length data) = false ->
     exists a b, data !! (length data / 2 - 1)%nat = Some a /\
       data !! (length data / 2)%nat = Some b /\ med = (a + b) / 2).
Proof.
  intros Hsorted Hne. unfold median. rewrite (py_sorted_id _ Hsorted).
  assert (Hlen : (0 < length data)%nat).
  { destruct data; [contradiction | simpl; lia]. }
  assert (Hmid : (length data / 2 < length data)%nat).
  { apply Nat.div_lt; lia. }
  destruct (Nat.eqb_spec (length data) 0) as [Hzero | _]; [lia | ].
  destruct (lookup_lt_is_Some_2 data (length data / 2)%nat Hmid) as [b Hb].
  destruct (Nat.odd (length data)) eqn:Hodd.
  - exists b. split; [exact Hb | ]. split; [auto | discriminate].
  - destruct (lookup_lt_is_Some_2 data (length data / 2 - 1)%nat) as [a Ha];
      [lia | ].
    exists ((a + b) / 2). rewrite Ha, Hb. simpl.
    split; [reflexivity | ]. split; [discriminate | ].
    intros _. exists a, b. auto.
Qed.

(** For a percentile between 0 and 1 of a non-empty sample the index is
    the rounded rank itself, and it is an index of the sample. *)
Lemma percentile_index_range (p : Q) (n : nat) :
  0 <= p -> p <= 1 -> (0 < n)%nat ->
  percentile_index p n = py_round (p * inject_Z (Z.of_nat n - 1)) /\
  (0 <= percentile_index p n <= Z.of_nat n - 1)%Z.
Proof.
  intros Hp0 Hp1 Hn. unfold percentile_index.
  assert (Hm : 0 <= inject_Z (Z.of_nat n - 1)).
  { change 0 with (inject_Z 0). rewrite <- Zle_Qle. lia. }
  assert (Hlo : (0 <= py_round (p * inject_Z (Z.of_nat n - 1)))%Z).
  { apply py_round_nonneg, Qmult_le_0_compat; assumption. }
  assert (Hhi : (py_round (p * inject_Z (Z.of_nat n - 1)) <= Z.of_nat n - 1)%Z).
  { apply py_round_le.
    assert (0 <= (1 - p) * inject_Z (Z.of_nat n - 1)).
    { apply Qmult_le_0_compat; [lra | exact Hm]. }
    lra. }
  rewrite Z.max_r by exact Hlo. split; [reflexivity | lia].
Qed.

Lemma py_index_in_range (l : list Q) (i : Z) :
  (0 <= i <= Z.of_nat (length l) - 1)%Z ->
  exists x, py_index l i = Some x /\ l !! Z.to_nat i = Some x.
Proof.
  intros Hi. unfold py_index.
  destruct (Z.ltb_spec i 0) as [Hneg | _]; [lia | ].
  destruct (lookup_lt_is_Some_2 l (Z.to_nat i)) as [x Hx]; [lia | ].
  exists x. auto.
Qed.

(** ** Saving a calibration *)

(** With at least one sample the statistics exist, they depend on the
    samples alone, and saving writes the entry made of them under the
    key of the environment, in the store and in the file. *)
Lemma save_calibration_results_writes (s : Q) (rest : list Q) :
  let samples_ms := py_sorted (map (fun s => s * 1000.0) (s :: rest)) in
  let n := length samples_ms in
  exists med p10 p90,
    median samples_ms = Some med /\
    samples_ms !! Z.to_nat (py_round (0.10 * inject_Z (Z.of_nat n - 1))) =
      Some p10 /\
    samples_ms !! Z.to_nat (py_round (0.90 * inject_Z (Z.of_nat n - 1))) =
      Some p90 /\
    forall self e now method_name,
    exists self',
      _save_calibration_results self e now (s :: rest) method_name =
        Some self' /\
      terminal_calibration self' =
        <[_terminal_signature_key e :=
            calibration_entry med p10 p90 n method_name now
              (_terminal_signature e)]> (terminal_calibration self) /\
      calibration_file self' = Some (terminal_calibration self') /\
      results self' = results self /\
      results_file self' = results_file self.
Proof.
  intros samples_ms n.
  assert (Hn : (0 < n)%nat).
  { unfold n, samples_ms. rewrite py_sorted_length, length_map. simpl. lia. }
  assert (Hne : samples_ms <> []).
  { intros Hnil. unfold n in Hn. rewrite Hnil in Hn. simpl in Hn. lia. }
  destruct (median_sorted samples_ms (py_sorted_sorted _) Hne)
    as [med [Hmed _]].
  destruct (percentile_index_range 0.10 n) as [Hi10 Hr10];
    [discriminate | discriminate | exact Hn | ].
  destruct (percentile_index_range 0.90 n) as [Hi90 Hr90];
    [discriminate | discriminate | exact Hn | ].
  destruct (py_index_in_range samples_ms _ Hr10) as [p10 [Hp10 Hl10]].
  destruct (py_index_in_range samples_ms _ Hr90) as [p90 [Hp90 Hl90]].
  exists med, p10, p90.
  split; [exact Hmed | ].
  split; [rewrite <- Hi10; exact Hl10 | ].
  split; [rewrite <- Hi90; exact Hl90 | ].
  intros self e now method_name.
  unfold _save_calibration_results.
  fold samples_ms. fold n. rewrite Hmed. simpl.
  rewrite Hp10. simpl. rewrite Hp90. simpl.
  eexists. split; [reflexivity | ]. simpl. auto.
Qed.

(** ** The sampling loops *)

Section SamplingLoops.

(** In the statements below, the trials a run went through are the
    first [run_trials run - started] of the outcomes it was given. *)

Lemma firstn_step (A : Type) (x : A) (l : list A) (n started : nat) :
  (S started <= n)%nat ->
  firstn (n - started) (x :: l) = x :: firstn (n - S started) l.
Proof.
  intros Hle. replace (n - started)%nat with (S (n - S started)) by lia.
  reflexivity.
Qed.

Local Arguments Nat.sub : simpl never.

Lemma sendkeys_trials_spec (outcomes : list TrialOutcome) :
  forall (samples : list Q) (errors started : nat),
  (errors < 3)%nat ->
  let run := sendkeys_trials outcomes samples errors started in
  (started <= run_trials run <= started + length outcomes)%nat /\
  run_samples run = samples ++ responses (firstn (run_trials run - started) outcomes) /\
  run_errors run =
    (errors + failures (firstn (run_trials run - started) outcomes))%nat /\
  (run_errors run <= 3)%nat /\
  (run_exit run = BreakOnError <-> run_errors run = 3%nat) /\
  (interrupted outcomes = false ->
   (run_exit run = BreakOnError <->
    (3 <= errors + failures outcomes)%nat) /\
   (run_exit run = RangeExhausted <->
    (errors + failures outcomes < 3)%nat)).
Proof.
  induction outcomes as [|o rest IH]; intros samples errors started Herr.
  - simpl. rewrite firstn_nil. simpl. rewrite app_nil_r.
    repeat split; try lia; try discriminate; intros; lia.
  - destruct o as [dt | | ].
    + specialize (IH (samples ++ [dt]) errors (S started) Herr).
      simpl in IH |- *.
      destruct IH as [Hcount [Hsamples [Herrors [Hmax [Hexit Hall]]]]].
      rewrite firstn_step by lia. simpl.
      rewrite Hsamples, <- app_assoc.
      split; [lia | ]. split; [reflexivity | ]. split; [exact Herrors | ].
      split; [exact Hmax | ]. split; [exact Hexit | exact Hall].
    + cbn [sendkeys_trials].
      destruct (Nat.leb_spec 3 (errors + 1)) as [Hthree | Hless].
      * simpl. replace (S started - started)%nat with 1%nat by lia.
        simpl. rewrite app_nil_r.
        repeat split; try lia; try discriminate; intros; lia.
      * specialize (IH samples (errors + 1)%nat (S started) Hless).
        simpl in IH. cbn zeta.
        destruct IH as [Hcount [Hsamples [Herrors [Hmax [Hexit Hall]]]]].
        rewrite firstn_step by lia. simpl.
        split; [lia | ]. split; [exact Hsamples | ].
        split; [rewrite Herrors; lia | ].
        split; [exact Hmax | ]. split; [exact Hexit | ].
        intros Hint. destruct (Hall Hint) as [H1 H2].
        rewrite H1, H2. split; split; lia.
    + simpl. replace (S started - started)%nat with 1%nat by lia.
      simpl. rewrite app_nil_r.
      repeat split; try lia; try discriminate.
Qed.

Lemma macos_trials_spec (outcomes : list TrialOutcome) :
  forall (samples : list Q) (errors started : nat),
  let run := macos_trials outcomes samples errors started in
  (started <= run_trials run <= started + length outcomes)%nat /\
  run_samples run = samples ++ responses (firstn (run_trials run - started) outcomes) /\
  run_errors run =
    (errors + failures (firstn (run_trials run - started) outcomes))%nat /\
  (failures (firstn (run_trials run - started) outcomes) <= 1)%nat /\
  (run_exit run = BreakOnError <->
   failures (firstn (run_trials run - started) outcomes) = 1%nat) /\
  (interrupted outcomes = false ->
   (run_exit run = BreakOnError <-> (1 <= failures outcomes)%nat) /\
   (run_exit run = RangeExhausted <-> failures outcomes = 0%nat)).
Proof.
  induction outcomes as [|o rest IH]; intros samples errors started.
  - simpl. rewrite firstn_nil. simpl. rewrite app_nil_r.
    repeat split; try lia; try discriminate; intros; lia.
  - destruct o as [dt | | ].
    + specialize (IH (samples ++ [dt]) errors (S started)).
      simpl in IH |- *.
      destruct IH as [Hcount [Hsamples [Herrors [Hmax [Hexit Hall]]]]].
      rewrite firstn_step by lia. simpl.
      rewrite Hsamples, <- app_assoc.
      split; [lia | ]. split; [reflexivity | ]. split; [exact Herrors | ].
      split; [exact Hmax | ]. split; [exact Hexit | exact Hall].
    + simpl. replace (S started - started)%nat with 1%nat by lia.
      simpl. rewrite app_nil_r.
      repeat split; try lia; try discriminate; intros; lia.
    + simpl. replace (S started - started)%nat with 1%nat by lia.
      simpl. rewrite app_nil_r.
      repeat split; try lia; try discriminate.
Qed.

End SamplingLoops.

(** C9, amended. In both automated runs a trial that does not complete
    adds nothing to the samples: the samples are the times of the answered
    trials among those the run went through, in order. The SendKeys run
    breaks off on an automation failure exactly when that failure is the
    third of the run, in a row or not, and never on fewer; the macOS run
    breaks off on its first automation failure. So, in a run the user does
    not interrupt, the SendKeys loop is cut short exactly when three of
    its trials fail, and the macOS loop exactly when one does. *)
Theorem sampling_failure_policy (outcomes : list TrialOutcome) :
  let mac := macos_sampling outcomes in
  let win := sendkeys_sampling outcomes in
  let mac_executed := firstn (run_trials mac) outcomes in
  let win_executed := firstn (run_trials win) outcomes in
  run_samples mac = responses mac_executed /\
  run_samples win = responses win_executed /\
  (run_exit win = BreakOnError <-> failures win_executed = 3%nat) /\
  (failures win_executed <= 3)%nat /\
  (run_exit mac = BreakOnError <-> failures mac_executed = 1%nat) /\
  (failures mac_executed <= 1)%nat /\
  (interrupted outcomes = false ->
   (run_exit win = BreakOnError <-> (3 <= failures outcomes)%nat) /\
   (run_exit win = RangeExhausted <-> (failures outcomes < 3)%nat) /\
   (run_exit mac = BreakOnError <-> (1 <= failures outcomes)%nat) /\
   (run_exit mac = RangeExhausted <-> failures outcomes = 0%nat)).
Proof.
  intros mac win mac_executed win_executed.
  destruct (sendkeys_trials_spec outcomes [] 0 0 ltac:(lia))
    as [_ [Hws [Hwe [Hwmax [Hwexit Hwall]]]]].
  destruct (macos_trials_spec outcomes [] 0 0)
    as [_ [Hms [_ [Hmmax [Hmexit Hmall]]]]].
  fold (sendkeys_sampling outcomes) in Hws, Hwe, Hwmax, Hwexit, Hwall.
  fold (macos_sampling outcomes) in Hms, Hmmax, Hmexit, Hmall.
  fold win in Hws, Hwe, Hwmax, Hwexit, Hwall.
  fold mac in Hms, Hmmax, Hmexit, Hmall.
  rewrite Nat.sub_0_r in Hws, Hwe, Hms, Hmmax, Hmexit.
  fold win_executed in Hws, Hwe. fold mac_executed in Hms, Hmmax, Hmexit.
  simpl in Hws, Hwe, Hms.
  split; [exact Hms | ]. split; [exact Hws | ].
  split; [rewrite Hwexit, Hwe; reflexivity | ].
  split; [rewrite <- Hwe; exact Hwmax | ].
  split; [exact Hmexit | ]. split; [exact Hmmax | ].
  intros Hint. destruct (Hwall Hint) as [H1 H2].
  destruct (Hmall Hint) as [H3 H4]. simpl in H1, H2. auto.
Qed.

Lemma sampling_failure_policy_witness :
  let outcomes :=
    [CalledProcessError; Responded 0.05; CalledProcessError; Responded 0.06;
     CalledProcessError; Responded 0.05] in
  run_exit (sendkeys_sampling outcomes) = BreakOnError /\
  run_samples (sendkeys_sampling outcomes) = [0.05; 0.06].
Proof.
  intros outcomes. split; [ | reflexivity].
  destruct (sampling_failure_policy outcomes)
    as [_ [_ [_ [_ [_ [_ Hall]]]]]].
  apply (Hall eq_refl). simpl. lia.
Defined.

(** C9 as stated fails: in the macOS run one failed trial, the first of
    three, ends the run after that trial with no sample taken; no three
    failures in a row have occurred. *)
Lemma macos_aborts_on_first_failure :
  let outcomes := [CalledProcessError; Responded 0.05; Responded 0.05] in
  let run := macos_sampling outcomes in
  run_exit run = BreakOnError /\ run_trials run = 1%nat /\
  (run_trials run < length outcomes)%nat /\ run_samples run = [] /\
  failures outcomes = 1%nat /\ failure_streak outcomes 0 0 = 1%nat /\
  ~ (3 <= failure_streak outcomes 0 0)%nat.
Proof.
  simpl. repeat split; try reflexivity; lia.
Qed.

(** ** The calibration reduction *)

(** C7. The reduction sorts the samples (in milliseconds) ascending; the
    median is the middle element of the sorted samples, or the mean of the
    two middle ones; percentile p is read at index round(p * (n - 1)),
    which lies in [0, n - 1], with no interpolation; and the entry saved is
    made of these three values. For the samples 10, 20, 30, 40, 50 ms the
    indices are 0 and 4, p10 is 10, p90 is 50 and the median is 30. *)
Theorem calibration_reduction_nearest_rank (s : Q) (rest : list Q) :
  let samples_ms := py_sorted (map (fun s => s * 1000.0) (s :: rest)) in
  let n := length samples_ms in
  Sorted Qle samples_ms /\
  Permutation (map (fun s => s * 1000.0) (s :: rest)) samples_ms /\
  (forall p, 0 <= p -> p <= 1 ->
     let rank := py_round (p * inject_Z (Z.of_nat n - 1)) in
     percentile_index p n = rank /\
     (0 <= rank <= Z.of_nat n - 1)%Z /\
     exists x, py_index samples_ms (percentile_index p n) = Some x /\
               samples_ms !! Z.to_nat rank = Some x) /\
  (exists med p10 p90,
     median samples_ms = Some med /\
     (Nat.odd n = true -> samples_ms !! (n / 2)%nat = Some med) /\
     (Nat.odd n = false ->
      exists a b, samples_ms !! (n / 2 - 1)%nat = Some a /\
        samples_ms !! (n / 2)%nat = Some b /\ med = (a + b) / 2) /\
     samples_ms !! Z.to_nat (py_round (0.10 * inject_Z (Z.of_nat n - 1))) =
       Some p10 /\
     samples_ms !! Z.to_nat (py_round (0.90 * inject_Z (Z.of_nat n - 1))) =
       Some p90 /\
     forall self e now method_name,
     exists self',
       _save_calibration_results self e now (s :: rest) method_name =
         Some self' /\
       terminal_calibration self' !! _terminal_signature_key e =
         Some (calibration_entry med p10 p90 n method_name now
                 (_terminal_signature e))) /\
  (percentile_index 0.10 5 = 0%Z /\ percentile_index 0.90 5 = 4%Z /\
   Forall2 Qeq (py_sorted (map (fun s => s * 1000.0) sample_times))
     [10; 20; 30; 40; 50] /\
   exists self' entry,
     _save_calibration_results empty_suite sample_env "2024-03-01T09:30:00"
       sample_times "Manual timing" = Some self' /\
     terminal_calibration self' !! _terminal_signature_key sample_env =
       Some entry /\
     median_ms entry == 30 /\ p10_ms entry == 10 /\ p90_ms entry == 50 /\
     samples entry = 5%nat).
Proof.
  intros samples_ms n.
  assert (Hn : (0 < n)%nat).
  { unfold n, samples_ms. rewrite py_sorted_length, length_map. simpl. lia. }
  assert (Hne : samples_ms <> []).
  { intros Hnil. unfold n in Hn. rewrite Hnil in Hn. simpl in Hn. lia. }
  split; [apply py_sorted_sorted | ].
  split; [apply py_sorted_perm | ].
  split; [ | split].
  - intros p Hp0 Hp1 rank.
    destruct (percentile_index_range p n Hp0 Hp1 Hn) as [Hidx Hrange].
    fold rank in Hidx. split; [exact Hidx | ].
    split; [rewrite <- Hidx; exact Hrange | ].
    destruct (py_index_in_range samples_ms _ Hrange) as [x [Hx Hlookup]].
    exists x. split; [exact Hx | rewrite <- Hidx; exact Hlookup].
  - destruct (save_calibration_results_writes s rest)
      as [med [p10 [p90 [Hmed [Hp10 [Hp90 Hsave]]]]]].
    fold samples_ms in Hmed, Hp10, Hp90, Hsave. fold n in Hp10, Hp90, Hsave.
    destruct (median_sorted samples_ms (py_sorted_sorted _) Hne)
      as [med' [Hmed' [Hodd Heven]]].
    assert (med' = med) by congruence. subst med'.
    exists med, p10, p90.
    split; [exact Hmed | ]. split; [exact Hodd | ]. split; [exact Heven | ].
    split; [exact Hp10 | ]. split; [exact Hp90 | ].
    intros self e now method_name.
    destruct (Hsave self e now method_name) as [self' [Hrun [Hcal _]]].
    exists self'. split; [exact Hrun | ].
    rewrite Hcal. apply lookup_insert_eq.
  - split; [reflexivity | ]. split; [reflexivity | ].
    split; [repeat constructor | ].
    eexists. eexists. split; [vm_compute; reflexivity | ].
    split; [vm_compute; reflexivity | ].
    repeat split.
Qed.

Lemma calibration_reduction_nearest_rank_witness :
  percentile_index 0.5 (length (py_sorted
    (map (fun s => s * 1000.0) sample_times))) = 2%Z.
Proof.
  destruct (calibration_reduction_nearest_rank 0.03 [0.01; 0.05; 0.02; 0.04])
    as [_ [_ [Hrank _]]].
  destruct (Hrank 0.5) as [Hidx _]; [discriminate | discriminate | ].
  exact Hidx.
Defined.

(** ** A run without samples *)

Lemma responses_firstn_all_failed (n m : nat) :
  responses (firstn m (repeat CalledProcessError n)) = [].
Proof.
  revert m. induction n as [|n IH]; intros [|m]; simpl; auto.
Qed.

(** When every trial fails, neither loop takes a sample. *)
Lemma sampling_loops_all_failed (n : nat) :
  run_samples (macos_sampling (repeat CalledProcessError n)) = [] /\
  run_samples (sendkeys_sampling (repeat CalledProcessError n)) = [].
Proof.
  split.
  - destruct (macos_trials_spec (repeat CalledProcessError n) [] 0 0)
      as [_ [Hsamples _]].
    unfold macos_sampling. rewrite Hsamples.
    apply responses_firstn_all_failed.
  - destruct (sendkeys_trials_spec (repeat CalledProcessError n) [] 0 0)
      as [_ [Hsamples _]]; [lia | ].
    unfold sendkeys_sampling. rewrite Hsamples.
    apply responses_firstn_all_failed.
Qed.

(** C8. Saving no samples writes nothing: the store and the file of
    calibrations stay as they were, whatever entry they hold, and the one
    line printed is the report that no samples were recorded; so it is for
    an automated run whose trials all fail. Saving at least one sample
    puts under the key of the environment an entry that is made of the
    new samples, the method and the clock alone, the same whatever the
    store held before, leaves every other key as it was, and writes the
    store to the file. *)
Theorem no_samples_no_entry (self : InsomniappSuite) (e : Environment)
    (now method_name : string) :
  (exists self',
     _save_calibration_results self e now [] method_name = Some self' /\
     terminal_calibration self' = terminal_calibration self /\
     calibration_file self' = calibration_file self /\
     printed self' = printed self ++ [Text "No samples recorded."]) /\
  (forall trial_count,
     _calibrate_macos_terminal self e now
       (repeat CalledProcessError trial_count) =
       Some (print self [Text "No samples recorded."]) /\
     _calibrate_windows_sendkeys self e now
       (repeat CalledProcessError trial_count) =
       Some (print self [Text "No samples recorded."])) /\
  (forall s rest,
   exists self' entry,
     _save_calibration_results self e now (s :: rest) method_name =
       Some self' /\
     terminal_calibration self' !! _terminal_signature_key e = Some entry /\
     (forall prior : InsomniappSuite,
      exists prior',
        _save_calibration_results prior e now (s :: rest) method_name =
          Some prior' /\
        terminal_calibration prior' !! _terminal_signature_key e =
          Some entry) /\
     (forall key, key <> _terminal_signature_key e ->
        terminal_calibration self' !! key = terminal_calibration self !! key) /\
     calibration_file self' = Some (terminal_calibration self')).
Proof.
  split; [ | split].
  - eexists. split; [reflexivity | ]. simpl. auto.
  - intros trial_count.
    unfold _calibrate_macos_terminal, _calibrate_windows_sendkeys.
    destruct (sampling_loops_all_failed trial_count) as [-> ->].
    split; reflexivity.
  - intros s rest.
    destruct (save_calibration_results_writes s rest)
      as [med [p10 [p90 [_ [_ [_ Hsave]]]]]].
    destruct (Hsave self e now method_name)
      as [self' [Hrun [Hcal [Hfile _]]]].
    exists self'. eexists.
    split; [exact Hrun | ].
    split; [rewrite Hcal; apply lookup_insert_eq | ].
    split; [ | split].
    + intros prior.
      destruct (Hsave prior e now method_name) as [prior' [Hrun' [Hcal' _]]].
      exists prior'. split; [exact Hrun' | ].
      rewrite Hcal'. apply lookup_insert_eq.
    + intros key Hne. rewrite Hcal. apply lookup_insert_ne. congruence.
    + exact Hfile.
Qed.

Lemma no_samples_no_entry_witness :
  exists self',
    _save_calibration_results calibrated_suite sample_env
      "2024-03-01T09:30:00" sample_times "Manual timing" = Some self' /\
    terminal_calibration self' !! _terminal_signature_key bash_env =
    terminal_calibration calibrated_suite !! _terminal_signature_key bash_env.
Proof.
  destruct (no_samples_no_entry calibrated_suite sample_env
              "2024-03-01T09:30:00" "Manual timing") as [_ [_ Hsave]].
  destruct (Hsave 0.03 [0.01; 0.05; 0.02; 0.04])
    as [self' [entry [Hrun [_ [_ [Hframe _]]]]]].
  exists self'. split; [exact Hrun | ].
  apply Hframe. vm_compute. discriminate.
Defined.

(** * Further properties of the scoring core *)

(** ** The axis of a subplot *)

Lemma chained_lt (bs : list Band) (lo hi : Q) :
  chained lo bs hi -> bs <> [] -> lo < hi.
Proof.
  destruct bs as [|[a b] rest]; intros Hch Hne; [contradiction | ].
  simpl in Hch. destruct Hch as [Ha [Hab Hrest]].
  apply chained_le in Hrest. lra.
Qed.

(** Two intervals of a chain are the same one, or one ends before the
    other starts. *)
Lemma chained_order (bs : list Band) (lo hi : Q) (c d : Band) :
  chained lo bs hi -> In c bs -> In d bs ->
  c = d \/ snd c <= fst d \/ snd d <= fst c.
Proof.
  revert lo. induction bs as [|[a b] rest IH]; intros lo Hch Hc Hd;
    simpl in *.
  - destruct Hc.
  - destruct Hch as [Ha [Hab Hrest]].
    destruct Hc as [<- | Hc], Hd as [<- | Hd].
    + left. reflexivity.
    + right. left. simpl.
      destruct (chained_bounds _ _ _ _ Hrest Hd) as [Hlo _]. exact Hlo.
    + right. right. simpl.
      destruct (chained_bounds _ _ _ _ Hrest Hc) as [Hlo _]. exact Hlo.
    + exact (IH _ Hrest Hc Hd).
Qed.

(** A name is one of the six kinds, or it has neither bands nor a range of
    its own. *)
Lemma known_or_unknown (name : string) :
  (exists k, name = test_name k) \/
  (get_performance_bands name = [] /\ fixed_range name = (0, 100)).
Proof.
  unfold get_performance_bands, fixed_range.
  destruct (String.eqb_spec name "Reaction Time") as [-> | _];
    [left; exists ReactionTime; reflexivity | ].
  destruct (String.eqb_spec name "Digit Span") as [-> | _];
    [left; exists DigitSpan; reflexivity | ].
  destruct (String.eqb_spec name "Mental Math") as [-> | _];
    [left; exists MentalMath; reflexivity | ].
  destruct (String.eqb_spec name "Stroop Test") as [-> | _];
    [left; exists StroopTest; reflexivity | ].
  destruct (String.eqb_spec name "Sustained Attention") as [-> | _];
    [left; exists SustainedAttention; reflexivity | ].
  destruct (String.eqb_spec name "Word Recall") as [-> | _];
    [left; exists WordRecall; reflexivity | ].
  right. split; reflexivity.
Qed.

(** The bands in the data range and the hull they span. *)
Lemma touched_bands_spec (k : TestKind) (min_val max_val : Q)
    (first : string * Band) (rest : BandTable) :
  let table := get_performance_bands (test_name k) in
  List.filter (in_data_range min_val max_val) table = first :: rest ->
  let y_min := py_min (fst (snd first)) (map (fun it => fst (snd it)) rest) in
  let y_max := py_max (snd (snd first)) (map (fun it => snd (snd it)) rest) in
  (forall item, In item (first :: rest) ->
     In item table /\ min_val < snd (snd item) /\ fst (snd item) <= max_val /\
     fst (snd item) < snd (snd item) /\
     y_min <= fst (snd item) /\ snd (snd item) <= y_max) /\
  (exists low, In low (first :: rest) /\ y_min = fst (snd low)) /\
  (exists high, In high (first :: rest) /\ y_max = snd (snd high)).
Proof.
  intros table Htouched y_min y_max.
  destruct (hull_spec first rest) as [Hhull [Hlow Hhigh]].
  split; [ | split; assumption].
  intros item Hin. pose proof Hin as Hin'.
  rewrite <- Htouched in Hin'. apply filter_In in Hin' as [Htable Htest].
  apply andb_true_iff in Htest as [H1 H2].
  apply Qltb_lt in H1. apply Qgeb_ge in H2.
  destruct (Hhull item Hin) as [Hlo Hhi].
  repeat split; try assumption.
  apply (chained_band_lt _ _ _ _ (band_table_chained k)).
  apply in_map, Htable.
Qed.

(** X1. The range returned for any name and any data is a proper
    interval: its lower end is below its upper end. *)
Theorem adaptive_range_proper (name : string) (data_values : list Q) :
  fst (_get_adaptive_y_range name data_values) <
  snd (_get_adaptive_y_range name data_values).
Proof.
  destruct (known_or_unknown name) as [[k ->] | [Hbands Hfixed]].
  - destruct data_values as [|v vs].
    + replace (_get_adaptive_y_range (test_name k) [])
        with (fixed_range (test_name k))
        by (unfold _get_adaptive_y_range;
            destruct (get_performance_bands (test_name k)); reflexivity).
      apply (chained_lt _ _ _ (band_table_chained k)).
      intros Hnil. apply (band_table_nonempty k).
      destruct (get_performance_bands (test_name k)); [reflexivity | discriminate].
    + rewrite adaptive_range_with_data by apply band_table_nonempty.
      cbn zeta.
      pose proof (py_min_le_max v vs) as Hmm.
      destruct (List.filter (in_data_range (py_min v vs) (py_max v vs))
                  (get_performance_bands (test_name k)))
        as [|first rest] eqn:Htouched.
      * simpl. unfold Qneb.
        destruct (Qeq_bool (py_max v vs) (py_min v vs)) eqn:Heq; simpl.
        -- lra.
        -- apply Qeq_bool_neq in Heq.
           assert (py_min v vs < py_max v vs).
           { apply Qle_lteq in Hmm as [Hlt | Heq']; [exact Hlt | ].
             exfalso. apply Heq. symmetry. exact Heq'. }
           lra.
      * destruct (touched_bands_spec k _ _ first rest Htouched) as [Hall _].
        destruct (Hall first (or_introl eq_refl))
          as [_ [_ [_ [Hlt [Hlo Hhi]]]]].
        destruct first as [n [band_min band_max]]. simpl in *. lra.
  - unfold _get_adaptive_y_range. rewrite Hbands, Hfixed.
    destruct data_values; reflexivity.
Qed.

(** ** The bands behind a subplot *)

Lemma Qmax_keeps_left (x y : Q) : y <= x -> Qmax x y = x.
Proof.
  intros Hle. unfold Qmax, GenericMinMax.gmax.
  destruct (x ?= y) eqn:Hcmp; try reflexivity.
  assert (Hlt : x < y) by (apply Qcompare_Lt; exact Hcmp).
  exfalso. lra.
Qed.

Lemma Qmin_keeps_left (x y : Q) : x <= y -> Qmin x y = x.
Proof.
  intros Hle. unfold Qmin, GenericMinMax.gmin.
  destruct (x ?= y) eqn:Hcmp; try reflexivity.
  assert (Hgt : y < x) by (apply Qcompare_Gt; exact Hcmp).
  exfalso. lra.
Qed.

(** For a kind, the loop of the clipper is a filter followed by a cut. *)
Lemma active_bands_filter_clip (k : TestKind) (y_min y_max : Q) :
  _get_active_performance_bands (test_name k) y_min y_max =
  map (clip y_min y_max)
    (List.filter (overlaps y_min y_max) (get_performance_bands (test_name k))).
Proof.
  unfold _get_active_performance_bands.
  rewrite active_bands_loop_spec.
  - reflexivity.
  - apply band_names_distinct.
  - intros name _ [].
Qed.

(** On the hull of the bands in the data range, the bands that overlap
    the window are the bands in the data range, and none of them is cut. *)
Lemma overlaps_hull_iff_touched (k : TestKind) (min_val max_val : Q)
    (first : string * Band) (rest : BandTable) :
  let table := get_performance_bands (test_name k) in
  List.filter (in_data_range min_val max_val) table = first :: rest ->
  let y_min := py_min (fst (snd first)) (map (fun it => fst (snd it)) rest) in
  let y_max := py_max (snd (snd first)) (map (fun it => snd (snd it)) rest) in
  forall item, In item table ->
    overlaps y_min y_max item = in_data_range min_val max_val item.
Proof.
  intros table Htouched y_min y_max item Hitem.
  destruct (touched_bands_spec k _ _ first rest Htouched)
    as [Hall [[low [Hlow Hlow_eq]] [high [Hhigh Hhigh_eq]]]].
  subst y_min y_max. cbv zeta in Hall.
  destruct (in_data_range min_val max_val item) eqn:Hin.
  - assert (Hmem : In item (first :: rest)).
    { rewrite <- Htouched. apply filter_In. auto. }
    destruct (Hall item Hmem) as [_ [_ [_ [Hlt [Hlo Hhi]]]]].
    unfold overlaps. apply andb_true_iff.
    split; apply Qltb_lt; lra.
  - match goal with |- ?o = false => destruct o eqn:Hov end;
      [ | reflexivity].
    exfalso. apply andb_true_iff in Hov as [H1 H2].
    apply Qltb_lt in H1, H2.
    destruct (Hall low Hlow) as [Hlow_table [Hlow_min [_ [Hlow_lt _]]]].
    destruct (Hall high Hhigh) as [Hhigh_table [_ [Hhigh_max [Hhigh_lt _]]]].
    pose proof (chained_band_lt _ _ _ _ (band_table_chained k)
                  (in_map snd _ _ Hitem)) as Hitem_lt.
    assert (Hmin : min_val < snd (snd item)).
    { destruct (chained_order _ _ _ _ _ (band_table_chained k)
                  (in_map snd _ _ Hitem) (in_map snd _ _ Hlow_table))
        as [Heq | [Hbefore | Hafter]].
      - rewrite Heq. exact Hlow_min.
      - rewrite Hlow_eq in H2. lra.
      - lra. }
    assert (Hmax : fst (snd item) <= max_val).
    { destruct (chained_order _ _ _ _ _ (band_table_chained k)
                  (in_map snd _ _ Hitem) (in_map snd _ _ Hhigh_table))
        as [Heq | [Hbefore | Hafter]].
      - rewrite Heq. exact Hhigh_max.
      - lra.
      - rewrite Hhigh_eq in H1. lra. }
    unfold in_data_range in Hin. apply andb_false_iff in Hin as [Hin | Hin].
    + apply Qltb_ge in Hin. lra.
    + unfold Qgeb in Hin. apply negb_false_iff, Qltb_lt in Hin. lra.
Qed.

(** For a kind the subplot always has an axis and bands. *)
Lemma subplot_bands_kind (k : TestKind) (plot_scores : list Q) :
  subplot_bands (test_name k) plot_scores =
  Some (_get_adaptive_y_range (test_name k) plot_scores,
        _get_active_performance_bands (test_name k)
          (fst (_get_adaptive_y_range (test_name k) plot_scores))
          (snd (_get_adaptive_y_range (test_name k) plot_scores))).
Proof.
  unfold subplot_bands.
  destruct (get_performance_bands (test_name k)) eqn:Htable;
    [exfalso; apply (band_table_nonempty k); exact Htable | ].
  destruct (_get_adaptive_y_range (test_name k) plot_scores). reflexivity.
Qed.

(** X2. When some band of the kind is in the range of the plotted data,
    the axis of the subplot runs from the lowest start to the highest end
    of those bands, and the bands drawn behind the plot are exactly those
    bands, each whole: none is cut by the axis and none is left out. *)
Theorem subplot_shows_touched_bands_whole (k : TestKind) (v : Q)
    (vs : list Q) :
  let name := test_name k in
  let touched :=
    List.filter (in_data_range (py_min v vs) (py_max v vs))
      (get_performance_bands name) in
  touched <> [] ->
  exists y_min y_max,
    subplot_bands name (v :: vs) = Some ((y_min, y_max), touched) /\
    Forall (fun item => y_min <= fst (snd item) /\ snd (snd item) <= y_max)
      touched /\
    Exists (fun item => y_min = fst (snd item)) touched /\
    Exists (fun item => y_max = snd (snd item)) touched.
Proof.
  intros name touched Hne.
  destruct touched as [|first rest] eqn:Htouched; [contradiction | ].
  unfold touched in Htouched. clear touched Hne.
  destruct (touched_bands_spec k _ _ first rest Htouched)
    as [Hall [[low [Hlow Hlow_eq]] [high [Hhigh Hhigh_eq]]]].
  set (y_min := py_min (fst (snd first)) (map (fun it => fst (snd it)) rest))
    in *.
  set (y_max := py_max (snd (snd first)) (map (fun it => snd (snd it)) rest))
    in *.
  exists y_min, y_max. split; [ | split; [ | split]].
  - unfold name in *. rewrite subplot_bands_kind.
    rewrite adaptive_range_with_data by apply band_table_nonempty.
    cbn zeta. rewrite Htouched.
    destruct first as [n [band_min band_max]].
    cbn [fst snd] in *. fold y_min y_max. cbn [fst snd].
    rewrite active_bands_filter_clip.
    pose proof (overlaps_hull_iff_touched k _ _ _ rest Htouched) as Hsame.
    cbn [fst snd] in Hsame. cbv zeta in Hsame. fold y_min y_max in Hsame.
    rewrite (filter_ext_in _ _ _ Hsame).
    rewrite Htouched. f_equal. f_equal.
    rewrite <- (map_id ((n, (band_min, band_max)) :: rest)) at 2.
    apply map_ext_in. intros [m [lo hi]] Hin.
    destruct (Hall _ Hin) as [_ [_ [_ [_ [Hlo Hhi]]]]]. simpl in Hlo, Hhi.
    unfold clip. simpl.
    rewrite Qmax_keeps_left by exact Hlo.
    rewrite Qmin_keeps_left by exact Hhi. reflexivity.
  - apply List.Forall_forall. intros item Hin.
    destruct (Hall item Hin) as [_ [_ [_ [_ Hwithin]]]]. exact Hwithin.
  - apply List.Exists_exists. exists low. auto.
  - apply List.Exists_exists. exists high. auto.
Qed.

Lemma subplot_shows_touched_bands_whole_witness :
  exists y_min y_max,
    subplot_bands (test_name MentalMath) [7; 12] =
      Some ((y_min, y_max),
            [("average", (6.5, 11.0)); ("good", (11.0, 15.5))]%string).
Proof.
  destruct (subplot_shows_touched_bands_whole MentalMath 7 [12])
    as [y_min [y_max [Hbands _]]]; [discriminate | ].
  exists y_min, y_max. exact Hbands.
Defined.

(** X3. The subplot of a kind without any score this week gets the fixed
    range of the kind as its axis and all four bands of the table behind
    it, each whole. *)
Theorem subplot_without_data_shows_table (k : TestKind) :
  subplot_bands (test_name k) [] =
  Some (fixed_range (test_name k), get_performance_bands (test_name k)).
Proof. destruct k; reflexivity. Qed.

(** X4. On a window with [y_min < y_max], every band the clipper returns
    is a proper interval: what is left of a band after the cut starts
    below where it ends. *)
Theorem active_bands_proper_spans (k : TestKind) (y_min y_max : Q) :
  y_min < y_max ->
  Forall (fun item => fst (snd item) < snd (snd item))
    (_get_active_performance_bands (test_name k) y_min y_max).
Proof.
  intros Hwindow. rewrite active_bands_filter_clip.
  apply List.Forall_forall. intros clipped Hin.
  apply in_map_iff in Hin as [item [<- Hin]].
  apply filter_In in Hin as [Htable Hov].
  apply andb_true_iff in Hov as [H1 H2]. apply Qltb_lt in H1, H2.
  pose proof (chained_band_lt _ _ _ _ (band_table_chained k)
                (in_map snd _ _ Htable)) as Hband.
  unfold clip. simpl.
  apply Q.max_lub_lt; apply Q.min_glb_lt; assumption.
Qed.

Lemma active_bands_proper_spans_witness :
  Forall (fun item => fst (snd item) < snd (snd item))
    (_get_active_performance_bands (test_name DigitSpan) 3 9).
Proof.
  apply (active_bands_proper_spans DigitSpan 3 9). reflexivity.
Defined.

(** ** The trend box of a subplot *)

(** The plotted scores are the scores of the days that have one, each
    turned round as its kind asks, in the order of the days. *)
Lemma plot_data_scores (name : string) (scores : list (option Q)) :
  forall (j : nat) (plot_days : list nat) (plot_scores : list Q),
  snd (plot_data name scores j plot_days plot_scores) =
  plot_scores ++ map (plot_score name) (omap id scores).
Proof.
  induction scores as [|[score|] rest IH]; intros j plot_days plot_scores;
    simpl.
  - symmetry. apply app_nil_r.
  - rewrite IH, <- app_assoc. reflexivity.
  - apply IH.
Qed.

Lemma plot_score_kind (k : TestKind) (score : Q) :
  plot_score (test_name k) score ==
  if time_based k
  then match k with
       | ReactionTime => 1.0 | StroopTest => 5.0 | SustainedAttention => 13.0
       | _ => 22.0
       end - score
  else score.
Proof. destruct k; reflexivity. Qed.

(** Turning both scores round about the same constant turns their order
    round and keeps their distance. *)
Lemma plot_score_order (k : TestKind) (a b : Q) :
  (plot_score (test_name k) a < plot_score (test_name k) b <->
   if time_based k then b < a else a < b) /\
  Qabs (plot_score (test_name k) b - plot_score (test_name k) a) ==
  Qabs (b - a).
Proof.
  split.
  - rewrite !plot_score_kind. destruct (time_based k); split; intros; lra.
  - rewrite !plot_score_kind. destruct (time_based k).
    + rewrite <- (Qabs_opp (b - a)). apply Qabs_wd. ring.
    + reflexivity.
Qed.



(** ** The statistics of a saved calibration *)

(** In a sorted list an earlier element is not above a later one. *)
Lemma sorted_lookup_le (l : list Q) :
  Sorted Qle l ->
  forall (i j : nat) (a b : Q),
  (i <= j)%nat -> l !! i = Some a -> l !! j = Some b -> a <= b.
Proof.
  intros Hsorted.
  apply Sorted_StronglySorted in Hsorted;
    [ | intros x y z; apply Qle_trans].
  induction Hsorted as [|x l Hl IH Hhead]; intros i j a b Hij Ha Hb.
  - discriminate Ha.
  - destruct i as [|i], j as [|j]; simpl in *.
    + injection Ha as <-. injection Hb as <-. apply Qle_refl.
    + injection Ha as <-.
      rewrite List.Forall_forall in Hhead. apply Hhead.
      apply list_elem_of_In. eapply list_elem_of_lookup_2. exact Hb.
    + lia.
    + apply (IH i j); [lia | assumption | assumption].
Qed.

(** [round] is within a half of its argument, from both sides. *)
Lemma py_round_le_half (x : Q) (k : Z) :
  x < inject_Z k + (1 # 2) -> (py_round x <= k)%Z.
Proof.
  intros Hx. pose proof (Qfloor_le x) as Hfloor.
  assert (Hfk : (Qfloor x <= k)%Z).
  { assert (inject_Z (Qfloor x) < inject_Z (k + 1)).
    { rewrite inject_Z_plus. change (inject_Z 1) with 1. lra. }
    rewrite <- Zlt_Qlt in H. lia. }
  destruct (py_round_cases x) as [[-> _] | [-> Hhalf]]; [exact Hfk | ].
  assert (Hlt : inject_Z (Qfloor x) < inject_Z k) by lra.
  rewrite <- Zlt_Qlt in Hlt. lia.
Qed.

Lemma inject_Z_pred (k : Z) : inject_Z (k - 1) == inject_Z k - 1.
Proof.
  unfold Qminus. change 1 with (inject_Z 1).
  rewrite <- inject_Z_opp, <- inject_Z_plus. reflexivity.
Qed.

Lemma py_round_ge_half (x : Q) (k : Z) :
  inject_Z k - (1 # 2) < x -> (k <= py_round x)%Z.
Proof.
  intros Hx. pose proof (Qlt_floor x) as Hfloor.
  rewrite inject_Z_plus in Hfloor. change (inject_Z 1) with 1 in Hfloor.
  assert (Hfk : (k - 1 <= Qfloor x)%Z).
  { assert (inject_Z (k - 1) < inject_Z (Qfloor x + 1)).
    { rewrite inject_Z_plus, inject_Z_pred.
      change (inject_Z 1) with 1. lra. }
    rewrite <- Zlt_Qlt in H. lia. }
  destruct (py_round_cases x) as [[-> Hhalf] | [-> _]]; [ | lia].
  assert (Hlt : inject_Z (k - 1) < inject_Z (Qfloor x)).
  { rewrite inject_Z_pred. lra. }
  rewrite <- Zlt_Qlt in Hlt. lia.
Qed.

(** [round] keeps the order of its arguments. *)
Lemma py_round_mono (x y : Q) : x <= y -> (py_round x <= py_round y)%Z.
Proof.
  intros Hxy.
  pose proof (Qfloor_resp_le _ _ Hxy) as Hfloor.
  unfold py_round.
  destruct (Z.eq_dec (Qfloor x) (Qfloor y)) as [Heq | Hne].
  - rewrite <- Heq.
    assert (Hr : x - inject_Z (Qfloor x) <= y - inject_Z (Qfloor x)) by lra.
    destruct (Qcompare (x - inject_Z (Qfloor x)) (1 # 2)) eqn:Hcx;
      destruct (Qcompare (y - inject_Z (Qfloor x)) (1 # 2)) eqn:Hcy;
      try (apply Qcompare_Eq in Hcx); try (apply Qcompare_Eq in Hcy);
      try (assert (Hx : x - inject_Z (Qfloor x) < 1 # 2)
             by (apply Qcompare_Lt; exact Hcx));
      try (assert (Hx : 1 # 2 < x - inject_Z (Qfloor x))
             by (apply Qcompare_Gt; exact Hcx));
      try (assert (Hy : y - inject_Z (Qfloor x) < 1 # 2)
             by (apply Qcompare_Lt; exact Hcy));
      try (assert (Hy : 1 # 2 < y - inject_Z (Qfloor x))
             by (apply Qcompare_Gt; exact Hcy));
      try (exfalso; lra);
      destruct (Z.even (Qfloor x)); lia.
  - destruct (Qcompare (x - inject_Z (Qfloor x)) (1 # 2));
      destruct (Qcompare (y - inject_Z (Qfloor y)) (1 # 2));
      destruct (Z.even (Qfloor x)); destruct (Z.even (Qfloor y)); lia.
Qed.

Lemma py_round_to_mono (x y : Q) (digits : nat) :
  x <= y -> py_round_to x digits <= py_round_to y digits.
Proof.
  intros Hxy. unfold py_round_to.
  assert (Hscale : 0 < inject_Z (10 ^ Z.of_nat digits)).
  { change 0 with (inject_Z 0). rewrite <- Zlt_Qlt.
    apply Z.pow_pos_nonneg; lia. }
  unfold Qdiv. apply Qmult_le_compat_r.
  - rewrite <- Zle_Qle. apply py_round_mono.
    apply Qmult_le_compat_r; [exact Hxy | apply Qlt_le_weak, Hscale].
  - apply Qinv_le_0_compat, Qlt_le_weak, Hscale.
Qed.

(** The index read for the tenth percentile is not after the middle of
    the sample, and the one read for the ninetieth is not before it. *)
Lemma percentile_indices_around_middle (n : nat) :
  (0 < n)%nat ->
  let idx10 := Z.to_nat (py_round (0.10 * inject_Z (Z.of_nat n - 1))) in
  let idx90 := Z.to_nat (py_round (0.90 * inject_Z (Z.of_nat n - 1))) in
  (Nat.odd n = true -> (idx10 <= n / 2 <= idx90)%nat) /\
  (Nat.odd n = false -> (idx10 <= n / 2 - 1)%nat /\ (n / 2 <= idx90)%nat).
Proof.
  intros Hn idx10 idx90.
  pose proof (Nat.div_mod_eq n 2) as Hdiv.
  pose proof (Nat.mod_upper_bound n 2 ltac:(lia)) as Hmod.
  assert (Hlow : forall target : nat,
            0.10 * inject_Z (Z.of_nat n - 1) <
              inject_Z (Z.of_nat target) + (1 # 2) ->
            (idx10 <= target)%nat).
  { intros target Hlt. apply py_round_le_half in Hlt. unfold idx10. lia. }
  assert (Hhigh : forall target : nat,
            inject_Z (Z.of_nat target) - (1 # 2) <
              0.90 * inject_Z (Z.of_nat n - 1) ->
            (target <= idx90)%nat).
  { intros target Hlt. apply py_round_ge_half in Hlt. unfold idx90. lia. }
  assert (Hmid : 0 <= inject_Z (Z.of_nat (n / 2))).
  { change 0 with (inject_Z 0). rewrite <- Zle_Qle. lia. }
  split.
  - intros Hodd. apply Nat.odd_spec in Hodd as [half Hhalf].
    assert (Hm : (Z.of_nat n - 1 = 2 * Z.of_nat (n / 2))%Z) by lia.
    rewrite Hm, inject_Z_mult in Hlow, Hhigh.
    change (inject_Z 2) with 2 in Hlow, Hhigh.
    split; [apply Hlow | apply Hhigh]; lra.
  - intros Hodd. rewrite <- Nat.negb_even in Hodd.
    apply negb_false_iff, Nat.even_spec in Hodd as [half Hhalf].
    assert (Hm : (Z.of_nat n - 1 = 2 * Z.of_nat (n / 2 - 1) + 1)%Z) by lia.
    assert (Hup : inject_Z (Z.of_nat (n / 2)) ==
                  inject_Z (Z.of_nat (n / 2 - 1)) + 1).
    { change 1 with (inject_Z 1). rewrite <- inject_Z_plus.
      replace (Z.of_nat (n / 2 - 1) + 1)%Z with (Z.of_nat (n / 2)) by lia.
      reflexivity. }
    assert (Hlo0 : 0 <= inject_Z (Z.of_nat (n / 2 - 1))).
    { change 0 with (inject_Z 0). rewrite <- Zle_Qle. lia. }
    rewrite Hm, inject_Z_plus, inject_Z_mult in Hlow, Hhigh.
    change (inject_Z 2) with 2 in Hlow, Hhigh.
    change (inject_Z 1) with 1 in Hlow, Hhigh.
    split; [apply Hlow | apply Hhigh]; lra.
Qed.

(** What a save with at least one sample writes: the three statistics
    exist, the median lies between the two percentiles, none of them is
    negative when no sample is, and the entry made of them goes under the
    key of the environment. *)
Lemma saved_entry_spec (s : Q) (rest : list Q) :
  exists med p10 p90,
    p10 <= med /\ med <= p90 /\
    ((forall x, In x (s :: rest) -> 0 <= x) -> 0 <= p10) /\
    forall self e now method_name,
    exists self',
      _save_calibration_results self e now (s :: rest) method_name =
        Some self' /\
      terminal_calibration self' =
        <[_terminal_signature_key e :=
            calibration_entry med p10 p90 (S (length rest)) method_name now
              (_terminal_signature e)]> (terminal_calibration self) /\
      calibration_file self' = Some (terminal_calibration self') /\
      results self' = results self /\
      results_file self' = results_file self.
Proof.
  destruct (save_calibration_results_writes s rest)
    as [med [p10 [p90 [Hmed [Hp10 [Hp90 Hsave]]]]]].
  set (samples_ms := py_sorted (map (fun s => s * 1000.0) (s :: rest))) in *.
  assert (Hlen : length samples_ms = S (length rest)).
  { unfold samples_ms. rewrite py_sorted_length, length_map. reflexivity. }
  rewrite Hlen in Hp10, Hp90, Hsave.
  pose proof (py_sorted_sorted (map (fun s => s * 1000.0) (s :: rest)))
    as Hsorted. fold samples_ms in Hsorted.
  assert (Hne : samples_ms <> []).
  { intros Hnil. rewrite Hnil in Hlen. discriminate Hlen. }
  destruct (median_sorted samples_ms Hsorted Hne)
    as [med' [Hmed' [Hodd Heven]]].
  assert (med' = med) by congruence. subst med'.
  rewrite Hlen in Hodd, Heven.
  destruct (percentile_indices_around_middle (S (length rest)) ltac:(lia))
    as [Hidx_odd Hidx_even].
  exists med, p10, p90.
  assert (Horder : p10 <= med /\ med <= p90).
  { destruct (Nat.odd (S (length rest))) eqn:Hparity.
    - specialize (Hodd eq_refl). destruct (Hidx_odd eq_refl) as [H10 H90].
      split.
      + exact (sorted_lookup_le _ Hsorted _ _ _ _ H10 Hp10 Hodd).
      + exact (sorted_lookup_le _ Hsorted _ _ _ _ H90 Hodd Hp90).
    - destruct (Heven eq_refl) as [a [b [Ha [Hb ->]]]].
      destruct (Hidx_even eq_refl) as [H10 H90].
      pose proof (sorted_lookup_le _ Hsorted _ _ _ _ H10 Hp10 Ha) as H1.
      pose proof (sorted_lookup_le _ Hsorted _ _ _ _ H90 Hb Hp90) as H2.
      assert (H3 : a <= b).
      { apply (sorted_lookup_le _ Hsorted _ _ _ _
                 (Nat.le_sub_l _ 1) Ha Hb). }
      split.
      + apply Qle_shift_div_l; [reflexivity | lra].
      + apply Qle_shift_div_r; [reflexivity | lra]. }
  split; [exact (proj1 Horder) | ]. split; [exact (proj2 Horder) | ].
  split; [ | exact Hsave].
  intros Hnonneg.
  apply list_elem_of_lookup_2, list_elem_of_In in Hp10.
  apply (Permutation_in _ (Permutation_sym (py_sorted_perm _))) in Hp10.
  apply in_map_iff in Hp10 as [x [<- Hx]].
  apply Qmult_le_0_compat; [apply Hnonneg, Hx | discriminate].
Qed.

(** X6. The entry a calibration run saves is ordered: its tenth
    percentile is not above its median and its median not above its
    ninetieth percentile, and it records how many samples the run took. *)
Theorem saved_entry_percentiles_ordered (self : InsomniappSuite)
    (e : Environment) (now method_name : string) (s : Q) (rest : list Q) :
  exists self' entry,
    _save_calibration_results self e now (s :: rest) method_name =
      Some self' /\
    terminal_calibration self' !! _terminal_signature_key e = Some entry /\
    p10_ms entry <= median_ms entry /\ median_ms entry <= p90_ms entry /\
    samples entry = S (length rest).
Proof.
  destruct (saved_entry_spec s rest)
    as [med [p10 [p90 [Hlow [Hhigh [_ Hsave]]]]]].
  destruct (Hsave self e now method_name) as [self' [Hrun [Hcal _]]].
  exists self'. eexists. split; [exact Hrun | ].
  split; [rewrite Hcal; apply lookup_insert_eq | ].
  simpl. split; [ | split; [ | reflexivity]]; apply py_round_to_mono;
    assumption.
Qed.

(** X7. After a calibration run with at least one sample, the baseline of
    the environment it ran in is the saved median in seconds; the
    baseline of an environment with another key is what it was before;
    and when no sample is negative the baseline is not negative. *)
Theorem baseline_after_calibration (self : InsomniappSuite)
    (e : Environment) (now method_name : string) (s : Q) (rest : list Q) :
  exists self' entry,
    _save_calibration_results self e now (s :: rest) method_name =
      Some self' /\
    terminal_calibration self' !! _terminal_signature_key e = Some entry /\
    get_active_baseline_seconds self' e = median_ms entry / 1000.0 /\
    (forall e', _terminal_signature_key e' <> _terminal_signature_key e ->
       get_active_baseline_seconds self' e' =
       get_active_baseline_seconds self e') /\
    ((forall x, In x (s :: rest) -> 0 <= x) ->
     0 <= get_active_baseline_seconds self' e).
Proof.
  destruct (saved_entry_spec s rest)
    as [med [p10 [p90 [Hlow [Hhigh [Hnonneg Hsave]]]]]].
  destruct (Hsave self e now method_name) as [self' [Hrun [Hcal _]]].
  exists self'. eexists. split; [exact Hrun | ].
  assert (Hentry : terminal_calibration self' !! _terminal_signature_key e =
            Some (calibration_entry med p10 p90 (S (length rest)) method_name
                    now (_terminal_signature e))).
  { rewrite Hcal. apply lookup_insert_eq. }
  split; [exact Hentry | ].
  split; [unfold get_active_baseline_seconds; rewrite Hentry; reflexivity | ].
  split.
  - intros e' Hkey. unfold get_active_baseline_seconds.
    rewrite Hcal, lookup_insert_ne by congruence. reflexivity.
  - intros Hsamples. unfold get_active_baseline_seconds. rewrite Hentry.
    simpl. apply Qle_shift_div_l; [reflexivity | ].
    rewrite Qmult_0_l. apply py_round_to_nonneg.
    eapply Qle_trans; [apply Hnonneg, Hsamples | exact Hlow].
Qed.

Lemma baseline_after_calibration_witness :
  exists self',
    _save_calibration_results calibrated_suite sample_env
      "2024-03-01T09:30:00" sample_times "Manual timing" = Some self' /\
    get_active_baseline_seconds self' bash_env =
    get_active_baseline_seconds calibrated_suite bash_env /\
    0 <= get_active_baseline_seconds self' sample_env.
Proof.
  destruct (baseline_after_calibration calibrated_suite sample_env
              "2024-03-01T09:30:00" "Manual timing" 0.03
              [0.01; 0.05; 0.02; 0.04])
    as [self' [entry [Hrun [_ [_ [Hother Hnonneg]]]]]].
  exists self'. split; [exact Hrun | ]. split.
  - apply Hother. vm_compute. discriminate.
  - apply Hnonneg. intros x Hx.
    repeat (destruct Hx as [<- | Hx]; [discriminate | ]). destruct Hx.
Defined.

(** ** Runs that are cut short *)

Lemma macos_trials_answered (dts : list Q) (stop : TrialOutcome)
    (rest : list TrialOutcome) :
  (stop = CalledProcessError \/ stop = KeyboardInterrupt) ->
  forall (samples : list Q) (errors started : nat),
  run_samples (macos_trials (map Responded dts ++ stop :: rest)
                 samples errors started) = samples ++ dts.
Proof.
  intros Hstop.
  induction dts as [|dt dts IH]; intros samples errors started; simpl.
  - rewrite app_nil_r. destruct Hstop as [-> | ->]; reflexivity.
  - rewrite IH, <- app_assoc. reflexivity.
Qed.

Lemma sendkeys_trials_answered (dts : list Q) (rest : list TrialOutcome) :
  forall (samples : list Q) (errors started : nat),
  run_samples (sendkeys_trials (map Responded dts ++ KeyboardInterrupt :: rest)
                 samples errors started) = samples ++ dts.
Proof.
  induction dts as [|dt dts IH]; intros samples errors started; simpl.
  - rewrite app_nil_r. reflexivity.
  - rewrite IH, <- app_assoc. reflexivity.
Qed.

Lemma manual_trials_answered (dts : list Q) :
  forall samples : list Q,
  manual_trials (map Some dts) samples = samples ++ dts /\
  forall rest,
    manual_trials (map Some dts ++ None :: rest) samples = samples ++ dts.
Proof.
  induction dts as [|dt dts IH]; intros samples; simpl.
  - rewrite app_nil_r. split; reflexivity.
  - destruct (IH (samples ++ [dt])) as [Hall Hcut].
    rewrite Hall, <- app_assoc. split; [reflexivity | ].
    intros rest. rewrite Hcut, <- app_assoc. reflexivity.
Qed.

(** X8. An automated run that is cut short keeps what it sampled: when
    the macOS run is ended by a failed keystroke or by an interrupt, and
    when the SendKeys run is ended by an interrupt, the trials answered
    before that are saved exactly as a run made of them alone would save
    them, and nothing of the trials after it is used; with at least one
    answered trial an entry counting those trials is written. *)
Theorem automated_run_saves_partial_samples (self : InsomniappSuite)
    (e : Environment) (now : string) (dts : list Q)
    (rest : list TrialOutcome) :
  _calibrate_macos_terminal self e now
    (map Responded dts ++ CalledProcessError :: rest) =
    _save_calibration_results self e now dts "AppleScript automation" /\
  _calibrate_macos_terminal self e now
    (map Responded dts ++ KeyboardInterrupt :: rest) =
    _save_calibration_results self e now dts "AppleScript automation" /\
  _calibrate_windows_sendkeys self e now
    (map Responded dts ++ KeyboardInterrupt :: rest) =
    _save_calibration_results self e now dts "PowerShell SendKeys" /\
  (dts <> [] ->
   exists self' entry,
     _calibrate_macos_terminal self e now
       (map Responded dts ++ KeyboardInterrupt :: rest) = Some self' /\
     terminal_calibration self' !! _terminal_signature_key e = Some entry /\
     samples entry = length dts /\
     calibration_file self' = Some (terminal_calibration self')).
Proof.
  unfold _calibrate_macos_terminal, _calibrate_windows_sendkeys,
    macos_sampling, sendkeys_sampling.
  rewrite !macos_trials_answered by auto.
  rewrite sendkeys_trials_answered. simpl.
  repeat split.
  intros Hne. destruct dts as [|dt dts]; [contradiction | ].
  destruct (saved_entry_spec dt dts) as [med [p10 [p90 [_ [_ [_ Hsave]]]]]].
  destruct (Hsave self e now "AppleScript automation"%string)
    as [self' [Hrun [Hcal [Hfile _]]]].
  exists self'. eexists. split; [exact Hrun | ].
  split; [rewrite Hcal; apply lookup_insert_eq | ].
  split; [reflexivity | exact Hfile].
Qed.

Lemma automated_run_saves_partial_samples_witness :
  exists self' entry,
    _calibrate_macos_terminal empty_suite sample_env "2024-03-01T09:30:00"
      (map Responded [0.03; 0.01] ++
       KeyboardInterrupt :: [Responded 0.05]) = Some self' /\
    terminal_calibration self' !! _terminal_signature_key sample_env =
      Some entry /\
    samples entry = 2%nat.
Proof.
  destruct (automated_run_saves_partial_samples empty_suite sample_env
              "2024-03-01T09:30:00" [0.03; 0.01] [Responded 0.05])
    as [_ [_ [_ Hsaved]]].
  destruct Hsaved as [self' [entry [Hrun [Hentry [Hcount _]]]]];
    [discriminate | ].
  exists self', entry. auto.
Defined.

(** X9. The manual run takes a sample in every trial the user answers
    and is ended early by an interrupt only: without one, all the trials
    are saved; with one, the trials answered before it are saved as a run
    made of them alone would save them; with an interrupt in the first
    trial nothing is written and the run reports that it has no samples. *)
Theorem manual_run_saves_answered_trials (self : InsomniappSuite)
    (e : Environment) (now : string) (dts : list Q)
    (rest : list (option Q)) :
  _calibrate_manual_terminal self e now (map Some dts) =
    _save_calibration_results self e now dts "Manual timing" /\
  _calibrate_manual_terminal self e now (map Some dts ++ None :: rest) =
    _save_calibration_results self e now dts "Manual timing" /\
  _calibrate_manual_terminal self e now (None :: rest) =
    Some (print self [Text "No samples recorded."]) /\
  (dts <> [] ->
   exists self' entry,
     _calibrate_manual_terminal self e now (map Some dts) = Some self' /\
     terminal_calibration self' !! _terminal_signature_key e = Some entry /\
     samples entry = length dts /\ method entry = "Manual timing"%string).
Proof.
  unfold _calibrate_manual_terminal.
  destruct (manual_trials_answered dts []) as [Hall Hcut].
  rewrite Hall, Hcut. simpl.
  repeat split.
  intros Hne. destruct dts as [|dt dts]; [contradiction | ].
  destruct (saved_entry_spec dt dts) as [med [p10 [p90 [_ [_ [_ Hsave]]]]]].
  destruct (Hsave self e now "Manual timing"%string)
    as [self' [Hrun [Hcal _]]].
  exists self'. eexists. split; [exact Hrun | ].
  split; [rewrite Hcal; apply lookup_insert_eq | ].
  split; reflexivity.
Qed.

Lemma manual_run_saves_answered_trials_witness :
  exists self' entry,
    _calibrate_manual_terminal empty_suite sample_env "2024-03-01T09:30:00"
      (map Some sample_times) = Some self' /\
    terminal_calibration self' !! _terminal_signature_key sample_env =
      Some entry /\
    samples entry = 5%nat.
Proof.
  destruct (manual_run_saves_answered_trials empty_suite sample_env
              "2024-03-01T09:30:00" sample_times []) as [_ [_ [_ Hsaved]]].
  destruct Hsaved as [self' [entry [Hrun [Hentry [Hcount _]]]]];
    [discriminate | ].
  exists self', entry. auto.
Defined.

(** ** The reaction time test *)

Lemma reaction_trials_spec (reaction : nat -> option Q) (remaining : nat) :
  forall (trial : nat) (times : list Q),
  (exists i, (i < remaining)%nat /\ reaction (trial + i)%nat = None /\
             reaction_trials remaining trial reaction times = None) \/
  (exists measured,
     reaction_trials remaining trial reaction times =
       Some (times ++ measured) /\
     length measured = remaining /\
     forall i, (i < remaining)%nat ->
       reaction (trial + i)%nat = measured !! i).
Proof.
  induction remaining as [|remaining IH]; intros trial times.
  - right. exists []. simpl. rewrite app_nil_r.
    split; [reflexivity | split; [reflexivity | intros i Hi; lia]].
  - simpl. destruct (reaction trial) as [t|] eqn:Htrial.
    + destruct (IH (S trial) (times ++ [t]))
        as [[i [Hi [Hnone Hrun]]] | [measured [Hrun [Hlen Hall]]]].
      * left. exists (S i). split; [lia | ].
        replace (trial + S i)%nat with (S trial + i)%nat by lia. auto.
      * right. exists (t :: measured).
        rewrite Hrun, <- app_assoc. split; [reflexivity | ].
        split; [simpl; lia | ].
        intros [|i] Hi.
        -- rewrite Nat.add_0_r. exact Htrial.
        -- replace (trial + S i)%nat with (S trial + i)%nat by lia.
           apply Hall. lia.
    + left. exists 0%nat. rewrite Nat.add_0_r. split; [lia | auto].
Qed.

(** X10. The reaction time test saves all or nothing: when each of its
    five trials is answered, exactly one result is added to the reaction
    time history, holding the five times and their mean as score, and
    the results file is rewritten; when the user interrupts one of the
    five trials, the results and the results file stay as they were. *)
Theorem reaction_test_all_or_nothing (self : InsomniappSuite)
    (e : Environment) (now : string) (reaction : nat -> option Q) :
  let self' := reaction_time_test self e now reaction in
  ((forall trial, (1 <= trial <= 5)%nat -> is_Some (reaction trial)) ->
   exists r times,
     results self' !! "Reaction Time" =
       Some (default [] (results self !! "Reaction Time") ++ [r]) /\
     length times = 5%nat /\
     (forall i, (i < 5)%nat -> reaction (1 + i)%nat = times !! i) /\
     score r = py_sum times / 5 /\
     details r !! "times" =
       Some (DNums (map (fun t => py_round_to t 3) times)) /\
     results_file self' = Some (results self')) /\
  ((exists trial, (1 <= trial <= 5)%nat /\ reaction trial = None) ->
   results self' = results self /\
   results_file self' = results_file self /\
   terminal_calibration self' = terminal_calibration self).
Proof.
  intros self'. unfold self', reaction_time_test.
  destruct (reaction_trials_spec reaction 5 1 [])
    as [[i [Hi [Hnone Hrun]]] | [times [Hrun [Hlen Hall]]]].
  - rewrite Hrun. split.
    + intros Hanswered. exfalso.
      destruct (Hanswered (1 + i)%nat ltac:(lia)) as [t Ht]. congruence.
    + intros _. simpl. auto.
  - rewrite Hrun. simpl app. split.
    + intros _. eexists. exists times.
      split; [apply record_result_history | ].
      split; [exact Hlen | ]. split; [exact Hall | ].
      split; [simpl; rewrite Hlen; reflexivity | ].
      split; [ | reflexivity].
      simpl. rewrite lookup_insert_ne by discriminate.
      apply lookup_insert_eq.
    + intros [trial [Htrial Hnone]]. exfalso.
      specialize (Hall (trial - 1)%nat ltac:(lia)).
      replace (1 + (trial - 1))%nat with trial in Hall by lia.
      rewrite Hnone in Hall. symmetry in Hall.
      apply lookup_ge_None in Hall. lia.
Qed.

Lemma reaction_test_all_or_nothing_witness :
  results (reaction_time_test calibrated_suite sample_env
             "2024-03-01T09:30:00"
             (fun trial => if (trial =? 4)%nat then None else Some 0.3)) =
  results calibrated_suite /\
  exists r,
    results (reaction_time_test calibrated_suite sample_env
               "2024-03-01T09:30:00" (fun _ => Some 0.3))
      !! "Reaction Time" = Some [r].
Proof.
  split.
  - apply (proj2 (reaction_test_all_or_nothing calibrated_suite sample_env
                    "2024-03-01T09:30:00"
                    (fun trial => if (trial =? 4)%nat then None
                                  else Some 0.3))).
    exists 4%nat. split; [lia | reflexivity].
  - destruct (proj1 (reaction_test_all_or_nothing calibrated_suite
                       sample_env "2024-03-01T09:30:00" (fun _ => Some 0.3)))
      as [r [times [Hhistory _]]].
    + intros trial _. exists 0.3. reflexivity.
    + exists r. exact Hhistory.
Defined.

(** ** The digit span test *)

(** The loop from a span between 3 and 11 with enough rounds left: it ends
    within them, cancelled or with the last span answered right; every
    span from the one it starts at up to that one was answered right, and
    the span after it, if there is one up to 10, was answered wrong. *)
Lemma digit_span_loop_spec (round : nat -> SpanRound) (fuel : nat) :
  forall span_length max_span : nat,
  (span_length + fuel = 11)%nat -> (max_span < span_length)%nat ->
  digit_span_loop fuel round span_length max_span = Cancelled \/
  exists final,
    digit_span_loop fuel round span_length max_span = Finished final /\
    (final = max_span \/ (span_length <= final <= 10)%nat) /\
    (forall s, (span_length <= s <= final)%nat ->
       exists answer, round s = SpanAnswered answer answer) /\
    ((Nat.max span_length (S final) <= 10)%nat ->
     exists correct_answer user_input,
       round (Nat.max span_length (S final)) =
         SpanAnswered correct_answer user_input /\
       user_input <> correct_answer).
Proof.
  induction fuel as [|fuel IH]; intros span_length max_span Hfuel Hmax.
  - right. exists max_span. simpl.
    destruct (Nat.leb_spec span_length 10) as [Hle | Hgt]; [lia | ].
    split; [reflexivity | ]. split; [left; reflexivity | ].
    split; intros; lia.
  - simpl. destruct (Nat.leb_spec span_length 10) as [Hle | Hgt]; [ | lia].
    destruct (round span_length) as [correct_answer user_input|] eqn:Hround;
      [ | left; reflexivity].
    destruct (String.eqb_spec user_input correct_answer) as [-> | Hwrong].
    + destruct (IH (S span_length) span_length ltac:(lia) ltac:(lia))
        as [Hcancel | [final [Hrun [Hfinal [Hright Hnext]]]]];
        [left; exact Hcancel | ].
      right. exists final. split; [exact Hrun | ].
      split; [right; lia | ].
      split.
      * intros s Hs. destruct (Nat.eq_dec s span_length) as [-> | Hne].
        -- exists correct_answer. exact Hround.
        -- apply Hright. lia.
      * intros Hten.
        replace (Nat.max span_length (S final))
          with (Nat.max (S span_length) (S final)) by lia.
        apply Hnext. lia.
    + right. exists max_span. split; [reflexivity | ].
      split; [left; reflexivity | ].
      split; [intros s Hs; lia | ].
      intros _. replace (Nat.max span_length (S max_span)) with span_length
        by lia.
      exists correct_answer, user_input. auto.
Qed.


(** ** The word recall test *)

Lemma word_in_iff (word : string) (words : list string) :
  word_in word words = true <-> In word words.
Proof.
  unfold word_in. rewrite existsb_exists. split.
  - intros [w [Hin Heq]]. apply String.eqb_eq in Heq. subst. exact Hin.
  - intros Hin. exists word. split; [exact Hin | apply String.eqb_refl].
Qed.

(** Words found in both of two lists without repeats: counting them in
    the one list or in the other gives the same number. *)
Lemma common_words_count (left right : list string) :
  List.NoDup left -> List.NoDup right ->
  length (List.filter (fun w => word_in w right) left) =
  length (List.filter (fun w => word_in w left) right).
Proof.
  intros Hleft Hright. apply Nat.le_antisymm;
    apply NoDup_incl_length;
    try (apply List.NoDup_filter; assumption);
    intros w Hw; apply filter_In in Hw as [Hin Hother];
    apply word_in_iff in Hother; apply filter_In;
    (split; [exact Hother | apply word_in_iff, Hin]).
Qed.

Lemma filter_map_length (lower : string -> string) (p : string -> bool)
    (words : list string) :
  length (List.filter (fun w => p (lower w)) words) =
  length (List.filter p (map lower words)).
Proof.
  induction words as [|w words IH]; simpl; [reflexivity | ].
  destruct (p (lower w)); simpl; rewrite IH; reflexivity.
Qed.

(** X12. When no word is typed twice, the word recall score lies between
    0 and 100: the words counted as recalled are at most the words shown.
    When moreover the words shown differ from one another in lower case,
    every word shown is either counted as recalled or listed as missed:
    the two numbers add up to the number of words shown. *)
Theorem word_recall_score_bounds (self : InsomniappSuite) (now : string)
    (lower : string -> string) (test_words recalled_words : list string) :
  test_words <> [] ->
  List.NoDup recalled_words ->
  let recalled := correct_recalls lower test_words recalled_words in
  let missed := missed_words lower test_words recalled_words in
  (recalled <= length test_words)%nat /\
  (List.NoDup (map lower test_words) ->
   (recalled + length missed)%nat = length test_words) /\
  exists self' r,
    word_recall_scoring self now lower test_words recalled_words =
      Some self' /\
    results self' !! "Word Recall" =
      Some (default [] (results self !! "Word Recall") ++ [r]) /\
    0 <= score r /\ score r <= 100.
Proof.
  intros Hwords Hnodup recalled missed.
  assert (Hle : (recalled <= length test_words)%nat).
  { unfold recalled, correct_recalls.
    rewrite <- (length_map lower test_words).
    apply NoDup_incl_length; [apply List.NoDup_filter, Hnodup | ].
    intros w Hw. apply filter_In in Hw as [_ Hw].
    apply word_in_iff, Hw. }
  split; [exact Hle | split].
  - intros Hdistinct. unfold recalled, missed, correct_recalls, missed_words.
    rewrite (filter_map_length lower
               (fun w => negb (word_in w recalled_words)) test_words).
    rewrite <- (common_words_count _ _ Hdistinct Hnodup).
    rewrite filter_length. apply length_map.
  - unfold word_recall_scoring. fold recalled.
    destruct (Nat.eqb_spec (length test_words) 0) as [Hzero | Hpos].
    { destruct test_words; [contradiction | discriminate Hzero]. }
    do 2 eexists. split; [reflexivity | ].
    split; [apply record_result_history | ].
    cbn [score].
    assert (Htotal : 0 < inject_Z (Z.of_nat (length test_words))).
    { change 0 with (inject_Z 0). rewrite <- Zlt_Qlt. lia. }
    assert (Hrec : 0 <= inject_Z (Z.of_nat recalled)).
    { change 0 with (inject_Z 0). rewrite <- Zle_Qle. lia. }
    assert (Hrt : inject_Z (Z.of_nat recalled) <=
                  inject_Z (Z.of_nat (length test_words))).
    { rewrite <- Zle_Qle. lia. }
    assert (Hratio0 : 0 <= inject_Z (Z.of_nat recalled) /
                         inject_Z (Z.of_nat (length test_words))).
    { apply Qle_shift_div_l; [exact Htotal | lra]. }
    assert (Hratio1 : inject_Z (Z.of_nat recalled) /
                      inject_Z (Z.of_nat (length test_words)) <= 1).
    { apply Qle_shift_div_r; [exact Htotal | lra]. }
    split; lra.
Qed.

Ltac distinct_words :=
  repeat (constructor;
          [ simpl; intros H; repeat destruct H as [H | H];
            solve [ discriminate H | destruct H ] | ]);
  constructor.

Lemma word_recall_score_bounds_witness :
  (correct_recalls (fun w => w) ["apple"; "chair"; "river"; "stone"]%string
     ["river"; "tiger"; "apple"]%string +
   length (missed_words (fun w => w)
             ["apple"; "chair"; "river"; "stone"]%string
             ["river"; "tiger"; "apple"]%string))%nat = 4%nat /\
  exists self' r,
    word_recall_scoring empty_suite "2024-03-01T09:30:00" (fun w => w)
      ["apple"; "chair"; "river"; "stone"]%string
      ["river"; "tiger"; "apple"]%string = Some self' /\
    results self' !! "Word Recall" = Some [r] /\ score r <= 100.
Proof.
  destruct (word_recall_score_bounds empty_suite "2024-03-01T09:30:00"
              (fun w => w) ["apple"; "chair"; "river"; "stone"]%string
              ["river"; "tiger"; "apple"]%string)
    as [_ [Hcount [self' [r [Hrun [Hhistory [_ Hhigh]]]]]]].
  - discriminate.
  - distinct_words.
  - split.
    + apply Hcount. distinct_words.
    + exists self', r. auto.
Defined.

(** A word typed more than once is counted each time: one word of four,
    typed five times, scores above 100. *)
Example word_recall_counts_repeats :
  exists self' r,
    word_recall_scoring empty_suite "2024-03-01T09:30:00" (fun w => w)
      ["apple"; "chair"; "river"; "stone"]%string
      (repeat "apple"%string 5) = Some self' /\
    results self' !! "Word Recall" = Some [r] /\ score r == 125.
Proof.
  do 2 eexists. split; [reflexivity | ].
  split; [vm_compute; reflexivity | reflexivity].
Qed.

(** ** The mental math test *)

Lemma fold_left_Qplus (xs : list Q) (start : Q) :
  fold_left Qplus xs start == start + py_sum xs.
Proof.
  unfold py_sum. revert start.
  induction xs as [|x xs IH]; intros start; simpl.
  - ring.
  - rewrite IH, (IH (0 + x)). ring.
Qed.

Lemma py_sum_app (xs ys : list Q) : py_sum (xs ++ ys) == py_sum xs + py_sum ys.
Proof.
  unfold py_sum at 1. rewrite fold_left_app. apply fold_left_Qplus.
Qed.

Lemma py_sum_cons (x : Q) (xs : list Q) : py_sum (x :: xs) == x + py_sum xs.
Proof.
  unfold py_sum at 1. simpl. rewrite fold_left_Qplus. ring.
Qed.

Lemma inject_Z_succ (n : nat) :
  inject_Z (Z.of_nat (S n)) == inject_Z (Z.of_nat n) + 1.
Proof.
  rewrite Nat2Z.inj_succ. unfold Z.succ. rewrite inject_Z_plus. reflexivity.
Qed.

(** What the loop has counted when no problem was interrupted. *)
Lemma mental_math_loop_spec (attempts : list MathAttempt) :
  ~ In MathInterrupted attempts ->
  forall (correct total : nat) (problem_times : list Q) (penalty_time : Q),
  exists tally,
    mental_math_loop attempts correct total problem_times penalty_time =
      Some tally /\
    math_correct tally =
      (correct + length (List.filter attempt_right attempts))%nat /\
    math_total tally = (total + length attempts)%nat /\
    length (math_problem_times tally) =
      (length problem_times + length attempts)%nat /\
    py_sum (math_problem_times tally) + penalty_time ==
      py_sum problem_times + py_sum (map attempt_time attempts) +
      math_penalty_time tally /\
    math_penalty_time tally + 10 * inject_Z (Z.of_nat
        (length (List.filter attempt_right attempts))) ==
      penalty_time + 10 * inject_Z (Z.of_nat (length attempts)).
Proof.
  induction attempts as [|attempt rest IH];
    intros Hclean correct total problem_times penalty_time.
  - eexists. split; [reflexivity | ]. cbn -[Qeq Qplus Qmult py_sum].
    split; [lia | ]. split; [lia | ]. split; [lia | ].
    split; [change (py_sum []) with 0; ring | ].
    change (inject_Z (Z.of_nat 0)) with 0. ring.
  - assert (Hrest : ~ In MathInterrupted rest)
      by (intros H; apply Hclean; right; exact H).
    destruct attempt as [problem_time user_answer correct_answer
                        | problem_time | ];
      [ | | exfalso; apply Hclean; left; reflexivity ].
    + cbn [mental_math_loop List.filter attempt_right].
      destruct (user_answer =? correct_answer)%Z.
      * destruct (IH Hrest (correct + 1)%nat (total + 1)%nat
                    (problem_times ++ [problem_time]) penalty_time)
          as [tally [Hrun [Hc [Ht [Hlen [Hsum Hpen]]]]]].
        exists tally. split; [exact Hrun | ].
        rewrite length_app in Hlen. rewrite py_sum_app in Hsum.
        cbn [length map attempt_time] in *.
        rewrite py_sum_cons. rewrite !inject_Z_succ.
        rewrite py_sum_cons in Hsum. change (py_sum []) with 0 in Hsum.
        split; [lia | ]. split; [lia | ]. split; [lia | ]. split; lra.
      * destruct (IH Hrest correct (total + 1)%nat
                    (problem_times ++ [problem_time + 10.0])
                    (penalty_time + 10.0))
          as [tally [Hrun [Hc [Ht [Hlen [Hsum Hpen]]]]]].
        exists tally. split; [exact Hrun | ].
        rewrite length_app in Hlen. rewrite py_sum_app in Hsum.
        cbn [length map attempt_time] in *.
        rewrite py_sum_cons. rewrite !inject_Z_succ.
        rewrite py_sum_cons in Hsum. change (py_sum []) with 0 in Hsum.
        split; [lia | ]. split; [lia | ]. split; [lia | ]. split; lra.
    + cbn [mental_math_loop List.filter attempt_right].
      destruct (IH Hrest correct (total + 1)%nat
                  (problem_times ++ [problem_time + 10.0])
                  (penalty_time + 10.0))
        as [tally [Hrun [Hc [Ht [Hlen [Hsum Hpen]]]]]].
      exists tally. split; [exact Hrun | ].
      rewrite length_app in Hlen. rewrite py_sum_app in Hsum.
      cbn [length map attempt_time] in *.
      rewrite py_sum_cons. rewrite !inject_Z_succ.
      rewrite py_sum_cons in Hsum. change (py_sum []) with 0 in Hsum.
      split; [lia | ]. split; [lia | ]. split; [lia | ]. split; lra.
Qed.

Lemma mental_math_loop_interrupted (attempts : list MathAttempt) :
  In MathInterrupted attempts ->
  forall (correct total : nat) (problem_times : list Q) (penalty_time : Q),
  mental_math_loop attempts correct total problem_times penalty_time = None.
Proof.
  induction attempts as [|attempt rest IH]; intros Hin; [destruct Hin | ].
  intros correct total problem_times penalty_time.
  destruct attempt as [problem_time user_answer correct_answer
                      | problem_time | ]; simpl.
  - destruct Hin as [Heq | Hin]; [discriminate Heq | ].
    destruct (user_answer =? correct_answer)%Z; apply IH, Hin.
  - destruct Hin as [Heq | Hin]; [discriminate Heq | ]. apply IH, Hin.
  - reflexivity.
Qed.

(** X13. The mental math test saves nothing when the user interrupts a
    problem. Otherwise it adds exactly one result: with no problem
    attempted the score is 60; with n problems attempted the score is
    their mean time in which every wrong or unreadable answer counts ten
    seconds more, that is, the score times n is the sum of the times plus
    ten seconds for each problem not answered right. *)
Theorem mental_math_score_counts_penalties (self : InsomniappSuite)
    (now : string) (attempts : list MathAttempt) :
  let self' := mental_math_test self now attempts in
  let n := inject_Z (Z.of_nat (length attempts)) in
  let right :=
    inject_Z (Z.of_nat (length (List.filter attempt_right attempts))) in
  (In MathInterrupted attempts ->
   results self' = results self /\ results_file self' = results_file self) /\
  (~ In MathInterrupted attempts ->
   exists r,
     results self' !! "Mental Math" =
       Some (default [] (results self !! "Mental Math") ++ [r]) /\
     (attempts = [] -> score r = 60.0) /\
     (attempts <> [] ->
      score r * n == py_sum (map attempt_time attempts) + 10 * (n - right))).
Proof.
  intros self' n right. unfold self', mental_math_test. split.
  - intros Hin. rewrite (mental_math_loop_interrupted _ Hin). simpl. auto.
  - intros Hclean.
    destruct (mental_math_loop_spec attempts Hclean 0%nat 0%nat [] 0)
      as [tally [-> [_ [_ [Hlen [Hsum Hpen]]]]]].
    eexists. split; [apply record_result_history | ].
    cbn [score]. simpl in Hlen.
    split.
    + intros ->. simpl in Hlen.
      destruct (math_problem_times tally); [reflexivity | discriminate Hlen].
    + intros Hne.
      destruct (math_problem_times tally) as [|t ts] eqn:Htimes.
      { destruct attempts; [contradiction | discriminate Hlen]. }
      rewrite Hlen. fold n.
      assert (Hn : 0 < n).
      { unfold n. change 0 with (inject_Z 0). rewrite <- Zlt_Qlt.
        destruct attempts; [contradiction | simpl; lia]. }
      change (py_sum []) with 0 in Hsum. fold n right in Hpen.
      unfold Qdiv. rewrite <- Qmult_assoc, (Qmult_comm (/ n)).
      rewrite Qmult_inv_r by lra. lra.
Qed.

Lemma mental_math_score_counts_penalties_witness :
  results (mental_math_test empty_suite "2024-03-01T09:30:00"
             [MathAnswered 4.0 57 57; MathInterrupted]) =
    results empty_suite /\
  exists r,
    results (mental_math_test empty_suite "2024-03-01T09:30:00"
               [MathAnswered 4.0 57 57; MathInvalid 3.0;
                MathAnswered 5.0 90 91]) !! "Mental Math" = Some [r] /\
    score r * 3 == 4.0 + 3.0 + 5.0 + 10 * (3 - 1).
Proof.
  split.
  - apply (proj1 (mental_math_score_counts_penalties empty_suite
                    "2024-03-01T09:30:00"
                    [MathAnswered 4.0 57 57; MathInterrupted])).
    right. left. reflexivity.
  - destruct (proj2 (mental_math_score_counts_penalties empty_suite
                       "2024-03-01T09:30:00"
                       [MathAnswered 4.0 57 57; MathInvalid 3.0;
                        MathAnswered 5.0 90 91]))
      as [r [Hhistory [_ Hscore]]].
    + intros [H | [H | [H | []]]]; discriminate H.
    + exists r. split; [exact Hhistory | ].
      rewrite Hscore by discriminate. reflexivity.
Defined.

(** ** The sustained attention test *)

(** The numbers from [num] down in steps of [count_by] that are not
    negative. *)
Lemma count_down_spec (count_by : Z) (fuel : nat) :
  (0 < count_by)%Z ->
  forall (num : Z) (correct_sequence : list Z),
  (-count_by <= num)%Z ->
  (num < Z.of_nat fuel * count_by)%Z ->
  count_down fuel num count_by correct_sequence =
  Some (correct_sequence ++
        map (fun i => (num - Z.of_nat i * count_by)%Z)
          (seq 0 (Z.to_nat ((num + count_by) / count_by)))).
Proof.
  intros Hstep.
  induction fuel as [|fuel IH]; intros num correct_sequence Hlow Hfuel.
  - simpl. destruct (Z.leb_spec 0 num) as [Hnum | Hnum]; [lia | ].
    rewrite Z.div_small by lia. simpl. rewrite app_nil_r. reflexivity.
  - simpl. destruct (Z.leb_spec 0 num) as [Hnum | Hnum].
    + rewrite IH by lia.
      replace ((num + count_by) / count_by)%Z
        with ((num - count_by + count_by) / count_by + 1)%Z.
      2:{ rewrite <- Z.div_add by lia. f_equal. lia. }
      rewrite Z2Nat.inj_add by (try apply Z.div_pos; lia).
      rewrite Nat.add_comm. simpl seq.
      rewrite <- seq_shift. cbn [map]. rewrite map_map, <- app_assoc.
      cbn [app]. f_equal. f_equal. f_equal; [lia | ].
      apply map_ext. intros i. lia.
    + rewrite Z.div_small by lia. simpl. rewrite app_nil_r. reflexivity.
Qed.

(** X14. For a step of one or more, the sequence the sustained attention
    test asks for is 100, 100 - step, 100 - 2 step and so on, down to the
    last number that is not negative: it has 100 / step + 1 numbers, all
    between 0 and 100, and it ends at the remainder of 100 by the step. *)
Theorem count_down_sequence (count_by : Z) :
  (1 <= count_by)%Z ->
  exists correct_sequence,
    count_down 101 100 count_by [] = Some correct_sequence /\
    length correct_sequence = Z.to_nat (100 / count_by + 1) /\
    (forall i, (i < length correct_sequence)%nat ->
       correct_sequence !! i = Some (100 - Z.of_nat i * count_by)%Z) /\
    Forall (fun x => (0 <= x <= 100)%Z) correct_sequence /\
    last correct_sequence = Some (100 mod count_by)%Z.
Proof.
  intros Hstep.
  assert (Hdiv : (0 <= 100 / count_by)%Z) by (apply Z.div_pos; lia).
  assert (Hcount : ((100 + count_by) / count_by = 100 / count_by + 1)%Z).
  { replace (100 + count_by)%Z with (100 + 1 * count_by)%Z by lia.
    apply Z.div_add. lia. }
  pose proof (Z.mul_div_le 100 count_by ltac:(lia)) as Hfloor.
  eexists. split.
  { rewrite count_down_spec by lia. rewrite Hcount. reflexivity. }
  simpl app. rewrite length_map, length_seq.
  assert (Hlookup : forall i, (i < Z.to_nat (100 / count_by + 1))%nat ->
    map (fun i => (100 - Z.of_nat i * count_by)%Z)
      (seq 0 (Z.to_nat (100 / count_by + 1))) !! i =
    Some (100 - Z.of_nat i * count_by)%Z).
  { intros i Hi. rewrite list_lookup_fmap, lookup_seq_lt by exact Hi.
    reflexivity. }
  split; [reflexivity | ]. split; [exact Hlookup | ]. split.
  - apply List.Forall_forall. intros x Hx.
    apply in_map_iff in Hx as [i [<- Hi]]. apply in_seq in Hi.
    assert (Z.of_nat i <= 100 / count_by)%Z by lia. nia.
  - rewrite last_lookup, length_map, length_seq.
    replace (Nat.pred (Z.to_nat (100 / count_by + 1)))
      with (Z.to_nat (100 / count_by)) by lia.
    rewrite Hlookup by lia. f_equal.
    rewrite Z2Nat.id by exact Hdiv.
    rewrite (Z.mod_eq 100 count_by) by lia. lia.
Qed.

Lemma count_down_sequence_witness :
  exists correct_sequence,
    count_down 101 100 17 [] = Some correct_sequence /\
    length correct_sequence = 6%nat /\
    last correct_sequence = Some 15%Z.
Proof.
  destruct (count_down_sequence 17) as [correct_sequence Hseq]; [lia | ].
  exists correct_sequence.
  destruct Hseq as [Hrun [Hlen [_ [_ Hlast]]]]. auto.
Defined.

(** The input loop keeps [total + 1 = position]: from such a state it
    ends with no more numbers counted than places are left, with no more
    right answers than numbers, cancelled only by an interrupt, and
    running out of lines only when neither [done] nor an interrupt was
    typed and the numbers typed were too few to reach the end. *)
Lemma attention_loop_spec (correct_sequence : list Z)
    (inputs : list CountInput) :
  forall position correct total : nat,
  (correct <= total)%nat -> (total + 1 = position)%nat ->
  (position <= length correct_sequence)%nat ->
  match attention_loop inputs correct_sequence position correct total with
  | Finished (correct', total') =>
      (correct <= correct')%nat /\ (correct' <= total')%nat /\
      (total <= total')%nat /\ (total' + 1 <= length correct_sequence)%nat
  | Cancelled => In CountInterrupted inputs
  | Raised =>
      ~ In TypedDone inputs /\ ~ In CountInterrupted inputs /\
      (position + length (List.filter is_typed_number inputs) <
       length correct_sequence)%nat
  | OutOfFuel => False
  end.
Proof.
  induction inputs as [|input rest IH];
    intros position correct total Hct Hpos Hlen; simpl.
  - destruct (Nat.ltb_spec position (length correct_sequence)).
    + simpl. repeat split; auto; lia.
    + lia.
  - destruct (Nat.ltb_spec position (length correct_sequence)) as [Hlt | Hge];
      [ | lia].
    destruct input as [ | user_number | | ].
    + lia.
    + destruct (lookup_lt_is_Some_2 correct_sequence position Hlt)
        as [expected ->].
      cbn zeta.
      assert (Hnext : forall correct' : nat,
                (correct <= correct' <= correct + 1)%nat ->
                match attention_loop rest correct_sequence (position + 1)
                        correct' (total + 1) with
                | Finished (c, t) =>
                    (correct <= c)%nat /\ (c <= t)%nat /\
                    (total <= t)%nat /\
                    (t + 1 <= length correct_sequence)%nat
                | Cancelled =>
                    In CountInterrupted (TypedNumber user_number :: rest)
                | Raised =>
                    ~ In TypedDone (TypedNumber user_number :: rest) /\
                    ~ In CountInterrupted (TypedNumber user_number :: rest) /\
                    (position +
                     length (List.filter is_typed_number
                               (TypedNumber user_number :: rest)) <
                     length correct_sequence)%nat
                | OutOfFuel => False
                end).
      { intros correct' Hc.
        specialize (IH (position + 1)%nat correct' (total + 1)%nat
                      ltac:(lia) ltac:(lia) ltac:(lia)).
        destruct (attention_loop rest correct_sequence (position + 1)
                    correct' (total + 1)) as [[c t] | | | ].
        - lia.
        - right. exact IH.
        - destruct IH as [H1 [H2 H3]].
          split; [intros [Hd | Hd]; [discriminate | tauto] | ].
          split; [intros [Hd | Hd]; [discriminate | tauto] | ].
          simpl. lia.
        - exact IH. }
      destruct (user_number =? expected)%Z; apply Hnext; lia.
    + specialize (IH position correct total Hct Hpos Hlen).
      destruct (attention_loop rest correct_sequence position correct total)
        as [[c t] | | | ]; simpl.
      * exact IH.
      * right. exact IH.
      * destruct IH as [H1 [H2 H3]].
        split; [intros [Hd | Hd]; [discriminate | tauto] | ].
        split; [intros [Hd | Hd]; [discriminate | tauto] | exact H3].
      * exact IH.
    + left. reflexivity.
Qed.

(** The numbers counted are at most the numbers typed. *)
Lemma attention_loop_counts (correct_sequence : list Z)
    (inputs : list CountInput) :
  forall position correct total : nat,
  match attention_loop inputs correct_sequence position correct total with
  | Finished (_, total') =>
      (total' <= total + length (List.filter is_typed_number inputs))%nat
  | _ => True
  end.
Proof.
  induction inputs as [|input rest IH]; intros position correct total; simpl.
  - destruct (position <? length correct_sequence)%nat; [exact I | lia].
  - destruct (position <? length correct_sequence)%nat; [ | lia].
    destruct input as [ | user_number | | ]; simpl.
    + lia.
    + destruct (correct_sequence !! position) as [expected|]; [ | exact I].
      specialize (IH (position + 1)%nat
                    (if (user_number =? expected)%Z then (correct + 1)%nat
                     else correct) (total + 1)%nat).
      destruct (attention_loop rest correct_sequence (position + 1)
                  (if (user_number =? expected)%Z then (correct + 1)%nat
                   else correct) (total + 1)) as [[c t] | | | ];
        [lia | exact I | exact I | exact I].
    + apply IH.
    + exact I.
Qed.

Lemma count_down_100 (count_by : Z) :
  (1 <= count_by)%Z ->
  exists correct_sequence end_value,
    count_down 101 100 count_by [] = Some correct_sequence /\
    length correct_sequence = Z.to_nat (100 / count_by + 1) /\
    last correct_sequence = Some end_value.
Proof.
  intros Hstep.
  assert (Hdiv : (0 <= 100 / count_by)%Z) by (apply Z.div_pos; lia).
  assert (Hcount : ((100 + count_by) / count_by = 100 / count_by + 1)%Z).
  { replace (100 + count_by)%Z with (100 + 1 * count_by)%Z by lia.
    apply Z.div_add. lia. }
  rewrite count_down_spec by lia. rewrite Hcount. simpl app.
  set (sequence := map (fun i => (100 - Z.of_nat i * count_by)%Z)
                     (seq 0 (Z.to_nat (100 / count_by + 1)))).
  assert (Hlen : length sequence = Z.to_nat (100 / count_by + 1)).
  { unfold sequence. rewrite length_map, length_seq. reflexivity. }
  destruct (last sequence) as [end_value|] eqn:Hlast.
  - exists sequence, end_value. auto.
  - apply last_None in Hlast. rewrite Hlast in Hlen. simpl in Hlen. lia.
Qed.



(** ** The sleep log *)

Lemma all_chars_app (p : Ascii.ascii -> bool) (s t : string) :
  all_chars p (s +:+ t) = all_chars p s && all_chars p t.
Proof.
  induction s as [|c s IH]; [reflexivity | ].
  rewrite append_cons. simpl. rewrite IH. apply andb_assoc.
Qed.

Lemma pretty_N_go_chars (x : N) :
  forall s : string,
  all_chars is_number_char s = true ->
  all_chars is_number_char (pretty_N_go x s) = true.
Proof.
  induction (N.lt_wf_0 x) as [x _ IH]; intros s Hs.
  destruct (N.eq_dec x 0%N) as [-> | Hpos].
  - rewrite pretty_N_go_0. exact Hs.
  - rewrite pretty_N_go_step by lia.
    apply IH; [apply N.div_lt; lia | ].
    simpl. rewrite Hs, andb_true_r.
    unfold pretty_N_char. repeat case_match; reflexivity.
Qed.

Lemma pretty_N_go_length (x : N) :
  forall s : string,
  (String.length s <= String.length (pretty_N_go x s))%nat /\
  ((0 < x)%N -> (String.length s < String.length (pretty_N_go x s))%nat).
Proof.
  induction (N.lt_wf_0 x) as [x _ IH]; intros s.
  destruct (N.eq_dec x 0%N) as [-> | Hpos].
  - rewrite pretty_N_go_0. split; [lia | intros H; lia].
  - rewrite pretty_N_go_step by lia.
    destruct (IH (x `div` 10)%N ltac:(apply N.div_lt; lia)
                (String (pretty_N_char (x `mod` 10)) s)) as [Hle _].
    simpl in Hle. split; [lia | intros _; lia].
Qed.

(** A printed integer is made of digits and at most a minus sign, and it
    is not empty. *)
Lemma pretty_Z_chars (z : Z) :
  all_chars is_number_char (pretty z) = true /\ pretty z <> ""%string.
Proof.
  assert (Hpos : forall x : positive,
            all_chars is_number_char (pretty (N.pos x)) = true /\
            pretty (N.pos x) <> ""%string).
  { intros x. unfold pretty, pretty_N.
    destruct (decide (N.pos x = 0%N)) as [Hzero | _]; [discriminate Hzero | ].
    split; [apply pretty_N_go_chars; reflexivity | ].
    intros Hempty.
    destruct (pretty_N_go_length (N.pos x) "") as [_ Hlt].
    specialize (Hlt ltac:(lia)). rewrite Hempty in Hlt. simpl in Hlt. lia. }
  destruct z as [|x|x].
  - split; [reflexivity | discriminate].
  - apply Hpos.
  - change (pretty (Z.neg x)) with ("-" +:+ pretty (N.pos x)).
    destruct (Hpos x) as [Hchars _].
    split; [ | discriminate].
    rewrite all_chars_app, Hchars. reflexivity.
Qed.

(** Two texts cut at a character that the parts before it do not hold
    are cut at the same place. *)
Lemma append_split_unique (p : Ascii.ascii -> bool) (sep : Ascii.ascii)
    (s1 s2 t1 t2 : string) :
  p sep = false -> all_chars p s1 = true -> all_chars p s2 = true ->
  s1 +:+ String sep t1 = s2 +:+ String sep t2 -> s1 = s2 /\ t1 = t2.
Proof.
  intros Hsep. revert s2.
  induction s1 as [|c s1 IH]; intros [|d s2] H1 H2 Heq;
    rewrite ?append_cons in Heq; simpl in *.
  - injection Heq as ->. auto.
  - injection Heq as <- _. apply andb_true_iff in H2 as [H2 _]. congruence.
  - injection Heq as -> _. apply andb_true_iff in H1 as [H1 _]. congruence.
  - injection Heq as -> Heq.
    apply andb_true_iff in H1 as [_ H1]. apply andb_true_iff in H2 as [_ H2].
    destruct (IH s2 H1 H2 Heq) as [-> ->]. auto.
Qed.

Section SleepLogFacts.

Variable Date : Type.
Variable strftime : Date -> string.

(** X16. What is logged for a date is what is read back for it: after
    [log_sleep] the text for that date shows the hours and minutes just
    logged, whatever was logged for it before, and the texts and graph
    labels of all other dates are as they were. The text of a logged date
    is never the text shown for a date without data, and two dates show
    the same text only when the same hours and minutes are logged for
    them. *)
Theorem sleep_log_reads_back (self : SleepLog) (date_obj : Date) (h m : Z) :
  let self' := log_sleep self (strftime date_obj) h m in
  get_sleep_for_date Date strftime self' date_obj =
    pretty h +:+ "h " +:+ pretty m +:+ "m" /\
  get_sleep_for_graph_label Date strftime self' date_obj =
    "Sleep" +:+ newline +:+ pretty h +:+ "h" +:+ format_02d m +:+ "m" /\
  sleep_file self' = Some (sleep_log self') /\
  (forall other, strftime other <> strftime date_obj ->
     get_sleep_for_date Date strftime self' other =
       get_sleep_for_date Date strftime self other /\
     get_sleep_for_graph_label Date strftime self' other =
       get_sleep_for_graph_label Date strftime self other) /\
  get_sleep_for_date Date strftime self' date_obj <> "No sleep data"%string /\
  (forall other h' m',
     get_sleep_for_date Date strftime
       (log_sleep self' (strftime other) h' m') other =
     get_sleep_for_date Date strftime self' date_obj ->
     h' = h /\ m' = m).
Proof.
  intros self'.
  assert (Hread : forall (st : SleepLog) (d : Date) (a b : Z),
            get_sleep_for_date Date strftime (log_sleep st (strftime d) a b) d
            = pretty a +:+ "h " +:+ pretty b +:+ "m").
  { intros st d a b. unfold get_sleep_for_date, log_sleep. simpl.
    rewrite lookup_insert_eq. reflexivity. }
  split; [apply Hread | ].
  split.
  { unfold get_sleep_for_graph_label, self', log_sleep. simpl.
    rewrite lookup_insert_eq. reflexivity. }
  split; [reflexivity | ].
  split.
  { intros other Hother.
    unfold get_sleep_for_date, get_sleep_for_graph_label, self', log_sleep.
    simpl. rewrite lookup_insert_ne by congruence. auto. }
  split.
  - unfold self'. rewrite Hread. intros Htext.
    destruct (pretty_Z_chars h) as [Hchars Hne].
    destruct (pretty h) as [|c rest]; [contradiction | ].
    rewrite append_cons in Htext. injection Htext as -> _.
    discriminate Hchars.
  - intros other h' m' Htext. unfold self' in Htext. rewrite !Hread in Htext.
    destruct (append_split_unique is_number_char (Ascii.ascii_of_nat 104)
                (pretty h') (pretty h)
                (String (Ascii.ascii_of_nat 32) (pretty m' +:+ "m"))
                (String (Ascii.ascii_of_nat 32) (pretty m +:+ "m")) eq_refl
                (proj1 (pretty_Z_chars h')) (proj1 (pretty_Z_chars h)) Htext)
      as [Hh Hrest].
    injection Hrest as Hrest. apply append_inv_tail in Hrest.
    split; eapply (inj pretty); assumption.
Qed.

End SleepLogFacts.

Section SleepMenuFacts.

Variable Date : Type.
Variable strftime : Date -> string.
Variable strptime : string -> option Date.
Variable strip : string -> string.
Variable lower : string -> string.
Variable parse_int : string -> option Z.

Lemma read_bounded_spec (upper : Z) (lines : list (option string)) :
  forall n rest,
  read_bounded strip parse_int upper lines = Some (n, rest) ->
  (0 <= n <= upper)%Z.
Proof.
  induction lines as [|[line|] lines IH]; intros n rest Hread;
    simpl in Hread; try discriminate Hread.
  destruct (parse_int (strip line)) as [k|]; [ | eauto].
  destruct ((0 <=? k)%Z && (k <=? upper)%Z) eqn:Hrange; [ | eauto].
  injection Hread as -> _.
  apply andb_true_iff in Hrange as [Hlow Hhigh].
  apply Z.leb_le in Hlow. apply Z.leb_le in Hhigh. lia.
Qed.

Lemma read_date_spec (lines : list (option string)) :
  forall target_date rest,
  read_date Date strptime strip lines = Some (target_date, rest) ->
  (exists line, In (Some line) lines /\
                strptime (strip line) = Some target_date) /\
  (forall answer, In (Some answer) rest -> In (Some answer) lines).
Proof.
  induction lines as [|[line|] lines IH]; intros target_date rest Hread;
    simpl in Hread; try discriminate Hread.
  destruct (strptime (strip line)) as [d|] eqn:Hparse.
  - injection Hread as -> ->. split.
    + exists line. split; [left; reflexivity | exact Hparse].
    + intros answer Hin. right. exact Hin.
  - destruct (IH _ _ Hread) as [(l & Hin & Hl) Hrest]. split.
    + exists l. split; [right; exact Hin | exact Hl].
    + intros answer Hin'. right. auto.
Qed.

(** The part of the menu after the date is chosen. *)
Lemma sleep_menu_duration (self : SleepLog) (date_str : string)
    (rest : list (option string)) (self' : SleepLog) :
  ('(hours, rest) ← read_bounded strip parse_int 24 rest;
   '(minutes, _) ← read_bounded strip parse_int 59 rest;
   Some (log_sleep self date_str hours minutes)) = Some self' ->
  exists h m, self' = log_sleep self date_str h m /\
              (0 <= h <= 24)%Z /\ (0 <= m <= 59)%Z.
Proof.
  intros Hrun.
  destruct (read_bounded strip parse_int 24 rest) as [[h rest1]|] eqn:Hh;
    simpl in Hrun; [ | discriminate Hrun].
  destruct (read_bounded strip parse_int 59 rest1) as [[m rest2]|] eqn:Hm;
    simpl in Hrun; [ | discriminate Hrun].
  injection Hrun as <-. exists h, m.
  split; [reflexivity | ].
  split; eapply read_bounded_spec; eassumption.
Qed.

(** X17. A visit of the sleep menu that returns either leaves the sleep
    log as it was or logs one duration, with hours from 0 to 24 and
    minutes from 0 to 59, for today or for a date that was typed and
    parsed; nothing else is ever logged. A date that has an entry already
    is logged again only after an answer that is "y" in lower case. A
    visit that returns did not choose the second option, "Yesterday": that
    option always ends in an exception, with the log untouched. *)
Theorem sleep_menu_logs_valid_durations (self : SleepLog) (today : Date)
    (lines : list (option string)) (self' : SleepLog) :
  sleep_logging_menu Date strftime strptime strip lower parse_int
    self today lines = Some self' ->
  (exists first rest,
     lines = Some first :: rest /\ strip first <> "2"%string) /\
  (self' = self \/
   exists target_date h m,
     self' = log_sleep self (strftime target_date) h m /\
     (0 <= h <= 24)%Z /\ (0 <= m <= 59)%Z /\
     (target_date = today \/
      exists line, In (Some line) lines /\
                   strptime (strip line) = Some target_date) /\
     (is_Some (sleep_log self !! strftime target_date) ->
      exists answer, In (Some answer) lines /\ lower answer = "y"%string)).
Proof.
  intros Hmenu.
  destruct lines as [|[first|] rest]; try discriminate Hmenu.
  unfold sleep_logging_menu in Hmenu.
  assert (Hafter : forall target_date rest',
            (forall answer, In (Some answer) rest' ->
                            In (Some answer) (Some first :: rest)) ->
            match sleep_log self !! strftime target_date with
            | Some _ =>
                match rest' with
                | [] | None :: _ => None
                | Some answer :: rest'' =>
                    if String.eqb (lower answer) "y"
                    then '(hours, rest) ← read_bounded strip parse_int 24 rest'';
                         '(minutes, _) ← read_bounded strip parse_int 59 rest;
                         Some (log_sleep self (strftime target_date)
                                 hours minutes)
                    else Some self
                end
            | None =>
                '(hours, rest) ← read_bounded strip parse_int 24 rest';
                '(minutes, _) ← read_bounded strip parse_int 59 rest;
                Some (log_sleep self (strftime target_date) hours minutes)
            end = Some self' ->
            self' = self \/
            exists h m,
              self' = log_sleep self (strftime target_date) h m /\
              (0 <= h <= 24)%Z /\ (0 <= m <= 59)%Z /\
              (is_Some (sleep_log self !! strftime target_date) ->
               exists answer, In (Some answer) (Some first :: rest) /\
                              lower answer = "y"%string)).
  { intros target_date rest' Hsub Hrun.
    destruct (sleep_log self !! strftime target_date) as [existing|].
    - destruct rest' as [|[answer|] rest'']; try discriminate Hrun.
      destruct (String.eqb (lower answer) "y") eqn:Hy.
      + apply String.eqb_eq in Hy.
        destruct (sleep_menu_duration _ _ _ _ Hrun) as (h & m & -> & Hh & Hm).
        right. exists h, m. repeat split; try lia.
        exists answer. split; [apply Hsub; left; reflexivity | exact Hy].
      + injection Hrun as <-. left. reflexivity.
    - destruct (sleep_menu_duration _ _ _ _ Hrun) as (h & m & -> & Hh & Hm).
      right. exists h, m. repeat split; try lia.
      intros [x Hx]. discriminate Hx. }
  cbv zeta in Hmenu.
  destruct (String.eqb (strip first) "1") eqn:H1.
  { apply String.eqb_eq in H1. split.
    - exists first, rest. split; [reflexivity | ]. rewrite H1. discriminate.
    - simpl in Hmenu.
      destruct (Hafter today rest ltac:(intros ? ?; right; assumption) Hmenu)
        as [-> | (h & m & -> & Hh & Hm & Hy)]; [left; reflexivity | ].
      right. exists today, h, m. repeat split; try lia; auto. }
  destruct (String.eqb (strip first) "2") eqn:H2; [discriminate Hmenu | ].
  apply String.eqb_neq in H2.
  split; [exists first, rest; auto | ].
  destruct (String.eqb (strip first) "3") eqn:H3.
  - destruct (read_date Date strptime strip rest) as [[target_date rest']|]
      eqn:Hdate; simpl in Hmenu; [ | discriminate Hmenu].
    destruct (read_date_spec _ _ _ Hdate) as [(line & Hin & Hline) Hsub].
    destruct (Hafter target_date rest'
                ltac:(intros ? ?; right; apply Hsub; assumption) Hmenu)
      as [-> | (h & m & -> & Hh & Hm & Hy)]; [left; reflexivity | ].
    right. exists target_date, h, m. repeat split; try lia; auto.
    right. exists line. split; [right; exact Hin | exact Hline].
  - destruct (String.eqb (strip first) "4"); simpl in Hmenu;
      injection Hmenu as <-; left; reflexivity.
Qed.

End SleepMenuFacts.

Lemma sleep_menu_logs_valid_durations_witness :
  let strptime := fun s : string =>
    if String.eqb s "2024-01-15" then Some s else None in
  let parse_int := fun s : string =>
    if String.eqb s "24" then Some 24%Z
    else if String.eqb s "25" then Some 25%Z
    else if String.eqb s "59" then Some 59%Z
    else if String.eqb s "60" then Some 60%Z
    else None in
  let self := {| sleep_log := {[ "2024-01-15"%string :=
                   {| hours := 7; minutes := 30; total_minutes := 450 |} ]};
                 sleep_file := None |} in
  let lines := [Some "3"; Some "15 Jan"; Some "2024-01-15"; Some "y";
                Some "25"; Some "24"; Some "sixty"; Some "60"; Some "59"]
               %string in
  sleep_logging_menu string id strptime id id parse_int self
    "2024-11-04"%string lines = Some (log_sleep self "2024-01-15" 24 59) /\
  exists target_date h m,
    log_sleep self "2024-01-15" 24 59 = log_sleep self (id target_date) h m /\
    (0 <= h <= 24)%Z /\ (0 <= m <= 59)%Z.
Proof.
  intros strptime parse_int self lines.
  assert (Hrun : sleep_logging_menu string id strptime id id parse_int self
            "2024-11-04"%string lines
          = Some (log_sleep self "2024-01-15" 24 59)) by reflexivity.
  split; [exact Hrun | ].
  destruct (sleep_menu_logs_valid_durations string id strptime id id parse_int
              self "2024-11-04"%string lines _ Hrun)
    as [_ [Hsame | (target_date & h & m & Hlog & Hh & Hm & _)]].
  - exfalso. apply (f_equal sleep_file) in Hsame. discriminate Hsame.
  - exists target_date, h, m. auto.
Defined.

(** ** The text summary and the statistics *)

Lemma first_valid_head (scores : list (option Q)) :
  first_valid scores = head (omap id scores).
Proof.
  induction scores as [|[s|] rest IH]; simpl; auto.
Qed.

Lemma omap_id_rev (scores : list (option Q)) :
  omap id (rev scores) = rev (omap id scores).
Proof.
  induction scores as [|[s|] rest IH]; simpl; [reflexivity | | ].
  - rewrite omap_app, IH. reflexivity.
  - rewrite omap_app, IH. simpl. apply app_nil_r.
Qed.

(** The first and the last score of a week with at least two scores, as
    the text summary finds them. *)
Lemma first_last_valid (scores : list (option Q)) (first_raw last_raw : Q)
    (middle : list Q) :
  omap id scores = first_raw :: middle ++ [last_raw] ->
  first_valid scores = Some first_raw /\
  first_valid (rev scores) = Some last_raw /\
  (2 <=? length (omap id scores))%nat = true.
Proof.
  intros Hscores. rewrite !first_valid_head, omap_id_rev, Hscores.
  split; [reflexivity | ]. split.
  - simpl. rewrite rev_app_distr. reflexivity.
  - apply Nat.leb_le. simpl. rewrite length_app. simpl. lia.
Qed.

(** The trend box of the graph, by the order of the first and the last
    plotted score. *)
Lemma graph_trend_cases (name : string) (scores : list (option Q))
    (first_raw last_raw : Q) (middle : list Q) :
  omap id scores = first_raw :: middle ++ [last_raw] ->
  graph_trend name (snd (plot_data name scores 0 [] [])) =
  Some (if Qltb (plot_score name first_raw) (plot_score name last_raw)
        then ("↗️ Improving", "lightgreen")
        else if Qltb (plot_score name last_raw) (plot_score name first_raw)
        then ("↘️ Declining", "lightcoral")
        else ("→ Stable", "lightyellow"),
        Qabs (plot_score name last_raw - plot_score name first_raw)).
Proof.
  intros Hscores.
  rewrite plot_data_scores, Hscores. simpl. rewrite map_app. simpl.
  unfold graph_trend. rewrite lower_better_never.
  replace (2 <=? length (plot_score name first_raw ::
             map (plot_score name) middle ++ [plot_score name last_raw]))%nat
    with true
    by (symmetry; apply Nat.leb_le; simpl; rewrite length_app; simpl; lia).
  rewrite app_comm_cons, last_snoc.
  destruct (Qltb (plot_score name first_raw) (plot_score name last_raw));
    [reflexivity | ].
  destruct (Qltb (plot_score name last_raw) (plot_score name first_raw));
    reflexivity.
Qed.



Lemma py_sum_le_bound (scores : list Q) (bound : Q) :
  (forall s, In s scores -> s <= bound) ->
  py_sum scores <= inject_Z (Z.of_nat (length scores)) * bound.
Proof.
  induction scores as [|s rest IH]; intros Hbound.
  - change (py_sum []) with 0. cbn [length].
    change (inject_Z (Z.of_nat 0)) with 0. lra.
  - rewrite py_sum_cons. cbn [length]. rewrite inject_Z_succ.
    assert (Hs : s <= bound) by (apply Hbound; left; reflexivity).
    assert (Hrest : py_sum rest <=
                    inject_Z (Z.of_nat (length rest)) * bound)
      by (apply IH; intros x Hx; apply Hbound; right; exact Hx).
    lra.
Qed.

(** X19. The statistics under the history of a test with at least two
    results name as best the highest score, for every kind: the score
    shown as best is one of the scores, no score is above it, and the
    average shown is not above it either. For a kind scored by a time the
    best score shown is therefore the longest time. The latest score is
    the last of the list. *)
Theorem display_results_best_is_highest (self : InsomniappSuite)
    (e : Environment) (k : TestKind) (test_results : list Result)
    (scores : list Q) :
  results self !! test_name k = Some test_results ->
  report_scores self e (test_name k) test_results = Some scores ->
  (2 <= length test_results)%nat ->
  exists average best latest,
    display_results self e (test_name k) =
      Some (average, ("Best (highest)"%string, best), latest) /\
    In best scores /\
    (forall s, In s scores -> s <= best) /\
    average <= best /\
    last scores = Some latest.
Proof.
  intros Hstored Hscores Hcount.
  assert (Hlen : length scores = length test_results).
  { unfold report_scores in Hscores.
    destruct (String.eqb (test_name k) "Reaction Time").
    - symmetry. eapply length_mapM. exact Hscores.
    - injection Hscores as <-. apply length_map. }
  unfold display_results. rewrite Hstored. simpl. rewrite Hscores. simpl.
  unfold statistics_lines. rewrite lower_better_never.
  destruct scores as [|first_score others]; [simpl in Hlen; lia | ].
  destruct (last (first_score :: others)) as [latest|] eqn:Hlast.
  2:{ apply last_None in Hlast. discriminate Hlast. }
  replace (1 <? length (first_score :: others))%nat with true
    by (symmetry; apply Nat.ltb_lt; lia).
  assert (Hmax : forall s, In s (first_score :: others) ->
                           s <= py_max first_score others).
  { intros s [<- | Hin];
      [apply py_max_ge_init | apply py_max_ge_elem; exact Hin]. }
  do 3 eexists. split; [reflexivity | ].
  split; [apply py_max_in | ].
  split; [exact Hmax | ].
  split; [ | reflexivity].
  apply Qle_shift_div_r.
  - rewrite <- (Zlt_Qlt 0). lia.
  - rewrite Qmult_comm. apply py_sum_le_bound. exact Hmax.
Qed.

Lemma display_results_best_is_highest_witness :
  exists average latest,
    display_results mental_math_suite sample_env (test_name MentalMath) =
      Some (average, ("Best (highest)"%string, 15), latest).
Proof.
  destruct (display_results_best_is_highest mental_math_suite sample_env
              MentalMath
              (map (fun entry => mkResult (fst entry) (snd entry) ∅)
                 [("2024-03-01T09:30:00", 15); ("2024-03-02T09:30:00", 14);
                  ("2024-03-03T09:30:00", 13); ("2024-03-04T09:30:00", 9);
                  ("2024-03-05T09:30:00", 8); ("2024-03-06T09:30:00", 7)]
                 %string)
              [15; 14; 13; 9; 8; 7] eq_refl eq_refl ltac:(simpl; lia))
    as (average & best & latest & Hshown & _).
  exists average, latest. rewrite Hshown.
  vm_compute in Hshown. injection Hshown as _ <- _. reflexivity.
Defined.

(** ** The week of the weekly graphs *)

Lemma weekdays_spec (monday d : Z) :
  In d (weekdays monday) <-> (monday <= d <= monday + 4)%Z.
Proof.
  unfold weekdays. simpl. lia.
Qed.

(** X20. The weekly graphs show Monday to Friday of the week that holds
    the date chosen: the first day worked out is a Monday, not after the
    date and less than a week before it, and the five days shown are that
    Monday and the four days after it, none of them a Saturday or a
    Sunday. The date chosen is among the days shown exactly when it is
    itself no Saturday and no Sunday: for a date of the weekend the graphs
    show the five days before it. *)
Theorem weekly_graphs_show_monday_to_friday (target_date : Z) :
  let monday := week_monday target_date in
  weekday monday = 0%Z /\
  (monday <= target_date <= monday + 6)%Z /\
  (forall d, In d (weekdays monday) <-> (monday <= d <= monday + 4)%Z) /\
  (forall d, In d (weekdays monday) ->
             weekday d = (d - monday)%Z /\ (weekday d <= 4)%Z) /\
  (In target_date (weekdays monday) <-> (weekday target_date <= 4)%Z).
Proof.
  intros monday.
  assert (Hmonday : weekday monday = 0%Z).
  { unfold monday, week_monday, weekday. cbv zeta.
    pose proof (Z.div_mod (target_date + 6) 7 ltac:(lia)) as Hdiv.
    replace (target_date - (target_date + 6) mod 7 + 6)%Z
      with (((target_date + 6) / 7) * 7)%Z by lia.
    apply Z.mod_mul. lia. }
  assert (Hbound : (0 <= weekday target_date < 7)%Z)
    by (apply Z.mod_pos_bound; lia).
  assert (Hday : forall d, (monday <= d <= monday + 6)%Z ->
                           weekday d = (d - monday)%Z).
  { intros d Hd. unfold weekday in *.
    replace (d + 6)%Z with ((d - monday) + (monday + 6))%Z by lia.
    rewrite Z.add_mod, Hmonday, Z.add_0_r, Z.mod_mod by lia.
    apply Z.mod_small. lia. }
  split; [exact Hmonday | ].
  split; [unfold monday, week_monday; cbv zeta; lia | ].
  split; [intros d; apply weekdays_spec | ].
  split.
  - intros d Hd. apply weekdays_spec in Hd.
    rewrite Hday by lia. lia.
  - rewrite weekdays_spec.
    unfold monday, week_monday. cbv zeta. lia.
Qed.

Section WeeklyScoresFacts.

Variable date_of : string -> Z.

Lemma day_results_filter (keep : Result -> bool) (test_results : list Result)
    (day : Z) :
  (forall r, date_of (timestamp r) = day -> keep r = true) ->
  day_results date_of (List.filter keep test_results) day =
  day_results date_of test_results day.
Proof.
  intros Hkeep. unfold day_results.
  induction test_results as [|r rest IH]; [reflexivity | ].
  simpl. destruct (keep r) eqn:Hr; simpl.
  - rewrite IH. reflexivity.
  - rewrite IH.
    destruct (Z.eqb_spec (date_of (timestamp r)) day) as [Hday | _];
      [ | reflexivity].
    rewrite (Hkeep r Hday) in Hr. discriminate Hr.
Qed.

Lemma report_scores_calibration (self self' : InsomniappSuite)
    (e : Environment) (name : string) (test_results : list Result) :
  terminal_calibration self' = terminal_calibration self ->
  report_scores self' e name test_results =
  report_scores self e name test_results.
Proof.
  intros Hcal. unfold report_scores.
  destruct (String.eqb name "Reaction Time"); [ | reflexivity].
  apply mapM_ext. intros r.
  unfold adjusted_score, get_active_baseline_seconds. rewrite Hcal.
  reflexivity.
Qed.

(** A week without results of the kind has no score on any of its
    days. *)
Lemma daily_scores_no_results (self : InsomniappSuite) (e : Environment)
    (name : string) (test_results : list Result) (monday : Z) :
  (forall day, In day (weekdays monday) ->
               day_results date_of test_results day = []) ->
  mapM (daily_score date_of self e name test_results) (weekdays monday) =
  Some (replicate 5 None).
Proof.
  intros Hnone. apply mapM_Some. unfold weekdays at 1. simpl.
  repeat constructor; unfold daily_score;
    rewrite Hnone by (apply weekdays_spec; lia); reflexivity.
Qed.


End WeeklyScoresFacts.

